(** * Bybit gateway: order identities, order book and push session

    A shallow embedding of [vnpy/gateway/bybit/bybit_gateway.py]: the REST
    callbacks of [BybitRestApi], the push handlers of [BybitWebsocketApi] and
    [BybitPublicWebsocketApi], and the properties the specification states
    about them.

    Conventions of the embedding.
    - A method is a computation over the gateway's mutable state that either
      returns or raises; a mutation made before an exception stays made.
    - A wire packet is a record with the keys the handlers read, holding the
      decoded JSON value.  A decimal that the code passes to [float()] and then
      only stores, compares or hashes (a price) is held as an integer in the
      venue's own fixed-point unit of 1e-4; an integer on the wire (a size, a
      quantity) is held as it is.
    - A float that the code computes from wire numbers by an operation that
      rounds (the difference of two balances) is kept as that operation on
      its operands.
    - A [datetime] is the instant of an aware UTC datetime, in microseconds.
    - The [gateway_name] that every trading object carries is the constant
      "BYBIT" and is left out of the records. *)

From Stdlib Require Import ZArith QArith String Ascii List Lia.
From stdpp Require Import base option list gmap strings sorting.

Open Scope Z_scope.

(** ** Python control flow *)

Inductive exn : Set :=
| KeyError | IndexError | TypeError | ValueError | AttributeError
| OverflowError | OSError.

Inductive outcome (A : Type) : Type :=
| Ok (a : A)
| Raise (e : exn).
Arguments Ok {A} a.
Arguments Raise {A} e.

(** A statement block over a store [S]: the store it leaves is returned on
    both exits. *)
Definition M (S A : Type) : Type := S -> outcome A * S.

Definition ret {S A} (a : A) : M S A := fun s => (Ok a, s).

Definition raise {S A} (e : exn) : M S A := fun s => (Raise e, s).

(** A call that returns or raises without touching the store. *)
Definition lift {S A} (r : outcome A) : M S A := fun s => (r, s).

Definition bind {S A B} (m : M S A) (k : A -> M S B) : M S B :=
  fun s =>
    match m s with
    | (Ok a, s') => k a s'
    | (Raise e, s') => (Raise e, s')
    end.

Definition gets {S A} (f : S -> A) : M S A := fun s => (Ok (f s), s).

Definition modify {S} (f : S -> S) : M S unit := fun s => (Ok tt, f s).

Declare Scope py_scope.
Delimit Scope py_scope with py.
Notation "x <- c1 ;; c2" := (bind c1 (fun x => c2))
  (at level 100, c1 at next level, right associativity) : py_scope.
Notation "c1 ;; c2" := (bind c1 (fun _ => c2))
  (at level 100, right associativity) : py_scope.
Open Scope py_scope.

(** [d[k]] on a dict and [l[i]] on a list, with [i >= 0]. *)
Definition getitem {S K V} `{Countable K} (d : gmap K V) (k : K) : M S V :=
  match d !! k with
  | Some v => ret v
  | None => raise KeyError
  end.

Definition index {S A} (l : list A) (i : nat) : M S A :=
  match l !! i with
  | Some v => ret v
  | None => raise IndexError
  end.

(** A required key of a JSON object that may be missing on the wire. *)
Definition key {S A} (field : option A) : M S A :=
  match field with
  | Some v => ret v
  | None => raise KeyError
  end.

(** [for x in l: body(x)] *)
Fixpoint for_each {S A} (l : list A) (body : A -> M S unit) : M S unit :=
  match l with
  | [] => ret tt
  | x :: l' => body x ;; for_each l' body
  end.

(** Run a block on a part of the store that the code holds by reference. *)
Definition zoom {S T A} (get : S -> T) (set : T -> S -> S) (m : M T A) : M S A :=
  fun s => let (r, t') := m (get s) in (r, set t' s).

(** ** Python scalars *)

(** A JSON scalar whose Python type the code does not fix. *)
Inductive scalar : Set :=
| SInt (z : Z)
| SStr (s : string)
| SNone.

(** [bool(v)]: what [if v] and [not v] test. *)
Definition truthy (v : scalar) : bool :=
  match v with
  | SInt z => negb (z =? 0)
  | SStr s => negb (String.eqb s "")
  | SNone => false
  end.

Definition digit (c : ascii) : option Z :=
  let n := nat_of_ascii c in
  if ((48 <=? n) && (n <=? 57))%nat then Some (Z.of_nat n - 48) else None.

Fixpoint digits (acc : Z) (s : string) : option Z :=
  match s with
  | EmptyString => Some acc
  | String c s' =>
      match digit c with
      | Some d => digits (10 * acc + d) s'
      | None => None
      end
  end.

(** [int(s)] for a string: an optional sign and decimal digits. *)
Definition int_of_str (s : string) : option Z :=
  match s with
  | EmptyString => None
  | String "-" (String _ _ as s') => Z.opp <$> digits 0 s'
  | String "+" (String _ _ as s') => digits 0 s'
  | _ => digits 0 s
  end.

Definition int {S} (v : scalar) : M S Z :=
  match v with
  | SInt z => ret z
  | SStr s =>
      match int_of_str s with
      | Some z => ret z
      | None => raise ValueError
      end
  | SNone => raise TypeError
  end.

(** [v / n] with [n] an int literal: true division, defined on numbers only. *)
Definition truediv {S} (v : scalar) (n : positive) : M S Q :=
  match v with
  | SInt z => ret (z # n)%Q
  | _ => raise TypeError
  end.

(** What an attribute holds that the code fills either with a quotient or
    with a wire value as it came. *)
Inductive value : Set :=
| VFloat (q : Q)
| VRaw (v : scalar).

(** [s.replace(old, new)] for a non-empty [old], which is all the source
    passes: occurrences are replaced left to right without overlap. *)
Fixpoint replace_from (old new : string) (skip : nat) (s : string) : string :=
  match s with
  | EmptyString => EmptyString
  | String c s' =>
      match skip with
      | S n => replace_from old new n s'
      | O =>
          if String.prefix old s
          then new +:+ replace_from old new (String.length old - 1) s'
          else String c (replace_from old new 0 s')
      end
  end.

Definition replace (s old new : string) : string := replace_from old new 0 s.

(** [s[:n]] *)
Definition str_take (n : nat) (s : string) : string := String.substring 0 n s.

(** ** Constants of [vnpy.trader.constant] that the gateway uses *)

Inductive Status : Set :=
| SUBMITTING | NOTTRADED | PARTTRADED | ALLTRADED | CANCELLED | REJECTED.

Inductive Direction : Set := LONG | SHORT | NET.

Inductive OrderType : Set := LIMIT | MARKET.

Inductive Exchange : Set := BYBIT.

Inductive Interval : Set := MINUTE | HOUR | DAILY | WEEKLY.

Definition STATUS_BYBIT2VT (k : string) : option Status :=
  if String.eqb k "Created" then Some NOTTRADED
  else if String.eqb k "New" then Some NOTTRADED
  else if String.eqb k "PartiallyFilled" then Some PARTTRADED
  else if String.eqb k "Filled" then Some ALLTRADED
  else if String.eqb k "Cancelled" then Some CANCELLED
  else if String.eqb k "Rejected" then Some REJECTED
  else None.

Definition DIRECTION_BYBIT2VT (k : string) : option Direction :=
  if String.eqb k "Buy" then Some LONG
  else if String.eqb k "Sell" then Some SHORT
  else None.

Definition ORDER_TYPE_BYBIT2VT (k : string) : option OrderType :=
  if String.eqb k "Limit" then Some LIMIT
  else if String.eqb k "Market" then Some MARKET
  else None.

Definition INTERVAL_VT2BYBIT (i : Interval) : string :=
  match i with
  | MINUTE => "1"
  | HOUR => "60"
  | DAILY => "D"
  | WEEKLY => "W"
  end.

(** [TIMEDELTA_MAP], in seconds. *)
Definition TIMEDELTA_MAP (i : Interval) : Z :=
  match i with
  | MINUTE => 60
  | HOUR => 3600
  | DAILY => 86400
  | WEEKLY => 7 * 86400
  end.


(** A table lookup [TABLE[k]]. *)
Definition table {S A} (t : string -> option A) (k : string) : M S A :=
  match t k with
  | Some v => ret v
  | None => raise KeyError
  end.

(** ** Trading objects of [vnpy.trader.object] *)

Definition datetime : Type := Z.
Definition seconds (s : Z) : datetime := s * 1000000.
(** [int(dt.timestamp())] *)
Definition timestamp (dt : datetime) : Z := Z.quot dt 1000000.

Module SubscribeRequest.
Record t : Type := mk { symbol : string; exchange : Exchange }.
End SubscribeRequest.

Module TickData.
Record t : Type := mk {
  symbol : string;
  exchange : Exchange;
  datetime_ : datetime;
  name : string;
  last_price : Q;
  volume : value;
  bid_price : gmap nat Z;     (* n |-> bid_price_n *)
  bid_volume : gmap nat Z;
  ask_price : gmap nat Z;
  ask_volume : gmap nat Z
}.

(** [TickData(symbol=, exchange=, datetime=, name=)]: the numeric attributes,
    among them the five depth levels of each kind, start at their declared
    default, 0. *)
Definition no_depth : gmap nat Z := map_seq 1 (replicate 5 0).

Definition new (symbol : string) (exchange : Exchange) (dt : datetime) : t :=
  mk symbol exchange dt symbol 0%Q (VFloat 0%Q)
     no_depth no_depth no_depth no_depth.

Definition set_last_price (v : Q) (k : t) : t :=
  mk (symbol k) (exchange k) (datetime_ k) (name k) v (volume k)
     (bid_price k) (bid_volume k) (ask_price k) (ask_volume k).
Definition set_volume (v : value) (k : t) : t :=
  mk (symbol k) (exchange k) (datetime_ k) (name k) (last_price k) v
     (bid_price k) (bid_volume k) (ask_price k) (ask_volume k).
Definition set_datetime (v : datetime) (k : t) : t :=
  mk (symbol k) (exchange k) v (name k) (last_price k) (volume k)
     (bid_price k) (bid_volume k) (ask_price k) (ask_volume k).
(** The four [setattr] calls for depth level [n]. *)
Definition set_depth (n : nat) (bp bv ap av : Z) (k : t) : t :=
  mk (symbol k) (exchange k) (datetime_ k) (name k) (last_price k) (volume k)
     (<[n := bp]> (bid_price k)) (<[n := bv]> (bid_volume k))
     (<[n := ap]> (ask_price k)) (<[n := av]> (ask_volume k)).
End TickData.

Module OrderData.
Record t : Type := mk {
  symbol : string;
  exchange : Exchange;
  orderid : string;
  type : OrderType;
  direction : Direction;
  price : Z;
  volume : Z;
  traded : Z;
  status : Status;
  datetime_ : datetime
}.

Definition set_status (v : Status) (o : t) : t :=
  mk (symbol o) (exchange o) (orderid o) (type o) (direction o) (price o)
     (volume o) (traded o) v (datetime_ o).
Definition set_traded (v : Z) (o : t) : t :=
  mk (symbol o) (exchange o) (orderid o) (type o) (direction o) (price o)
     (volume o) v (status o) (datetime_ o).
Definition set_datetime (v : datetime) (o : t) : t :=
  mk (symbol o) (exchange o) (orderid o) (type o) (direction o) (price o)
     (volume o) (traded o) (status o) v.
End OrderData.

Module TradeData.
Record t : Type := mk {
  symbol : string;
  exchange : Exchange;
  orderid : string;
  tradeid : string;
  direction : Direction;
  price : Z;
  volume : Z;
  datetime_ : datetime
}.
End TradeData.

Module PositionData.
Record t : Type := mk {
  symbol : string;
  exchange : Exchange;
  direction : Direction;
  volume : Z;
  price : Z
}.
End PositionData.

(** The float [a - b] of two wire numbers, kept by its operands: a float
    subtraction rounds, so the result is not the exact difference in
    general. *)
Inductive float_sub : Set := FloatSub (a b : Z).

Module AccountData.
Record t : Type := mk { accountid : string; balance : Z; frozen : float_sub }.
End AccountData.

Module BarData.
Record t : Type := mk {
  symbol : string;
  exchange : Exchange;
  datetime_ : datetime;
  interval : Interval;
  volume : Z;
  open_price : Z;
  high_price : Z;
  low_price : Z;
  close_price : Z
}.
End BarData.

Module HistoryRequest.
Record t : Type := mk {
  symbol : string;
  exchange : Exchange;
  start : datetime;
  interval : Interval
}.
End HistoryRequest.


(** ** Wire records *)

(** A row of [orderBookL2_25]: [d["price"]] after [float()], [d["side"]],
    [d["size"]] (unused in a delete row). *)
Module Level.
Record t : Type := mk { price : Z; side : string; size : Z }.
End Level.

(** A row of the [order] topic and of the REST order list. *)
Module OrderMsg.
Record t : Type := mk {
  order_id : string;
  order_link_id : string;
  symbol : string;
  order_type : string;
  side : string;
  price : Z;
  qty : Z;
  cum_exec_qty : Z;
  order_status : string;
  timestamp : string;       (* push rows *)
  created_at : string       (* REST rows *)
}.
End OrderMsg.

Module TradeMsg.
Record t : Type := mk {
  order_id : string;
  order_link_id : string;
  symbol : string;
  exec_id : string;
  side : string;
  price : Z;
  exec_qty : Z;
  trade_time : string
}.
End TradeMsg.

Module PositionMsg.
Record t : Type := mk {
  symbol : string;
  side : string;
  size : Z;
  entry_price : Z
}.
End PositionMsg.

Module AccountMsg.
Record t : Type := mk { wallet_balance : Z; available_balance : Z }.
End AccountMsg.

(** The keys of an [instrument_info] object that [on_tick] reads; a delta
    carries only the keys that changed. *)
Module TickMsg.
Record t : Type := mk {
  last_price_e4 : option scalar;
  volume_24h_e8 : option scalar;
  volume_24h : option scalar;
  updated_at : option string
}.
End TickMsg.

(** [packet["data"]], by topic family. *)
Inductive payload : Type :=
| TickFields (fields : TickMsg.t) (update : option (list TickMsg.t))
| BookSnapshot (order_book : list Level.t)
| BookDelta (delete update insert : list Level.t)
| Orders (rows : list OrderMsg.t)
| Trades (rows : list TradeMsg.t)
| Positions (rows : list PositionMsg.t)
| Accounts (rows : list AccountMsg.t)
| NoData.

Module Packet.
Record t : Type := mk {
  topic : option string;          (* absent on a reply to a request *)
  type_ : string;
  data : payload;
  timestamp_e6 : scalar;
  request_op : option string;     (* packet["request"]["op"] *)
  success : option bool
}.
End Packet.

(** An outbound push-channel frame [{"op": op, "args": args}]. *)
Record frame : Type := { op : string; args : list string }.

(** The JSON body of a REST reply. *)
Module Reply.
Record t (R : Type) : Type := mk { ret_code : Z; ret_msg : string; result : R }.
Arguments mk {R} _ _ _.
Arguments ret_code {R} _.
Arguments ret_msg {R} _.
Arguments result {R} _.
End Reply.

Module OrderAck.
Record t : Type := mk { order_link_id : string; order_id : string }.
End OrderAck.

Module OrderPage.
Record t : Type := mk { data : list OrderMsg.t; current_page : Z; last_page : Z }.
End OrderPage.

Module Kline.
Record t : Type := mk {
  open_time : Z;
  volume : Z;
  open : Z;
  high : Z;
  low : Z;
  close : Z
}.
End Kline.

(** [requests.Response] of the blocking [RestClient.request]. *)
Module HttpResponse.
Record t : Type := mk { status_code : Z; text : string; json : Reply.t (list Kline.t) }.
End HttpResponse.

(** A call of [RestClient.add_request] or [RestClient.request]. *)
Module Request.
Record t : Type := mk {
  method : string;
  path : string;
  params : list (string * scalar);
  extra : option OrderData.t
}.
End Request.

(** The exception classes [issubclass] is asked about: [requests]'
    [ConnectionError] with its subclasses, and any other class. *)
Inductive exception_type : Set :=
| ConnectionError | ProxyError | SSLError | ConnectTimeout
| OtherException (name : string).

Definition issubclass_ConnectionError (t : exception_type) : bool :=
  match t with
  | ConnectionError | ProxyError | SSLError | ConnectTimeout => true
  | OtherException _ => false
  end.

(** ** Events the gateway emits *)

(** The requests [check_error] is called for, by the name it is passed. *)
Inductive request_name : Set := SendOrder | QueryOrder.

(** The texts given to [write_log], by the place that writes them. *)
Inductive log_message : Type :=
| LogCheckError (name : request_name) (error_code : Z) (error_msg : string)
| LogException (t : exception_type) (value : string)
| LogQueryOrderDone
| LogHistoryStatus (status_code : Z) (text : string)
| LogHistoryError (ret_msg : string)
| LogHistoryEmpty (start_time count : Z)
| LogHistoryDone (symbol : string) (interval : Interval) (begin end_ : datetime)
| LogLoginDone
| LogLoginFailed
| LogAlreadyBound (local_orderid sys_orderid : string)
| LogIdentityConflict (local_orderid sys_orderid : string).

Inductive event : Type :=
| EvLog (m : log_message)
| EvTick (t : TickData.t)
| EvOrder (o : OrderData.t)
| EvTrade (t : TradeData.t)
| EvPosition (p : PositionData.t)
| EvAccount (a : AccountData.t).

(** ** Mutable state *)

(** The bound methods a session stores in [callbacks]. *)
Inductive handler : Set :=
| h_on_tick | h_on_depth | h_on_order | h_on_trade | h_on_position | h_on_account.

(** One symbol's two book sides. *)
Module Book.
Record t : Type := mk { bids : gmap Z Level.t; asks : gmap Z Level.t }.
End Book.

(** The attributes the two push sessions share.  [subscribed] is a dict in
    insertion order, keyed by the request's own symbol. *)
Module WsApi.
Record t : Type := mk {
  callbacks : gmap string handler;
  ticks : gmap string TickData.t;
  subscribed : list SubscribeRequest.t;
  symbol_bids : gmap string (gmap Z Level.t);
  symbol_asks : gmap string (gmap Z Level.t);
  sent : list frame
}.
Definition init : t := mk ∅ ∅ [] ∅ ∅ [].
Definition set_callbacks v (w : t) : t :=
  mk v (ticks w) (subscribed w) (symbol_bids w) (symbol_asks w) (sent w).
Definition set_ticks v (w : t) : t :=
  mk (callbacks w) v (subscribed w) (symbol_bids w) (symbol_asks w) (sent w).
Definition set_subscribed v (w : t) : t :=
  mk (callbacks w) (ticks w) v (symbol_bids w) (symbol_asks w) (sent w).
Definition set_symbol_bids v (w : t) : t :=
  mk (callbacks w) (ticks w) (subscribed w) v (symbol_asks w) (sent w).
Definition set_symbol_asks v (w : t) : t :=
  mk (callbacks w) (ticks w) (subscribed w) (symbol_bids w) v (sent w).
Definition set_sent v (w : t) : t :=
  mk (callbacks w) (ticks w) (subscribed w) (symbol_bids w) (symbol_asks w) v.
End WsApi.

(** Modelled from the spec: the state of [LocalOrderManager]
    ([vnpy.trader.gateway], which the repository keeps outside this gateway's
    file).  The spec's Identity Map is a table local id <-> venue id unique in
    both directions; the LocalOrder records are indexed by local id. *)
Module LocalOrderManager.
Record t : Type := mk {
  local_sys_orderid_map : gmap string string;
  sys_local_orderid_map : gmap string string;
  orders : gmap string OrderData.t
}.
Definition init : t := mk ∅ ∅ ∅.
End LocalOrderManager.

(** What the process reads from its host: the clock, and the two library
    calls whose result depends on the host's locale and time zone. *)
Module Host.
Record t : Type := mk {
  now : datetime;                         (* datetime.now(UTC_TZ) *)
  strptime : string -> option datetime;   (* format "%Y-%m-%dT%H:%M:%S.%fZ"; None: ValueError *)
  fromtimestamp : Z -> Z;                 (* local wall clock at a POSIX second, in seconds *)
  fromtimestamp_e6 : Z -> outcome datetime
    (* datetime.fromtimestamp(us / 1_000_000).astimezone(UTC_TZ) for an int
       [us]: the instant as the float division and the library round it, or
       what the library raises outside the range of the platform's clock and
       of datetime (ValueError, OverflowError, OSError) *)
}.
End Host.

(** The gateway with the objects it owns.  [order_manager] is the one object
    that [rest_api] and [ws_api] both hold. *)
Module Gateway.
Record t : Type := mk {
  host : Host.t;
  usdt_base : bool;
  events : list event;                    (* on_* and write_log, oldest first *)
  stderr : list (exception_type * string);
  order_manager : LocalOrderManager.t;
  requests : list Request.t;              (* REST calls made, oldest first *)
  ws_api : WsApi.t;
  public_ws_api : WsApi.t
}.
Definition init (h : Host.t) (usdt : bool) : t :=
  mk h usdt [] [] LocalOrderManager.init [] WsApi.init WsApi.init.
Definition set_events v (g : t) : t :=
  mk (host g) (usdt_base g) v (stderr g) (order_manager g) (requests g)
     (ws_api g) (public_ws_api g).
Definition set_stderr v (g : t) : t :=
  mk (host g) (usdt_base g) (events g) v (order_manager g) (requests g)
     (ws_api g) (public_ws_api g).
Definition set_order_manager v (g : t) : t :=
  mk (host g) (usdt_base g) (events g) (stderr g) v (requests g)
     (ws_api g) (public_ws_api g).
Definition set_requests v (g : t) : t :=
  mk (host g) (usdt_base g) (events g) (stderr g) (order_manager g) v
     (ws_api g) (public_ws_api g).
Definition set_ws_api v (g : t) : t :=
  mk (host g) (usdt_base g) (events g) (stderr g) (order_manager g) (requests g)
     v (public_ws_api g).
Definition set_public_ws_api v (g : t) : t :=
  mk (host g) (usdt_base g) (events g) (stderr g) (order_manager g) (requests g)
     (ws_api g) v.
End Gateway.

(** [self.gateway.write_log], [on_tick], [on_order], ... of [BaseGateway]:
    fire-and-forget events, kept in arrival order. *)
Definition emit (e : event) : M Gateway.t unit :=
  modify (fun g => Gateway.set_events (Gateway.events g ++ [e]) g).

Definition write_log (m : log_message) : M Gateway.t unit := emit (EvLog m).

(** [generate_datetime]: parse, then label the result UTC. *)
Definition generate_datetime (timestamp : string) : M Gateway.t datetime :=
  h <- gets Gateway.host ;;
  match Host.strptime h timestamp with
  | Some dt => ret dt
  | None => raise ValueError
  end.

(** ** The order manager *)

Module OrderManager.

(** Modelled from the spec: [LocalOrderManager.update_orderid_map], which is
    the spec's [bind(local_id, venue_id)].  It fails with AlreadyBound when the
    local id already maps to a different venue id, and with IdentityConflict
    when the venue id is already bound to a different local id; both are
    logged, neither is fatal, and the existing binding is preserved.
    Otherwise both directions of the table learn the pair. *)
Definition update_orderid_map (local_orderid sys_orderid : string)
  : M Gateway.t unit :=
  om <- gets Gateway.order_manager ;;
  match LocalOrderManager.local_sys_orderid_map om !! local_orderid,
        LocalOrderManager.sys_local_orderid_map om !! sys_orderid with
  | Some s, _ =>
      if negb (String.eqb s sys_orderid)
      then write_log (LogAlreadyBound local_orderid sys_orderid)
      else ret tt
  | None, Some l =>
      if negb (String.eqb l local_orderid)
      then write_log (LogIdentityConflict local_orderid sys_orderid)
      else ret tt
  | None, None =>
      modify (Gateway.set_order_manager
                (LocalOrderManager.mk
                   (<[local_orderid := sys_orderid]>
                      (LocalOrderManager.local_sys_orderid_map om))
                   (<[sys_orderid := local_orderid]>
                      (LocalOrderManager.sys_local_orderid_map om))
                   (LocalOrderManager.orders om)))
  end.


Definition get_local_orderid (om : LocalOrderManager.t) (sys_orderid : string)
  : option string :=
  LocalOrderManager.sys_local_orderid_map om !! sys_orderid.

(** Modelled from the spec: [LocalOrderManager.get_order_with_sys_orderid],
    the lookup half of the spec's [resolveOrCreate]: if the venue id is
    bound, the existing LocalOrder; [None] otherwise. *)
Definition get_order_with_sys_orderid (sys_orderid : string)
  : M Gateway.t (option OrderData.t) :=
  om <- gets Gateway.order_manager ;;
  ret (match get_local_orderid om sys_orderid with
       | Some l => LocalOrderManager.orders om !! l
       | None => None
       end).

(** Modelled from the spec: [LocalOrderManager.on_order]; the record is kept
    under its local id and the normalized order event is emitted. *)
Definition on_order (order : OrderData.t) : M Gateway.t unit :=
  modify (fun g =>
    let om := Gateway.order_manager g in
    Gateway.set_order_manager
      (LocalOrderManager.mk
         (LocalOrderManager.local_sys_orderid_map om)
         (LocalOrderManager.sys_local_orderid_map om)
         (<[OrderData.orderid order := order]> (LocalOrderManager.orders om)))
      g) ;;
  emit (EvOrder order).

End OrderManager.

(** ** REST callbacks *)

Module Rest.

Definition add_request (r : Request.t) : M Gateway.t unit :=
  modify (fun g => Gateway.set_requests (Gateway.requests g ++ [r]) g).

Definition check_error {R} (name : request_name) (data : Reply.t R)
  : M Gateway.t bool :=
  if negb (Reply.ret_code data =? 0)
  then
    write_log (LogCheckError name (Reply.ret_code data) (Reply.ret_msg data)) ;;
    ret true
  else ret false.

Definition on_error (exception_type : exception_type) (exception_value : string)
  : M Gateway.t unit :=
  write_log (LogException exception_type exception_value) ;;
  modify (fun g =>
    Gateway.set_stderr (Gateway.stderr g ++ [(exception_type, exception_value)]) g).

Definition on_send_order_error
    (exception_type : exception_type) (exception_value : string)
    (request : Request.t) : M Gateway.t unit :=
  match Request.extra request with
  | None => raise AttributeError
  | Some order =>
      let order := OrderData.set_status REJECTED order in
      OrderManager.on_order order ;;
      (* Record exception if not ConnectionError *)
      if negb (issubclass_ConnectionError exception_type)
      then on_error exception_type exception_value
      else ret tt
  end.

Definition on_send_order (data : Reply.t OrderAck.t) : M Gateway.t unit :=
  failed <- check_error SendOrder data ;;
  if failed : bool then ret tt
  else
    let result := Reply.result data in
    OrderManager.update_orderid_map
      (OrderAck.order_link_id result) (OrderAck.order_id result).



(** The page size [count] of [query_history]. *)
Definition count : nat := 200.

Definition bar_of (req : HistoryRequest.t) (h : Host.t) (d : Kline.t) : BarData.t :=
  BarData.mk (HistoryRequest.symbol req) (HistoryRequest.exchange req)
    (seconds (Host.fromtimestamp h (Kline.open_time d)))
    (HistoryRequest.interval req)
    (Kline.volume d) (Kline.open d) (Kline.high d) (Kline.low d) (Kline.close d).

(** The [while True] loop of [query_history], run for at most [fuel] requests;
    [None] when the fuel runs out before the loop breaks.  [venue n from] is
    the reply to the [n]-th request of the run, asked from cursor [from]. *)
Fixpoint query_history_loop (fuel : nat) (venue : nat -> Z -> HttpResponse.t)
    (req : HistoryRequest.t) (n : nat) (start_time : Z)
    (history : list BarData.t) : M Gateway.t (option (list BarData.t)) :=
  match fuel with
  | O => ret None
  | S fuel' =>
      add_request
        (Request.mk "GET" "/v2/public/kline/list"
           [("symbol", SStr (HistoryRequest.symbol req));
            ("interval", SStr (INTERVAL_VT2BYBIT (HistoryRequest.interval req)));
            ("from", SInt start_time);
            ("limit", SInt (Z.of_nat count))]
           None) ;;
      let resp := venue n start_time in
      (* Break if request failed with other status code *)
      if negb (HttpResponse.status_code resp / 100 =? 2)
      then
        write_log (LogHistoryStatus (HttpResponse.status_code resp)
                     (HttpResponse.text resp)) ;;
        ret (Some history)
      else
        let data := HttpResponse.json resp in
        if negb (Reply.ret_code data =? 0)
        then
          write_log (LogHistoryError (Reply.ret_msg data)) ;;
          ret (Some history)
        else
          match Reply.result data with
          | [] =>
              write_log (LogHistoryEmpty start_time (Z.of_nat count)) ;;
              ret (Some history)
          | d0 :: _ =>
              h <- gets Gateway.host ;;
              let buf := bar_of req h <$> Reply.result data in
              let history := history ++ buf in
              let begin := bar_of req h d0 in
              let bar := List.last buf begin in
              write_log
                (LogHistoryDone (HistoryRequest.symbol req)
                   (HistoryRequest.interval req)
                   (BarData.datetime_ begin) (BarData.datetime_ bar)) ;;
              (* Break if last data collected *)
              if (length buf <? count)%nat
              then ret (Some history)
              else
                (* Update start time *)
                query_history_loop fuel' venue req (S n)
                  (timestamp (BarData.datetime_ bar
                              + seconds (TIMEDELTA_MAP (HistoryRequest.interval req))))
                  history
          end
  end.

Definition query_history (fuel : nat) (venue : nat -> Z -> HttpResponse.t)
    (req : HistoryRequest.t) : M Gateway.t (option (list BarData.t)) :=
  query_history_loop fuel venue req 0 (timestamp (HistoryRequest.start req)) [].

End Rest.

(** ** Push sessions *)

(** The two session classes: [BybitWebsocketApi] (private channel, and the
    market data of inverse contracts) and [BybitPublicWebsocketApi] (market
    data of USDT contracts).  A method that both classes define with the same
    text is given once, with the class as [self]. *)
Inductive api : Set := Private | Public.

Module Ws.

Definition this (self : api) (g : Gateway.t) : WsApi.t :=
  match self with
  | Private => Gateway.ws_api g
  | Public => Gateway.public_ws_api g
  end.

Definition set_this (self : api) (w : WsApi.t) (g : Gateway.t) : Gateway.t :=
  match self with
  | Private => Gateway.set_ws_api w g
  | Public => Gateway.set_public_ws_api w g
  end.

Definition update (self : api) (f : WsApi.t -> WsApi.t) : M Gateway.t unit :=
  modify (fun g => set_this self (f (this self g)) g).

(** [WebsocketClient.send_packet] *)
Definition send_packet (self : api) (req : frame) : M Gateway.t unit :=
  update self (fun w => WsApi.set_sent (WsApi.sent w ++ [req]) w).

Definition subscribe_topic (self : api) (topic : string) (callback : handler)
  : M Gateway.t unit :=
  update self (fun w => WsApi.set_callbacks (<[topic := callback]> (WsApi.callbacks w)) w) ;;
  send_packet self {| op := "subscribe"; args := [topic] |}.

(** [self.subscribed[req.symbol] = req] *)
Fixpoint subscribed_set (req : SubscribeRequest.t) (l : list SubscribeRequest.t)
  : list SubscribeRequest.t :=
  match l with
  | [] => [req]
  | r :: l' =>
      if String.eqb (SubscribeRequest.symbol r) (SubscribeRequest.symbol req)
      then req :: l'
      else r :: subscribed_set req l'
  end.

Definition subscribe (self : api) (req : SubscribeRequest.t) : M Gateway.t unit :=
  update self (fun w => WsApi.set_subscribed (subscribed_set req (WsApi.subscribed w)) w) ;;
  h <- gets Gateway.host ;;
  let tick :=
    TickData.new (SubscribeRequest.symbol req) (SubscribeRequest.exchange req)
      (Host.now h) in
  update self (fun w =>
    WsApi.set_ticks (<[SubscribeRequest.symbol req := tick]> (WsApi.ticks w)) w) ;;
  subscribe_topic self ("instrument_info.100ms." +:+ SubscribeRequest.symbol req) h_on_tick ;;
  subscribe_topic self ("orderBookL2_25." +:+ SubscribeRequest.symbol req) h_on_depth.

(** [self.ticks[symbol]], and an assignment to an attribute of that object. *)
Definition tick_of (self : api) (symbol : string) : M Gateway.t TickData.t :=
  w <- gets (this self) ;;
  getitem (WsApi.ticks w) symbol.

Definition tick_set (self : api) (symbol : string) (f : TickData.t -> TickData.t)
  : M Gateway.t unit :=
  update self (fun w => WsApi.set_ticks (alter f symbol (WsApi.ticks w)) w).

(** [int(packet["timestamp_e6"][:10])] of the public class. *)
Definition timestamp_prefix (packet : Packet.t) : M Gateway.t Z :=
  match Packet.timestamp_e6 packet with
  | SStr s => int (SStr (str_take 10 s))
  | _ => raise TypeError
  end.

(** [int(v) / n] in the public class, [v / n] in the private one. *)
Definition scaled (self : api) (v : scalar) (n : positive) : M Gateway.t Q :=
  match self with
  | Public => z <- int v ;; ret (z # n)%Q
  | Private => truediv v n
  end.

(** The volume key of a tick object and the attribute value made of it. *)
Definition volume_key (self : api) (d : TickMsg.t) : option scalar :=
  match self with
  | Public => TickMsg.volume_24h_e8 d
  | Private => TickMsg.volume_24h d
  end.

Definition volume_of (self : api) (v : scalar) : M Gateway.t value :=
  match self with
  | Public => q <- scaled Public v 100000000 ;; ret (VFloat q)
  | Private => ret (VRaw v)
  end.

(** [on_tick]; the result of the first block is [false] where the source
    returns before the tick is stamped and pushed. *)
Definition on_tick (self : api) (packet : Packet.t) : M Gateway.t unit :=
  topic <- key (Packet.topic packet) ;;
  let type_ := Packet.type_ packet in
  timestamp <- match self with
               | Public => timestamp_prefix packet
               | Private => ret 0
               end ;;
  let symbol := replace topic "instrument_info.100ms." "" in
  _ <- tick_of self symbol ;;
  match Packet.data packet with
  | TickFields data updates =>
      continue <-
        (if String.eqb type_ "snapshot"
         then
           last_price_e4 <- key (TickMsg.last_price_e4 data) ;;
           if negb (truthy last_price_e4)       (* Filter last price with 0 value *)
           then ret false
           else
             last_price <- scaled self last_price_e4 10000 ;;
             tick_set self symbol (TickData.set_last_price last_price) ;;
             v <- key (volume_key self data) ;;
             volume <- volume_of self v ;;
             tick_set self symbol (TickData.set_volume volume) ;;
             ret true
         else
           rows <- key updates ;;
           update <- index rows 0 ;;
           proceed <-
             match TickMsg.last_price_e4 update with
             | Some last_price_e4 =>
                 if negb (truthy last_price_e4) (* Filter last price with 0 value *)
                 then ret false
                 else
                   last_price <- scaled self last_price_e4 10000 ;;
                   tick_set self symbol (TickData.set_last_price last_price) ;;
                   ret true
             | None => ret true
             end ;;
           if proceed : bool
           then
             match volume_key self update with
             | Some v =>
                 volume <- volume_of self v ;;
                 tick_set self symbol (TickData.set_volume volume)
             | None => ret tt
             end ;;
             ret true
           else ret false) ;;
      if continue : bool
      then
        dt <- match self with
              | Public =>
                  h <- gets Gateway.host ;;
                  ret (seconds (Host.fromtimestamp h timestamp))
              | Private =>
                  updated_at <- key (TickMsg.updated_at data) ;;
                  generate_datetime updated_at
              end ;;
        tick_set self symbol (TickData.set_datetime dt) ;;
        tick <- tick_of self symbol ;;
        emit (EvTick tick)
      else ret tt
  | _ => raise TypeError
  end.

(** *** The order book *)

Definition is_buy (d : Level.t) : bool := String.eqb (Level.side d) "Buy".

(** One turn of the loop over [data["delete"]]: [bids.pop(price)] or
    [asks.pop(price)], which raises when the price is not a key. *)
Definition book_pop (d : Level.t) : M Book.t unit :=
  fun b =>
    let price := Level.price d in
    if is_buy d
    then
      match Book.bids b !! price with
      | Some _ => (Ok tt, Book.mk (delete price (Book.bids b)) (Book.asks b))
      | None => (Raise KeyError, b)
      end
    else
      match Book.asks b !! price with
      | Some _ => (Ok tt, Book.mk (Book.bids b) (delete price (Book.asks b)))
      | None => (Raise KeyError, b)
      end.

(** One turn of a loop that stores rows: [bids[price] = d] or
    [asks[price] = d]. *)
Definition book_put (d : Level.t) : M Book.t unit :=
  modify (fun b =>
    let price := Level.price d in
    if is_buy d
    then Book.mk (<[price := d]> (Book.bids b)) (Book.asks b)
    else Book.mk (Book.bids b) (<[price := d]> (Book.asks b))).

(** [self.symbol_bids.setdefault(symbol, {})], and the same for the asks. *)
Definition setdefault (symbol : string) (w : WsApi.t) : WsApi.t :=
  let w :=
    match WsApi.symbol_bids w !! symbol with
    | Some _ => w
    | None => WsApi.set_symbol_bids (<[symbol := ∅]> (WsApi.symbol_bids w)) w
    end in
  match WsApi.symbol_asks w !! symbol with
  | Some _ => w
  | None => WsApi.set_symbol_asks (<[symbol := ∅]> (WsApi.symbol_asks w)) w
  end.

(** The two dicts [bids] and [asks] that [on_depth] holds for a symbol. *)
Definition book_of (self : api) (symbol : string) (g : Gateway.t) : Book.t :=
  let w := this self g in
  Book.mk (default ∅ (WsApi.symbol_bids w !! symbol))
          (default ∅ (WsApi.symbol_asks w !! symbol)).

Definition book_store (self : api) (symbol : string) (b : Book.t) (g : Gateway.t)
  : Gateway.t :=
  let w := this self g in
  set_this self
    (WsApi.set_symbol_asks (<[symbol := Book.asks b]> (WsApi.symbol_asks w))
       (WsApi.set_symbol_bids (<[symbol := Book.bids b]> (WsApi.symbol_bids w)) w))
    g.

(** A block that mutates [bids] and [asks] in place. *)
Definition on_book {A} (self : api) (symbol : string) (m : M Book.t A)
  : M Gateway.t A :=
  zoom (book_of self symbol) (book_store self symbol) m.

(** The rows of a snapshot ([data] in the private class,
    [data["order_book"]] in the public one); a payload of another shape
    raises at the first subscript on it. *)
Definition shape_error {A} (self : api) : M Gateway.t A :=
  match self with
  | Private => raise TypeError
  | Public => raise KeyError
  end.

Definition keys (side : gmap Z Level.t) : list Z := fst <$> map_to_list side.

(** [bid_keys.sort(reverse=True)] and [ask_keys.sort()] *)
Definition bid_keys (b : Book.t) : list Z := merge_sort (flip Z.le) (keys (Book.bids b)).
Definition ask_keys (b : Book.t) : list Z := merge_sort Z.le (keys (Book.asks b)).

(** The body of [for i in range(5)]. *)
Definition depth_slot (self : api) (symbol : string) (b : Book.t) (i : nat)
  : M Gateway.t unit :=
  let n := (i + 1)%nat in
  bid_price <- index (bid_keys b) i ;;
  bid_data <- getitem (Book.bids b) bid_price ;;
  ask_price <- index (ask_keys b) i ;;
  ask_data <- getitem (Book.asks b) ask_price ;;
  tick_set self symbol
    (TickData.set_depth n bid_price (Level.size bid_data)
       ask_price (Level.size ask_data)).

Definition on_depth (self : api) (packet : Packet.t) : M Gateway.t unit :=
  topic <- key (Packet.topic packet) ;;
  let type_ := Packet.type_ packet in
  let data := Packet.data packet in
  timestamp <- match self with
               | Public => timestamp_prefix packet
               | Private => ret 0
               end ;;
  (* Update depth data into dict buf *)
  let symbol := replace topic "orderBookL2_25." "" in
  _ <- tick_of self symbol ;;
  update self (setdefault symbol) ;;
  (if String.eqb type_ "snapshot"
   then
     match data with
     | BookSnapshot order_book => on_book self symbol (for_each order_book book_put)
     | _ => shape_error self
     end
   else
     match data with
     | BookDelta delete update insert =>
         on_book self symbol
           (for_each delete book_pop ;;
            for_each (update ++ insert) book_put)
     | _ => shape_error self
     end) ;;
  (* Calculate 1-5 bid/ask depth *)
  b <- gets (book_of self symbol) ;;
  for_each (seq 0 5) (depth_slot self symbol b) ;;
  dt <- match self with
        | Public => ret (seconds timestamp)
        | Private =>
            match Packet.timestamp_e6 packet with
            | SInt us =>
                h <- gets Gateway.host ;;
                lift (Host.fromtimestamp_e6 h us)
            | _ => raise TypeError
            end
        end ;;
  tick_set self symbol (TickData.set_datetime dt) ;;
  tick <- tick_of self symbol ;;
  emit (EvTick tick).

(** *** Private topics *)

Definition on_account (packet : Packet.t) : M Gateway.t unit :=
  match Packet.data packet with
  | Accounts rows =>
      for_each rows (fun d =>
        emit (EvAccount
                (AccountData.mk "USDT" (AccountMsg.wallet_balance d)
                   (FloatSub (AccountMsg.wallet_balance d)
                      (AccountMsg.available_balance d)))))
  | _ => raise TypeError
  end.

Definition on_trade (packet : Packet.t) : M Gateway.t unit :=
  match Packet.data packet with
  | Trades rows =>
      for_each rows (fun d =>
        let order_id :=
          if String.eqb (TradeMsg.order_link_id d) ""
          then TradeMsg.order_id d
          else TradeMsg.order_link_id d in
        direction <- table DIRECTION_BYBIT2VT (TradeMsg.side d) ;;
        dt <- generate_datetime (TradeMsg.trade_time d) ;;
        emit (EvTrade
                (TradeData.mk (TradeMsg.symbol d) BYBIT order_id (TradeMsg.exec_id d)
                   direction (TradeMsg.price d) (TradeMsg.exec_qty d) dt)))
  | _ => raise TypeError
  end.

Definition on_order (packet : Packet.t) : M Gateway.t unit :=
  match Packet.data packet with
  | Orders rows =>
      for_each rows (fun d =>
        let sys_orderid := OrderMsg.order_id d in
        found <- OrderManager.get_order_with_sys_orderid sys_orderid ;;
        order <-
          match found with
          | Some order =>
              let order := OrderData.set_traded (OrderMsg.cum_exec_qty d) order in
              status <- table STATUS_BYBIT2VT (OrderMsg.order_status d) ;;
              let order := OrderData.set_status status order in
              dt <- generate_datetime (OrderMsg.timestamp d) ;;
              ret (OrderData.set_datetime dt order)
          | None =>
              (* Use sys_orderid as local_orderid when order placed from
                 other source *)
              let local_orderid :=
                if String.eqb (OrderMsg.order_link_id d) ""
                then sys_orderid
                else OrderMsg.order_link_id d in
              OrderManager.update_orderid_map local_orderid sys_orderid ;;
              type <- table ORDER_TYPE_BYBIT2VT (OrderMsg.order_type d) ;;
              direction <- table DIRECTION_BYBIT2VT (OrderMsg.side d) ;;
              status <- table STATUS_BYBIT2VT (OrderMsg.order_status d) ;;
              dt <- generate_datetime (OrderMsg.timestamp d) ;;
              ret (OrderData.mk (OrderMsg.symbol d) BYBIT local_orderid type
                     direction (OrderMsg.price d) (OrderMsg.qty d)
                     (OrderMsg.cum_exec_qty d) status dt)
          end ;;
        OrderManager.on_order order)
  | _ => raise TypeError
  end.

Definition on_position (packet : Packet.t) : M Gateway.t unit :=
  match Packet.data packet with
  | Positions rows =>
      for_each rows (fun d =>
        let volume :=
          if String.eqb (PositionMsg.side d) "Buy"
          then PositionMsg.size d
          else - PositionMsg.size d in
        emit (EvPosition
                (PositionData.mk (PositionMsg.symbol d) BYBIT NET volume
                   (PositionMsg.entry_price d))))
  | _ => raise TypeError
  end.

(** *** Login and routing *)

(** [on_login] is a method of the private class only. *)
Definition on_login (self : api) (packet : Packet.t) : M Gateway.t unit :=
  match self with
  | Public => raise AttributeError
  | Private =>
      let success := default false (Packet.success packet) in
      if success
      then
        write_log LogLoginDone ;;
        subscribe_topic self "order" h_on_order ;;
        subscribe_topic self "execution" h_on_trade ;;
        subscribe_topic self "position" h_on_position ;;
        usdt_base <- gets Gateway.usdt_base ;;
        (if usdt_base : bool
         then subscribe_topic self "wallet" h_on_account
         else ret tt) ;;
        w <- gets (this self) ;;
        for_each (WsApi.subscribed w) (subscribe self)
      else write_log LogLoginFailed
  end.

(** [callback(packet)] for a bound method held in [callbacks]; the public
    class has the two market-data handlers only. *)
Definition call (self : api) (callback : handler) (packet : Packet.t)
  : M Gateway.t unit :=
  match callback, self with
  | h_on_tick, _ => on_tick self packet
  | h_on_depth, _ => on_depth self packet
  | h_on_order, Private => on_order packet
  | h_on_trade, Private => on_trade packet
  | h_on_position, Private => on_position packet
  | h_on_account, Private => on_account packet
  | _, Public => raise AttributeError
  end.

Definition on_packet (self : api) (packet : Packet.t) : M Gateway.t unit :=
  match Packet.topic packet with
  | None =>
      op <- key (Packet.request_op packet) ;;
      if String.eqb op "auth"
      then on_login self packet
      else ret tt
  | Some channel =>
      w <- gets (this self) ;;
      callback <- getitem (WsApi.callbacks w) channel ;;
      call self callback packet
  end.

End Ws.


(** ** The gateway facade *)

Module BybitGateway.

(** [subscribe]: market data of USDT contracts goes to the public session,
    that of inverse contracts to the private one. *)
Definition subscribe (req : SubscribeRequest.t) : M Gateway.t unit :=
  usdt_base <- gets Gateway.usdt_base ;;
  if usdt_base : bool
  then Ws.subscribe Public req
  else Ws.subscribe Private req.

End BybitGateway.

(** ** REST callbacks of a cancellation *)

Module Cancel.


(** [on_cancel_order] passes [check_error] the name that [on_send_order]
    passes. *)
Definition on_cancel_order {R} (data : Reply.t R) : M Gateway.t unit :=
  failed <- Rest.check_error SendOrder data ;;
  if failed : bool then ret tt else ret tt.

End Cancel.
(** ** Definitions used to state the properties *)

Definition is_log (e : event) : bool :=
  match e with
  | EvLog _ => true
  | _ => false
  end.

(** A value that is zero or empty: the integer 0, the empty string, null. *)
Definition zero_or_empty (v : scalar) : Prop :=
  v = SInt 0 \/ v = SStr "" \/ v = SNone.

(** The subscribe frame of a topic, and the two families of topics. *)
Definition subscribe_frame (topic : string) : frame :=
  {| op := "subscribe"; args := [topic] |}.

Definition private_topics (usdt_base : bool) : list string :=
  ["order"; "execution"; "position"] ++ (if usdt_base then ["wallet"] else []).

Definition market_topics (req : SubscribeRequest.t) : list string :=
  ["instrument_info.100ms." +:+ SubscribeRequest.symbol req;
   "orderBookL2_25." +:+ SubscribeRequest.symbol req].

Definition is_private_frame (f : frame) : bool :=
  match args f with
  | [topic] =>
      String.eqb (op f) "subscribe"
      && (String.eqb topic "order" || String.eqb topic "execution"
          || String.eqb topic "position" || String.eqb topic "wallet")
  | _ => false
  end.

Definition is_market_frame (f : frame) : bool :=
  match args f with
  | [topic] =>
      String.eqb (op f) "subscribe"
      && (String.prefix "instrument_info.100ms." topic
          || String.prefix "orderBookL2_25." topic)
  | _ => false
  end.

(** *** The order book *)

(** The level a book holds on the side and at the price of row [u]. *)
Definition level_at (b : Book.t) (u : Level.t) : option Level.t :=
  (if Ws.is_buy u then Book.bids b else Book.asks b) !! Level.price u.

(** Two rows go to the same side and price. *)
Definition same_level (d u : Level.t) : bool :=
  Bool.eqb (Ws.is_buy d) (Ws.is_buy u) && (Level.price d =? Level.price u).

(** The last row of [rows] that goes to the side and price of [u]. *)
Fixpoint last_put (rows : list Level.t) (u : Level.t) : option Level.t :=
  match rows with
  | [] => None
  | r :: rows' =>
      match last_put rows' u with
      | Some r' => Some r'
      | None => if same_level r u then Some r else None
      end
  end.

(** Some row of [rows] goes to the side and price of [d]. *)
Definition put_again (rows : list Level.t) (d : Level.t) : bool :=
  existsb (fun r => same_level r d) rows.

(** A delta that leaves the book alone when it is applied to the book it
    has made: either every price it deletes is put back by its rows, or the
    first price it deletes is not. *)
Definition repeatable (delete rows : list Level.t) : bool :=
  match delete with
  | [] => true
  | d :: _ => negb (put_again rows d) || forallb (put_again rows) delete
  end.

(** The two loops of the [else] branch of [on_depth], on the two dicts. *)
Definition delta_block (delete update insert : list Level.t) : M Book.t unit :=
  for_each delete Ws.book_pop ;;
  for_each (update ++ insert) Ws.book_put.

(** The statements of [on_depth] before the book is touched; they yield
    the symbol and, in the public class, the time stamp. *)
Definition depth_prologue (self : api) (packet : Packet.t)
  : M Gateway.t (string * Z) :=
  topic <- key (Packet.topic packet) ;;
  timestamp <- match self with
               | Public => Ws.timestamp_prefix packet
               | Private => ret 0
               end ;;
  let symbol := replace topic "orderBookL2_25." "" in
  _ <- Ws.tick_of self symbol ;;
  ret (symbol, timestamp).

(** The statements of [on_depth] after the book is updated. *)
Definition depth_publish (self : api) (symbol : string) (packet : Packet.t)
    (timestamp : Z) : M Gateway.t unit :=
  b <- gets (Ws.book_of self symbol) ;;
  for_each (seq 0 5) (Ws.depth_slot self symbol b) ;;
  dt <- match self with
        | Public => ret (seconds timestamp)
        | Private =>
            match Packet.timestamp_e6 packet with
            | SInt us =>
                h <- gets Gateway.host ;;
                lift (Host.fromtimestamp_e6 h us)
            | _ => raise TypeError
            end
        end ;;
  Ws.tick_set self symbol (TickData.set_datetime dt) ;;
  tick <- Ws.tick_of self symbol ;;
  emit (EvTick tick).

(** What the steps of a handler after the book update leave alone: the two
    book tables of the session, and the set of symbols that have a tick. *)
Definition same_books (self : api) (g g' : Gateway.t) : Prop :=
  WsApi.symbol_bids (Ws.this self g') = WsApi.symbol_bids (Ws.this self g)
  /\ WsApi.symbol_asks (Ws.this self g') = WsApi.symbol_asks (Ws.this self g)
  /\ dom (WsApi.ticks (Ws.this self g')) = dom (WsApi.ticks (Ws.this self g)).

Definition keeps {A} (self : api) (m : M Gateway.t A) : Prop :=
  forall g, same_books self g (snd (m g)).

(** *** Orders *)










(** Every order record is kept under its own local id. *)
Definition orders_keyed (om : LocalOrderManager.t) : Prop :=
  forall k o, LocalOrderManager.orders om !! k = Some o -> OrderData.orderid o = k.

(** *** History pages *)









(** Concrete inputs for the examples. *)
Module Sample.

(** A host eight hours ahead of UTC that reads every time stamp text as the
    same instant and converts the microsecond stamps from the epoch on
    exactly. *)
Definition host : Host.t :=
  Host.mk 1600000000000000 (fun _ => Some 1600000000000000) (fun t => t + 28800)
    (fun us => if 0 <=? us then Ok us else Raise OSError).

Definition inverse : Gateway.t := Gateway.init host false.
Definition usdt : Gateway.t := Gateway.init host true.

Definition BTCUSD : SubscribeRequest.t := SubscribeRequest.mk "BTCUSD" BYBIT.
Definition ETHUSD : SubscribeRequest.t := SubscribeRequest.mk "ETHUSD" BYBIT.

(** The inverse gateway after [subscribe] of BTCUSD on its session. *)
Definition subscribed : Gateway.t := snd (Ws.subscribe Private BTCUSD inverse).

Definition order : OrderData.t :=
  OrderData.mk "BTCUSD" BYBIT "L1" LIMIT LONG 90000000 1 0 SUBMITTING 1600000000000000.

(** The inverse gateway after [send_order] has handed [order] to the order
    manager. *)
Definition submitted : Gateway.t := snd (OrderManager.on_order order inverse).

Definition ack : Reply.t OrderAck.t := Reply.mk 0 "OK" (OrderAck.mk "L1" "V1").

Definition order_row (order_id order_link_id order_status : string) : OrderMsg.t :=
  OrderMsg.mk order_id order_link_id "BTCUSD" "Limit" "Buy" 90000000 1 1
    order_status "2020-09-13T12:26:40.000Z" "2020-09-13T12:26:40.000Z".

Definition push_filled : Packet.t :=
  Packet.mk (Some "order") "" (Orders [order_row "V1" "L1" "Filled"])
    SNone None None.

Definition push_foreign : Packet.t :=
  Packet.mk (Some "order") "" (Orders [order_row "V9" "" "New"])
    SNone None None.




Definition page_foreign : Reply.t (option OrderPage.t) :=
  Reply.mk 0 "OK" (Some (OrderPage.mk [order_row "V9" "" "New"] 1 1)).

Definition history : HistoryRequest.t :=
  HistoryRequest.mk "BTCUSD" BYBIT (seconds 1600000000) MINUTE.

Definition kline (open_time : Z) : Kline.t := Kline.mk open_time 10 1 2 1 2.

(** [n] one-minute bars from [start] on. *)
Definition klines (start : Z) (n : nat) : list Kline.t :=
  (fun i => kline (start + 60 * Z.of_nat i)) <$> seq 0 n.

(** A venue that answers the first two requests with 200 bars each and
    every later one with 37 bars, whatever the cursor. *)
Definition venue (n : nat) (start_time : Z) : HttpResponse.t :=
  HttpResponse.mk 200 ""
    (Reply.mk 0 "OK"
       (klines (1600000000 + 12000 * Z.of_nat n) (if (n <? 2)%nat then 200 else 37))).


Definition send_order_request : Request.t :=
  Request.mk "POST" "/open-api/order/create" [] (Some order).

Definition unknown_topic : Packet.t :=
  Packet.mk (Some "kline.BTCUSD.1m") "snapshot" NoData (SInt 1600000000000000) None None.

Definition auth_reply : Packet.t :=
  Packet.mk None "" NoData SNone (Some "auth") (Some true).

Definition bid (price size : Z) : Level.t := Level.mk price "Buy" size.
Definition ask (price size : Z) : Level.t := Level.mk price "Sell" size.

(** A snapshot of six levels a side, and the session after it. *)
Definition snapshot : Packet.t :=
  Packet.mk (Some "orderBookL2_25.BTCUSD") "snapshot"
    (BookSnapshot
       [bid 100 1; bid 99 2; bid 98 3; bid 97 4; bid 96 5; bid 95 6;
        ask 101 1; ask 102 2; ask 103 3; ask 104 4; ask 105 5; ask 106 6])
    (SInt 1600000000000000) None None.

Definition with_book : Gateway.t := snd (Ws.on_depth Private snapshot subscribed).

Definition delta (delete update insert : list Level.t) : Packet.t :=
  Packet.mk (Some "orderBookL2_25.BTCUSD") "delta"
    (BookDelta delete update insert) (SInt 1600000000100000) None None.

(** The best bid is deleted and put again with a new size. *)
Definition delta_requote : Packet.t := delta [bid 100 0] [bid 100 9] [].

(** The same, with a second bid deleted for good. *)
Definition delta_requote_and_delete : Packet.t :=
  delta [bid 100 0; bid 95 0] [bid 100 9] [].

(** One bid is deleted for good and another one is updated. *)
Definition delta_delete_and_update : Packet.t := delta [bid 95 0] [bid 100 9] [].

(** A bid that is not resting is deleted and put. *)
Definition delta_stale : Packet.t := delta [bid 94 0] [bid 94 7] [].

(** Two bids are deleted: four are left. *)
Definition delta_thin : Packet.t := delta [bid 100 0; bid 99 0] [] [].

Definition BTCUSDT : SubscribeRequest.t := SubscribeRequest.mk "BTCUSDT" BYBIT.

(** The USDT gateway after [subscribe] of BTCUSDT on its public session. *)
Definition subscribed_public : Gateway.t := snd (Ws.subscribe Public BTCUSDT usdt).

(** A public snapshot with the last price as the text [v]. *)
Definition tick_public (v : string) : Packet.t :=
  Packet.mk (Some "instrument_info.100ms.BTCUSDT") "snapshot"
    (TickFields (TickMsg.mk (Some (SStr v)) (Some (SStr "700000000")) None None) None)
    (SStr "1600000000123456") None None.

(** A public delta whose first row carries the last price as the text [v]
    and nothing else. *)
Definition tick_public_delta (v : string) : Packet.t :=
  Packet.mk (Some "instrument_info.100ms.BTCUSDT") "delta"
    (TickFields (TickMsg.mk None None None None)
       (Some [TickMsg.mk (Some (SStr v)) None None None]))
    (SStr "1600000000123456") None None.

Definition tick_zero : Packet.t :=
  Packet.mk (Some "instrument_info.100ms.BTCUSD") "snapshot"
    (TickFields (TickMsg.mk (Some (SInt 0)) None (Some (SInt 7)) (Some "t")) None)
    (SInt 1600000000000000) None None.

End Sample.


(** ** Definitions used to state further properties *)

(** A block leaves a part [f] of the gateway as it found it, however it
    ends. *)
Definition untouched {A X} (f : Gateway.t -> X) (m : M Gateway.t A) : Prop :=
  forall g, f (snd (m g)) = f g.

(** The block [on_depth] runs on the two dicts of the symbol, when the
    payload has the shape the packet type announces. *)
Definition depth_block (packet : Packet.t) : option (M Book.t unit) :=
  if String.eqb (Packet.type_ packet) "snapshot"
  then
    match Packet.data packet with
    | BookSnapshot order_book => Some (for_each order_book Ws.book_put)
    | _ => None
    end
  else
    match Packet.data packet with
    | BookDelta delete update insert => Some (delta_block delete update insert)
    | _ => None
    end.

(** [old] occurs somewhere in [s]. *)
Fixpoint occurs (old s : string) : bool :=
  String.prefix old s
  || match s with
     | EmptyString => false
     | String _ s' => occurs old s'
     end.

(** The symbols of the remembered requests, each once. *)
Definition subscribed_unique (l : list SubscribeRequest.t) : Prop :=
  NoDup (SubscribeRequest.symbol <$> l).

(** The tick after the turns [k], ..., [k + m - 1] of the loop over
    [range(5)]: turn [i] writes level [i + 1] from the [i]-th keys. *)
Fixpoint fill_depth (b : Book.t) (k m : nat) (t : TickData.t) : TickData.t :=
  match m with
  | O => t
  | S m' =>
      match Ws.bid_keys b !! k, Ws.ask_keys b !! k with
      | Some bid_price, Some ask_price =>
          match Book.bids b !! bid_price, Book.asks b !! ask_price with
          | Some bid_data, Some ask_data =>
              fill_depth b (S k) m'
                (TickData.set_depth (k + 1) bid_price (Level.size bid_data)
                   ask_price (Level.size ask_data) t)
          | _, _ => t
          end
      | _, _ => t
      end
  end.

(** The other of the two sessions. *)
Definition other (self : api) : api :=
  match self with
  | Private => Public
  | Public => Private
  end.

(** What a session holds for one symbol: the tick object and the two dicts
    of resting levels. *)
Definition symbol_state (self : api) (s : string) (g : Gateway.t)
  : option TickData.t * option (gmap Z Level.t) * option (gmap Z Level.t) :=
  let w := Ws.this self g in
  (WsApi.ticks w !! s, WsApi.symbol_bids w !! s, WsApi.symbol_asks w !! s).

(** Everything of the gateway that is neither an event nor the market state
    of session [self]. *)
Definition beside_market (self : api) (g : Gateway.t) :=
  let w := Ws.this self g in
  (WsApi.callbacks w, WsApi.subscribed w, WsApi.sent w, Ws.this (other self) g,
   Gateway.order_manager g, Gateway.requests g, Gateway.stderr g,
   Gateway.host g, Gateway.usdt_base g).

(** The attributes of a tick that [on_tick] assigns besides the time stamp,
    those that [on_depth] assigns besides the time stamp, and those given at
    construction. *)
Definition quote_part (t : TickData.t) : Q * value :=
  (TickData.last_price t, TickData.volume t).

Definition depth_part (t : TickData.t) :=
  (TickData.bid_price t, TickData.bid_volume t,
   TickData.ask_price t, TickData.ask_volume t).

Definition identity_part (t : TickData.t) :=
  (TickData.symbol t, TickData.exchange t, TickData.name t).

(** One attribute group of the tick of symbol [s] on session [self]. *)
Definition tick_part {X} (part : TickData.t -> X) (self : api) (s : string)
    (g : Gateway.t) : option X :=
  part <$> WsApi.ticks (Ws.this self g) !! s.

(** A row of the [execution] topic that [on_trade] can turn into a trade:
    its side is a key of [DIRECTION_BYBIT2VT] and its time parses. *)
Definition trade_row_ok (h : Host.t) (d : TradeMsg.t) : bool :=
  match DIRECTION_BYBIT2VT (TradeMsg.side d), Host.strptime h (TradeMsg.trade_time d) with
  | Some _, Some _ => true
  | _, _ => false
  end.

(** The trade [t] is the one made of the row [d]. *)
Definition trade_of_row (h : Host.t) (d : TradeMsg.t) (t : TradeData.t) : Prop :=
  TradeData.orderid t
  = (if String.eqb (TradeMsg.order_link_id d) ""
     then TradeMsg.order_id d else TradeMsg.order_link_id d)
  /\ TradeData.tradeid t = TradeMsg.exec_id d
  /\ TradeData.symbol t = TradeMsg.symbol d
  /\ TradeData.exchange t = BYBIT
  /\ DIRECTION_BYBIT2VT (TradeMsg.side d) = Some (TradeData.direction t)
  /\ TradeData.price t = TradeMsg.price d
  /\ TradeData.volume t = TradeMsg.exec_qty d
  /\ Host.strptime h (TradeMsg.trade_time d) = Some (TradeData.datetime_ t).





(** The position [p] is the one made of the row [d]: a net position, long
    for a [Buy] row and short, by the sign of the volume, for any other. *)
Definition position_of_row (d : PositionMsg.t) (p : PositionData.t) : Prop :=
  PositionData.symbol p = PositionMsg.symbol d
  /\ PositionData.exchange p = BYBIT
  /\ PositionData.direction p = NET
  /\ PositionData.price p = PositionMsg.entry_price d
  /\ (PositionMsg.side d = "Buy" -> PositionData.volume p = PositionMsg.size d)
  /\ (PositionMsg.side d <> "Buy" -> PositionData.volume p = - PositionMsg.size d).

(** The account [a] is the one made of the row [d]. *)
Definition account_of_row (d : AccountMsg.t) (a : AccountData.t) : Prop :=
  AccountData.accountid a = "USDT"
  /\ AccountData.balance a = AccountMsg.wallet_balance d
  /\ AccountData.frozen a
     = FloatSub (AccountMsg.wallet_balance d) (AccountMsg.available_balance d).

(** Further concrete inputs. *)
Module Example.

(** A second snapshot, of one bid only. *)
Definition snapshot_one : Packet.t :=
  Packet.mk (Some "orderBookL2_25.BTCUSD") "snapshot"
    (BookSnapshot [Sample.bid 90 3]) (SInt 1600000000200000) None None.

(** Two symbols subscribed on a session. *)
Definition two_symbols : Gateway.t :=
  snd (Ws.subscribe Private Sample.ETHUSD Sample.subscribed).

Definition ETHUSDT : SubscribeRequest.t := SubscribeRequest.mk "ETHUSDT" BYBIT.

Definition two_symbols_public : Gateway.t :=
  snd (Ws.subscribe Public ETHUSDT Sample.subscribed_public).


(** Three executions, the second with a side the gateway does not know. *)
Definition execution (exec_id side : string) : TradeMsg.t :=
  TradeMsg.mk "V1" "L1" "BTCUSD" exec_id side 90000000 1 "2020-09-13T12:26:40.000Z".

Definition executions : Packet.t :=
  Packet.mk (Some "execution") ""
    (Trades [execution "E1" "Buy"; execution "E2" "Hold"; execution "E3" "Sell"])
    (SInt 0) None None.


(** An acknowledgment that carries an error code. *)
Definition ack_refused : Reply.t OrderAck.t :=
  Reply.mk 30031 "insufficient balance" (OrderAck.mk "" "").

(** The reply to a cancellation the venue refuses. *)
Definition cancel_refused : Reply.t unit :=
  Reply.mk 30031 "insufficient balance" tt.

(** A long and a short position, as pushed. *)
Definition positions : Packet.t :=
  Packet.mk (Some "position") ""
    (Positions [PositionMsg.mk "BTCUSD" "Buy" 3 90000000;
                PositionMsg.mk "ETHUSD" "Sell" 5 3000000])
    (SInt 0) None None.

(** A delta of the private session whose [data] holds the changed row only,
    without a time stamp beside it. *)
Definition tick_delta : Packet.t :=
  Packet.mk (Some "instrument_info.100ms.BTCUSD") "delta"
    (TickFields (TickMsg.mk None None None None)
       (Some [TickMsg.mk (Some (SInt 95000000)) None None None]))
    (SInt 1600000000000000) None None.

(** The venue's reply to a subscribe request. *)
Definition subscribe_reply : Packet.t :=
  Packet.mk None "" NoData SNone (Some "subscribe") (Some true).


End Example.
(** ** Reading the state *)

Lemma bind_run {S A B} (m : M S A) (k : A -> M S B) (s : S) :
  bind m k s
  = match m s with
    | (Ok a, s') => k a s'
    | (Raise e, s') => (Raise e, s')
    end.
Proof. reflexivity. Qed.

Lemma key_run {S A} (field : option A) (s : S) :
  key field s = match field with Some v => (Ok v, s) | None => (Raise KeyError, s) end.
Proof. destruct field; reflexivity. Qed.

Lemma getitem_run {S K V} `{Countable K} (d : gmap K V) (k : K) (s : S) :
  getitem d k s = match d !! k with Some v => (Ok v, s) | None => (Raise KeyError, s) end.
Proof. unfold getitem. destruct (d !! k); reflexivity. Qed.

Lemma index_run {S A} (l : list A) (i : nat) (s : S) :
  index l i s = match l !! i with Some v => (Ok v, s) | None => (Raise IndexError, s) end.
Proof. unfold index. destruct (l !! i); reflexivity. Qed.

Lemma tick_of_run (self : api) (symbol : string) (g : Gateway.t) :
  Ws.tick_of self symbol g =
    match WsApi.ticks (Ws.this self g) !! symbol with
    | Some t => (Ok t, g)
    | None => (Raise KeyError, g)
    end.
Proof.
  unfold Ws.tick_of, bind, gets. rewrite getitem_run.
  destruct (WsApi.ticks (Ws.this self g) !! symbol); reflexivity.
Qed.

Lemma truthy_zero_or_empty (v : scalar) : zero_or_empty v -> truthy v = false.
Proof. intros [-> | [-> | ->]]; reflexivity. Qed.

Lemma zero_or_empty_truthy (v : scalar) : truthy v = false -> zero_or_empty v.
Proof.
  destruct v as [z | s |]; simpl; intros H.
  - left. apply negb_false_iff, Z.eqb_eq in H. by subst.
  - right; left. apply negb_false_iff, String.eqb_eq in H. by subst.
  - right; right. reflexivity.
Qed.

(** ** Routing *)

(** C8 (as the code has it): a push frame whose topic has no entry in
    [callbacks] makes [on_packet] raise KeyError at the table lookup; no
    handler runs, and [on_packet] itself writes no log, emits no event and
    changes nothing in the session. *)
Theorem on_packet_unknown_topic_raises
    (self : api) (packet : Packet.t) (channel : string) (g : Gateway.t) :
  Packet.topic packet = Some channel ->
  WsApi.callbacks (Ws.this self g) !! channel = None ->
  Ws.on_packet self packet g = (Raise KeyError, g).
Proof.
  intros Htopic Hnone. unfold Ws.on_packet. rewrite Htopic.
  unfold bind, gets. rewrite getitem_run, Hnone. reflexivity.
Qed.

Lemma on_packet_unknown_topic_raises_witness :
  Ws.on_packet Private Sample.unknown_topic Sample.subscribed
  = (Raise KeyError, Sample.subscribed).
Proof.
  apply (on_packet_unknown_topic_raises Private Sample.unknown_topic
           "kline.BTCUSD.1m" Sample.subscribed); reflexivity.
Defined.

(** C8 fails as stated: on a session that knows the two market topics of
    BTCUSD, a frame of another topic is not dropped quietly; [on_packet]
    raises, and nothing has been logged. *)
Lemma on_packet_unknown_topic_not_dropped :
  fst (Ws.on_packet Private Sample.unknown_topic Sample.subscribed) = Raise KeyError
  /\ filter is_log
       (Gateway.events (snd (Ws.on_packet Private Sample.unknown_topic Sample.subscribed)))
     = [].
Proof. split; reflexivity. Qed.

(** ** Order submission failures *)

(** C9 (as the code has it): when sending an order raises a ConnectionError
    (or a subclass of it), [on_send_order_error] returns normally, the
    originating order is marked rejected, stored and emitted as an order
    event, and nothing is logged: [on_error] is skipped for this class. *)
Theorem on_send_order_error_connection
    (t : exception_type) (value : string) (request : Request.t)
    (order : OrderData.t) (g : Gateway.t) :
  issubclass_ConnectionError t = true ->
  Request.extra request = Some order ->
  let rejected := OrderData.set_status REJECTED order in
  let r := Rest.on_send_order_error t value request g in
  fst r = Ok tt
  /\ OrderData.status rejected = REJECTED
  /\ Gateway.events (snd r) = Gateway.events g ++ [EvOrder rejected]
  /\ Gateway.stderr (snd r) = Gateway.stderr g
  /\ LocalOrderManager.orders (Gateway.order_manager (snd r)) !! OrderData.orderid order
     = Some rejected.
Proof.
  intros Hconn Hextra rejected r. subst r.
  unfold Rest.on_send_order_error. rewrite Hextra, Hconn. simpl.
  repeat split. apply lookup_insert_eq.
Qed.

Lemma on_send_order_error_connection_witness :
  fst (Rest.on_send_order_error ConnectTimeout "timed out"
         Sample.send_order_request Sample.inverse) = Ok tt.
Proof.
  apply (on_send_order_error_connection ConnectTimeout "timed out"
           Sample.send_order_request Sample.order Sample.inverse); reflexivity.
Defined.

(** C9 fails as stated: after a ConnectionError the order is rejected and
    emitted, but no log entry has been written. *)
Lemma on_send_order_error_connection_not_logged :
  filter is_log
    (Gateway.events
       (snd (Rest.on_send_order_error ConnectionError "connection refused"
               Sample.send_order_request Sample.inverse)))
  = []
  /\ Gateway.stderr
       (snd (Rest.on_send_order_error ConnectionError "connection refused"
               Sample.send_order_request Sample.inverse))
     = [].
Proof. split; reflexivity. Qed.

(** Any other exception class is logged. *)
Lemma on_send_order_error_other_logged
    (name value : string) (request : Request.t) (order : OrderData.t)
    (g : Gateway.t) :
  Request.extra request = Some order ->
  Gateway.events (snd (Rest.on_send_order_error (OtherException name) value request g))
  = Gateway.events g
      ++ [EvOrder (OrderData.set_status REJECTED order);
          EvLog (LogException (OtherException name) value)].
Proof.
  intros Hextra. unfold Rest.on_send_order_error. rewrite Hextra. simpl.
  rewrite <- app_assoc. reflexivity.
Qed.

(** ** Ticks *)

Lemma timestamp_prefix_run (packet : Packet.t) (g : Gateway.t) :
  snd (Ws.timestamp_prefix packet g) = g.
Proof.
  unfold Ws.timestamp_prefix, int.
  destruct (Packet.timestamp_e6 packet) as [z | s |]; try reflexivity.
  destruct (int_of_str (str_take 10 s)); reflexivity.
Qed.

(** The filter as far as it works: an [instrument_info] packet for a
    subscribed symbol -- a snapshot, or a delta whose first update row
    carries [last_price_e4] -- whose [last_price_e4] is the integer 0, the
    empty text or null makes [on_tick] return at the filter: the whole
    gateway state is as before.  (The public class reads the packet's time
    stamp before the filter, so there it has to be readable.) *)
Lemma on_tick_filters_zero_or_empty
    (self : api) (packet : Packet.t) (topic : string)
    (data : TickMsg.t) (updates : option (list TickMsg.t)) (v : scalar)
    (g : Gateway.t) :
  Packet.topic packet = Some topic ->
  is_Some (WsApi.ticks (Ws.this self g) !! replace topic "instrument_info.100ms." "") ->
  (self = Public -> exists ts, fst (Ws.timestamp_prefix packet g) = Ok ts) ->
  Packet.data packet = TickFields data updates ->
  zero_or_empty v ->
  (Packet.type_ packet = "snapshot" /\ TickMsg.last_price_e4 data = Some v)
  \/ (Packet.type_ packet <> "snapshot"
      /\ exists update rest,
           updates = Some (update :: rest)
           /\ TickMsg.last_price_e4 update = Some v) ->
  Ws.on_tick self packet g = (Ok tt, g).
Proof.
  intros Htopic [tick Htick] Hts Hdata Hv%truthy_zero_or_empty Hcase.
  unfold Ws.on_tick. rewrite Htopic. unfold bind at 1. rewrite key_run.
  assert (Hstamp : exists ts,
            match self with
            | Public => Ws.timestamp_prefix packet
            | Private => ret 0
            end g = (Ok ts, g)).
  { destruct self.
    - exists 0. reflexivity.
    - destruct (Hts eq_refl) as [ts Hok]. exists ts.
      pose proof (timestamp_prefix_run packet g) as Hsame.
      destruct (Ws.timestamp_prefix packet g) as [r g']. simpl in *. by subst. }
  destruct Hstamp as [ts Hstamp].
  unfold bind at 1. rewrite Hstamp.
  unfold bind at 1. rewrite tick_of_run, Htick.
  rewrite Hdata.
  destruct Hcase as [[Htype Hlast] | [Htype (update & rest & Hupd & Hlast)]].
  - rewrite Htype. simpl String.eqb. cbv iota.
    unfold bind. rewrite key_run, Hlast, Hv. reflexivity.
  - apply String.eqb_neq in Htype. rewrite Htype, Hupd.
    unfold bind. rewrite key_run, index_run. simpl. rewrite Hlast, Hv.
    reflexivity.
Qed.

Lemma on_tick_filters_zero_or_empty_example :
  Ws.on_tick Private Sample.tick_zero Sample.subscribed = (Ok tt, Sample.subscribed)
  /\ Ws.on_tick Public (Sample.tick_public "") Sample.subscribed_public
     = (Ok tt, Sample.subscribed_public).
Proof. vm_compute. by split. Qed.

Lemma tick_set_run (self : api) (symbol : string)
    (f : TickData.t -> TickData.t) (t : TickData.t) (g : Gateway.t) :
  WsApi.ticks (Ws.this self g) !! symbol = Some t ->
  exists g',
    Ws.tick_set self symbol f g = (Ok tt, g')
    /\ WsApi.ticks (Ws.this self g') !! symbol = Some (f t)
    /\ Gateway.events g' = Gateway.events g
    /\ Gateway.host g' = Gateway.host g.
Proof.
  intros Ht. eexists. split; [reflexivity |].
  unfold Ws.tick_set, Ws.update, modify. cbn [snd].
  destruct self; cbn; rewrite lookup_alter_eq; cbn in Ht; rewrite Ht;
    by repeat split.
Qed.

Lemma int_run {S} (v : scalar) (z : Z) (s s' : S) :
  fst (int v s) = Ok z -> int v s' = (Ok z, s').
Proof.
  unfold int. destruct v as [z' | t |]; cbn; try discriminate.
  - by intros [= ->].
  - destruct (int_of_str t); cbn; [by intros [= ->] | discriminate].
Qed.

(** C10 (as the code has it): in the public class, whose feed carries the
    prices as text and which converts them with [int] after the filter, a
    zero price arrives as a non-empty text that reads as 0, such as "0".
    [not] takes a non-empty text for a value, so the filter lets it
    through: [on_tick] sets the cached last price to 0, stamps the tick and
    pushes it.  (The volume beside the price has to convert, or to be absent
    from a delta row, for the handler to get as far as the push.) *)
Theorem on_tick_zero_text_pushed
    (packet : Packet.t) (topic : string)
    (data : TickMsg.t) (updates : option (list TickMsg.t)) (s : string)
    (t0 : TickData.t) (ts : Z) (g : Gateway.t) :
  Packet.topic packet = Some topic ->
  let symbol := replace topic "instrument_info.100ms." "" in
  WsApi.ticks (Gateway.public_ws_api g) !! symbol = Some t0 ->
  fst (Ws.timestamp_prefix packet g) = Ok ts ->
  Packet.data packet = TickFields data updates ->
  s <> "" ->
  int_of_str s = Some 0 ->
  (Packet.type_ packet = "snapshot"
   /\ TickMsg.last_price_e4 data = Some (SStr s)
   /\ exists vol z,
        TickMsg.volume_24h_e8 data = Some vol /\ fst (int vol g) = Ok z)
  \/ (Packet.type_ packet <> "snapshot"
      /\ exists update rest,
           updates = Some (update :: rest)
           /\ TickMsg.last_price_e4 update = Some (SStr s)
           /\ (TickMsg.volume_24h_e8 update = None
               \/ exists vol z,
                    TickMsg.volume_24h_e8 update = Some vol
                    /\ fst (int vol g) = Ok z)) ->
  let r := Ws.on_tick Public packet g in
  exists tick,
    fst r = Ok tt
    /\ Gateway.events (snd r) = Gateway.events g ++ [EvTick tick]
    /\ WsApi.ticks (Gateway.public_ws_api (snd r)) !! symbol = Some tick
    /\ TickData.last_price tick = (0 # 10000)%Q
    /\ TickData.datetime_ tick
       = seconds (Host.fromtimestamp (Gateway.host g) ts).
Proof.
  intros Htopic symbol Ht0 Hts Hdata Hs Hzero Hcase r.
  apply String.eqb_neq in Hs.
  assert (Hstamp : Ws.timestamp_prefix packet g = (Ok ts, g)).
  { pose proof (timestamp_prefix_run packet g) as Hsame.
    destruct (Ws.timestamp_prefix packet g) as [r' g']. simpl in *. by subst. }
  assert (Hprice : forall g0 : Gateway.t,
            Ws.scaled Public (SStr s) 10000 g0 = (Ok (0 # 10000)%Q, g0)).
  { intros g0. unfold Ws.scaled, int. rewrite bind_run. by rewrite Hzero. }
  assert (Hvolume : forall vol z (g0 : Gateway.t),
            fst (int vol g) = Ok z ->
            Ws.volume_of Public vol g0 = (Ok (VFloat (z # 100000000)%Q), g0)).
  { intros vol z g0 Hint. unfold Ws.volume_of, Ws.scaled.
    rewrite !bind_run, (int_run vol z g g0 Hint). reflexivity. }
  (* the common tail: stamp and push *)
  assert (Htail : forall t1 g1,
            WsApi.ticks (Ws.this Public g1) !! symbol = Some t1 ->
            Gateway.events g1 = Gateway.events g ->
            Gateway.host g1 = Gateway.host g ->
            TickData.last_price t1 = (0 # 10000)%Q ->
            exists tick g',
              (dt <- (h <- gets Gateway.host ;;
                      ret (seconds (Host.fromtimestamp h ts))) ;;
               Ws.tick_set Public symbol (TickData.set_datetime dt) ;;
               tick <- Ws.tick_of Public symbol ;;
               emit (EvTick tick)) g1 = (Ok tt, g')
              /\ Gateway.events g' = Gateway.events g ++ [EvTick tick]
              /\ WsApi.ticks (Gateway.public_ws_api g') !! symbol = Some tick
              /\ TickData.last_price tick = (0 # 10000)%Q
              /\ TickData.datetime_ tick
                 = seconds (Host.fromtimestamp (Gateway.host g) ts)).
  { intros t1 g1 Ht1 Hev1 Hh1 Hp1.
    rewrite bind_run, bind_run. cbn [gets ret]. rewrite Hh1.
    rewrite bind_run.
    destruct (tick_set_run Public symbol
                (TickData.set_datetime
                   (seconds (Host.fromtimestamp (Gateway.host g) ts))) t1 g1 Ht1)
      as (g2 & -> & Ht2 & Hev2 & _).
    rewrite bind_run, tick_of_run, Ht2.
    eexists _, _. split; [reflexivity |].
    split; [cbn; by rewrite Hev2, Hev1 |].
    split; [exact Ht2 |]. by split. }
  assert (Hrun : exists tick g',
            Ws.on_tick Public packet g = (Ok tt, g')
            /\ Gateway.events g' = Gateway.events g ++ [EvTick tick]
            /\ WsApi.ticks (Gateway.public_ws_api g') !! symbol = Some tick
            /\ TickData.last_price tick = (0 # 10000)%Q
            /\ TickData.datetime_ tick
               = seconds (Host.fromtimestamp (Gateway.host g) ts)).
  { unfold Ws.on_tick. rewrite Htopic, bind_run, key_run.
    rewrite bind_run, Hstamp. rewrite bind_run, tick_of_run. fold symbol.
    change (Ws.this Public g) with (Gateway.public_ws_api g). rewrite Ht0.
    rewrite Hdata, bind_run.
    destruct Hcase
      as [(Htype & Hlast & vol & z & Hvol & Hint)
         | (Htype & update & rest & Hupd & Hlast & Hvol)].
    - rewrite Htype, String.eqb_refl.
      rewrite bind_run, key_run, Hlast. cbn [truthy]. rewrite Hs. cbn [negb].
      rewrite bind_run, Hprice, bind_run.
      destruct (tick_set_run Public symbol (TickData.set_last_price (0 # 10000)%Q)
                  t0 g Ht0) as (g1 & -> & Ht1 & Hev1 & Hh1).
      rewrite bind_run, key_run. cbn [Ws.volume_key]. rewrite Hvol.
      rewrite bind_run, (Hvolume vol z g1 Hint), bind_run.
      destruct (tick_set_run Public symbol
                  (TickData.set_volume (VFloat (z # 100000000)%Q)) _ g1 Ht1)
        as (g2 & -> & Ht2 & Hev2 & Hh2).
      cbn [ret]. cbv iota.
      apply (Htail _ g2 Ht2); [congruence | congruence | reflexivity].
    - apply String.eqb_neq in Htype. rewrite Htype, Hupd.
      rewrite bind_run, key_run, bind_run, index_run. cbn [lookup list_lookup].
      rewrite bind_run, Hlast. cbn [truthy]. rewrite Hs. cbn [negb].
      rewrite bind_run, Hprice, bind_run.
      destruct (tick_set_run Public symbol (TickData.set_last_price (0 # 10000)%Q)
                  t0 g Ht0) as (g1 & -> & Ht1 & Hev1 & Hh1).
      cbn [ret]. cbv iota. rewrite bind_run. cbn [Ws.volume_key].
      destruct Hvol as [Hvol | (vol & z & Hvol & Hint)]; rewrite Hvol.
      + cbn [ret]. cbv iota.
        apply (Htail _ g1 Ht1); [congruence | congruence | reflexivity].
      + rewrite bind_run, (Hvolume vol z g1 Hint).
        destruct (tick_set_run Public symbol
                    (TickData.set_volume (VFloat (z # 100000000)%Q)) _ g1 Ht1)
          as (g2 & -> & Ht2 & Hev2 & Hh2).
        cbn [ret]. cbv iota.
        apply (Htail _ g2 Ht2); [congruence | congruence | reflexivity]. }
  destruct Hrun as (tick & g' & Hrun & Hrest). exists tick.
  subst r. rewrite Hrun. cbn [fst snd]. split; [reflexivity | exact Hrest].
Qed.

Lemma on_tick_zero_text_pushed_witness :
  exists tick,
    fst (Ws.on_tick Public (Sample.tick_public "0") Sample.subscribed_public) = Ok tt
    /\ Gateway.events
         (snd (Ws.on_tick Public (Sample.tick_public "0") Sample.subscribed_public))
       = Gateway.events Sample.subscribed_public ++ [EvTick tick]
    /\ TickData.last_price tick = (0 # 10000)%Q.
Proof.
  destruct (on_tick_zero_text_pushed (Sample.tick_public "0")
              "instrument_info.100ms.BTCUSDT"
              (TickMsg.mk (Some (SStr "0")) (Some (SStr "700000000")) None None)
              None "0"
              (TickData.new "BTCUSDT" BYBIT (Host.now Sample.host))
              1600000000 Sample.subscribed_public)
    as (tick & Hok & Hev & _ & Hprice & _).
  - reflexivity.
  - reflexivity.
  - reflexivity.
  - reflexivity.
  - discriminate.
  - reflexivity.
  - left. split; [reflexivity |]. split; [reflexivity |].
    exists (SStr "700000000"), 700000000. by split.
  - exists tick. by repeat split.
Defined.

(** A price that is neither zero nor empty goes through as well, and so
    does a zero in a delta row. *)
Lemma on_tick_public_price_pushed :
  (TickData.last_price <$>
     WsApi.ticks
       (Gateway.public_ws_api
          (snd (Ws.on_tick Public (Sample.tick_public "96000000")
                  Sample.subscribed_public)))
     !! "BTCUSDT")
  = Some (96000000 # 10000)%Q
  /\ length (Gateway.events
               (snd (Ws.on_tick Public (Sample.tick_public "96000000")
                       Sample.subscribed_public)))
     = 1%nat
  /\ length (Gateway.events
               (snd (Ws.on_tick Public (Sample.tick_public_delta "0")
                       Sample.subscribed_public)))
     = 1%nat.
Proof. vm_compute. repeat split. Qed.

(** ** Login *)

Lemma subscribe_topic_run (self : api) (topic : string) (callback : handler)
    (g : Gateway.t) :
  fst (Ws.subscribe_topic self topic callback g) = Ok tt
  /\ WsApi.sent (Ws.this self (snd (Ws.subscribe_topic self topic callback g)))
     = WsApi.sent (Ws.this self g) ++ [subscribe_frame topic]
  /\ WsApi.subscribed (Ws.this self (snd (Ws.subscribe_topic self topic callback g)))
     = WsApi.subscribed (Ws.this self g)
  /\ Gateway.usdt_base (snd (Ws.subscribe_topic self topic callback g))
     = Gateway.usdt_base g.
Proof. destruct self; repeat split. Qed.

Lemma subscribe_run (self : api) (req : SubscribeRequest.t) (g : Gateway.t) :
  fst (Ws.subscribe self req g) = Ok tt
  /\ WsApi.sent (Ws.this self (snd (Ws.subscribe self req g)))
     = WsApi.sent (Ws.this self g) ++ (subscribe_frame <$> market_topics req).
Proof.
  destruct self; split; try reflexivity;
    unfold Ws.subscribe, bind; simpl; rewrite <- app_assoc; reflexivity.
Qed.

Lemma subscribe_each_run (self : api) (reqs : list SubscribeRequest.t) (g : Gateway.t) :
  fst (for_each reqs (Ws.subscribe self) g) = Ok tt
  /\ WsApi.sent (Ws.this self (snd (for_each reqs (Ws.subscribe self) g)))
     = WsApi.sent (Ws.this self g)
       ++ flat_map (fun req => subscribe_frame <$> market_topics req) reqs.
Proof.
  revert g. induction reqs as [| req reqs IH]; intros g.
  - simpl. rewrite app_nil_r. split; reflexivity.
  - cbn [for_each flat_map]. rewrite bind_run.
    destruct (subscribe_run self req g) as [Hok Hsent].
    destruct (Ws.subscribe self req g) as [r g1]. simpl in Hok, Hsent. subst r.
    destruct (IH g1) as [Hok' Hsent']. split; [exact Hok' |].
    rewrite Hsent', Hsent, <- app_assoc. reflexivity.
Qed.

Lemma private_topics_private (usdt_base : bool) :
  Forall (fun f => is_private_frame f = true /\ is_market_frame f = false)
    (subscribe_frame <$> private_topics usdt_base).
Proof. destruct usdt_base; repeat constructor. Qed.

Lemma prefix_append (p s : string) : String.prefix p (p +:+ s) = true.
Proof.
  induction p as [| c p IH]; simpl.
  - destruct s; reflexivity.
  - destruct (ascii_dec c c); [exact IH | congruence].
Qed.

Lemma market_topics_market (reqs : list SubscribeRequest.t) :
  Forall (fun f => is_market_frame f = true /\ is_private_frame f = false)
    (flat_map (fun req => subscribe_frame <$> market_topics req) reqs).
Proof.
  induction reqs as [| req reqs IH]; [constructor |].
  cbn [flat_map]. apply Forall_app; split; [| exact IH].
  unfold market_topics, is_market_frame, is_private_frame.
  repeat constructor; cbn [fmap list_fmap args op subscribe_frame];
    rewrite ?prefix_append, ?orb_true_r; reflexivity.
Qed.

(** C7: after a successful authentication reply, [on_login] sends, after
    whatever the session had sent before, first the subscribe frames of the
    private topics (order, execution, position, and wallet in USDT mode) and
    only then the two market-data frames of every remembered symbol; so
    every private frame is sent before any market-data frame. *)
Theorem on_login_private_topics_first (packet : Packet.t) (g : Gateway.t) :
  Packet.success packet = Some true ->
  let r := Ws.on_login Private packet g in
  let private := subscribe_frame <$> private_topics (Gateway.usdt_base g) in
  let market :=
    flat_map (fun req => subscribe_frame <$> market_topics req)
      (WsApi.subscribed (Gateway.ws_api g)) in
  fst r = Ok tt
  /\ WsApi.sent (Gateway.ws_api (snd r))
     = WsApi.sent (Gateway.ws_api g) ++ private ++ market
  /\ Forall (fun f => is_private_frame f = true /\ is_market_frame f = false) private
  /\ Forall (fun f => is_market_frame f = true /\ is_private_frame f = false) market
  /\ (forall i j f1 f2,
        (private ++ market) !! i = Some f1 ->
        (private ++ market) !! j = Some f2 ->
        is_private_frame f1 = true -> is_market_frame f2 = true ->
        (i < j)%nat).
Proof.
  intros Hsuccess r private market.
  assert (Hpriv := private_topics_private (Gateway.usdt_base g)).
  assert (Hmkt := market_topics_market (WsApi.subscribed (Gateway.ws_api g))).
  fold private in Hpriv. fold market in Hmkt.
  assert (Hrun : fst r = Ok tt
                 /\ WsApi.sent (Gateway.ws_api (snd r))
                    = WsApi.sent (Gateway.ws_api g) ++ private ++ market).
  { subst r. unfold Ws.on_login. rewrite Hsuccess.
    change (default false (Some true)) with true. cbv iota.
    set (g4 := snd ((write_log LogLoginDone ;;
                     Ws.subscribe_topic Private "order" h_on_order ;;
                     Ws.subscribe_topic Private "execution" h_on_trade ;;
                     Ws.subscribe_topic Private "position" h_on_position ;;
                     usdt_base <- gets Gateway.usdt_base ;;
                     if usdt_base : bool
                     then Ws.subscribe_topic Private "wallet" h_on_account
                     else ret tt) g)).
    assert (Hg4 : WsApi.sent (Gateway.ws_api g4)
                  = WsApi.sent (Gateway.ws_api g) ++ private
                  /\ WsApi.subscribed (Gateway.ws_api g4)
                     = WsApi.subscribed (Gateway.ws_api g)).
    { subst g4 private. unfold private_topics.
      destruct (Gateway.usdt_base g) eqn:Husdt;
        unfold bind, gets; simpl; rewrite Husdt; simpl;
        rewrite <- !app_assoc; split; reflexivity. }
    destruct Hg4 as [Hsent4 Hsub4].
    destruct (subscribe_each_run Private (WsApi.subscribed (Gateway.ws_api g)) g4)
      as [Hok Hsent].
    assert (Heq : (write_log LogLoginDone ;;
                   Ws.subscribe_topic Private "order" h_on_order ;;
                   Ws.subscribe_topic Private "execution" h_on_trade ;;
                   Ws.subscribe_topic Private "position" h_on_position ;;
                   usdt_base <- gets Gateway.usdt_base ;;
                   (if usdt_base : bool
                    then Ws.subscribe_topic Private "wallet" h_on_account
                    else ret tt) ;;
                   w <- gets (Ws.this Private) ;;
                   for_each (WsApi.subscribed w) (Ws.subscribe Private)) g
                  = for_each (WsApi.subscribed (Gateway.ws_api g)) (Ws.subscribe Private) g4).
    { subst g4. unfold bind, gets. simpl.
      destruct (Gateway.usdt_base g); simpl; reflexivity. }
    rewrite Heq. split; [exact Hok |].
    simpl in Hsent. rewrite Hsent, Hsent4, <- app_assoc. reflexivity. }
  destruct Hrun as [Hok Hsent].
  repeat split; try assumption.
  intros i j f1 f2 Hi Hj Hp Hm.
  destruct (decide (i < length private)%nat) as [Hlt | Hge].
  - destruct (decide (j < length private)%nat) as [Hjlt | Hjge]; [| lia].
    rewrite lookup_app_l in Hj by exact Hjlt.
    rewrite Forall_forall in Hpriv.
    destruct (Hpriv f2) as [_ Hnm].
    { apply list_elem_of_lookup. eauto. }
    congruence.
  - rewrite lookup_app_r in Hi by lia.
    rewrite Forall_forall in Hmkt.
    destruct (Hmkt f1) as [_ Hnp].
    { apply list_elem_of_lookup. eauto. }
    congruence.
Qed.

Lemma on_login_private_topics_first_witness :
  WsApi.sent (Gateway.ws_api (snd (Ws.on_login Private Sample.auth_reply Sample.subscribed)))
  = WsApi.sent (Gateway.ws_api Sample.subscribed)
    ++ (subscribe_frame <$> ["order"; "execution"; "position"])
    ++ (subscribe_frame <$> ["instrument_info.100ms.BTCUSD"; "orderBookL2_25.BTCUSD"]).
Proof.
  apply (on_login_private_topics_first Sample.auth_reply Sample.subscribed).
  reflexivity.
Defined.

(** ** The order book *)

Section BookSides.

Implicit Types (b : Book.t) (d u r : Level.t) (rows : list Level.t).

Lemma same_level_refl u : same_level u u = true.
Proof.
  unfold same_level. rewrite Z.eqb_refl. by destruct (Ws.is_buy u).
Qed.

Lemma same_level_at d u b :
  same_level d u = true -> level_at b d = level_at b u.
Proof.
  unfold same_level, level_at. intros [Hside Hprice]%andb_true_iff.
  apply Bool.eqb_prop in Hside. apply Z.eqb_eq in Hprice.
  by rewrite Hside, Hprice.
Qed.

Lemma same_level_sym d u : same_level d u = same_level u d.
Proof.
  unfold same_level. rewrite (Z.eqb_sym (Level.price d)).
  by destruct (Ws.is_buy d), (Ws.is_buy u).
Qed.

(** A book is its two sides: equal lookups under every row, equal books. *)
Lemma book_ext b b' : (forall u, level_at b u = level_at b' u) -> b = b'.
Proof.
  intros Hext. destruct b as [bids asks], b' as [bids' asks'].
  f_equal; apply map_eq; intros p.
  - exact (Hext (Level.mk p "Buy" 0)).
  - exact (Hext (Level.mk p "Sell" 0)).
Qed.

Lemma book_put_at r b u :
  level_at (snd (Ws.book_put r b)) u
  = if same_level r u then Some r else level_at b u.
Proof.
  unfold Ws.book_put, modify, level_at, same_level. simpl.
  destruct (Ws.is_buy r) eqn:Hr, (Ws.is_buy u) eqn:Hu; simpl; try reflexivity;
    destruct (Z.eqb_spec (Level.price r) (Level.price u)) as [-> | Hne];
    by rewrite ?lookup_insert_eq, ?lookup_insert_ne.
Qed.

Lemma book_put_ok r b : Ws.book_put r b = (Ok tt, snd (Ws.book_put r b)).
Proof. reflexivity. Qed.

Lemma book_pop_absent d b :
  level_at b d = None -> Ws.book_pop d b = (Raise KeyError, b).
Proof.
  unfold Ws.book_pop, level_at. destruct (Ws.is_buy d); intros ->; reflexivity.
Qed.

Lemma book_pop_present d b :
  is_Some (level_at b d) ->
  exists b', Ws.book_pop d b = (Ok tt, b')
             /\ forall u, level_at b' u
                          = if same_level d u then None else level_at b u.
Proof.
  unfold Ws.book_pop, level_at, same_level. intros [x Hx].
  destruct (Ws.is_buy d) eqn:Hd; rewrite Hx; eexists; (split; [reflexivity |]);
    intros u; destruct (Ws.is_buy u) eqn:Hu; simpl; try reflexivity;
    destruct (Z.eqb_spec (Level.price d) (Level.price u)) as [-> | Hne];
    by rewrite ?lookup_delete_eq, ?lookup_delete_ne.
Qed.

(** The upsert loop never raises, and leaves at every side and price the
    last row put there, or what was there. *)
Lemma put_each_run rows b :
  fst (for_each rows Ws.book_put b) = Ok tt
  /\ forall u, level_at (snd (for_each rows Ws.book_put b)) u
               = match last_put rows u with
                 | Some r => Some r
                 | None => level_at b u
                 end.
Proof.
  revert b. induction rows as [| r rows IH]; intros b; [by split |].
  cbn [for_each last_put]. rewrite bind_run, (book_put_ok r b).
  destruct (IH (snd (Ws.book_put r b))) as [Hok Hat]. split; [exact Hok |].
  intros u. rewrite Hat, book_put_at.
  destruct (last_put rows u); [reflexivity |].
  by destruct (same_level r u).
Qed.

(** The delete loop only ever removes levels. *)
Lemma pop_each_shrinks rows b u :
  level_at b u = None -> level_at (snd (for_each rows Ws.book_pop b)) u = None.
Proof.
  revert b. induction rows as [| d rows IH]; intros b Hnone; [exact Hnone |].
  cbn [for_each]. rewrite bind_run.
  destruct (level_at b d) as [x |] eqn:Hd.
  - destruct (book_pop_present d b) as (b1 & -> & Hat); [by eexists |].
    apply IH. rewrite Hat, Hnone. by destruct (same_level d u).
  - by rewrite (book_pop_absent d b Hd).
Qed.

Lemma pop_each_subset rows b u :
  level_at (snd (for_each rows Ws.book_pop b)) u = None
  \/ level_at (snd (for_each rows Ws.book_pop b)) u = level_at b u.
Proof.
  revert b. induction rows as [| d rows IH]; intros b; [by right |].
  cbn [for_each]. rewrite bind_run.
  destruct (level_at b d) as [x |] eqn:Hd.
  - destruct (book_pop_present d b) as (b1 & -> & Hat); [by eexists |].
    destruct (IH b1) as [Hnone | Hsame]; [by left |].
    rewrite Hsame, Hat. destruct (same_level d u); [by left | by right].
  - rewrite (book_pop_absent d b Hd). by right.
Qed.

(** A delete loop that completes found every row resting when it started. *)
Lemma pop_each_ok_present rows b b1 :
  for_each rows Ws.book_pop b = (Ok tt, b1) ->
  forall d, d ∈ rows -> is_Some (level_at b d).
Proof.
  revert b. induction rows as [| d0 rows IH]; intros b Hrun d Hin.
  - by apply elem_of_nil in Hin.
  - cbn [for_each] in Hrun. rewrite bind_run in Hrun.
    destruct (level_at b d0) as [x |] eqn:Hd0.
    + destruct (book_pop_present d0 b) as (b' & Hpop & Hat); [by eexists |].
      rewrite Hpop in Hrun.
      apply elem_of_cons in Hin as [-> | Hin]; [by eexists |].
      specialize (IH b' Hrun d Hin). rewrite Hat in IH.
      destruct (same_level d0 d); [by destruct IH | exact IH].
    + rewrite (book_pop_absent d0 b Hd0) in Hrun. discriminate Hrun.
Qed.

(** What a completed delete loop leaves. *)
Lemma pop_each_ok_at rows b b1 u :
  for_each rows Ws.book_pop b = (Ok tt, b1) ->
  level_at b1 u = if existsb (fun d => same_level d u) rows then None else level_at b u.
Proof.
  revert b. induction rows as [| d0 rows IH]; intros b Hrun.
  - cbn in Hrun. by injection Hrun as <-.
  - cbn [for_each] in Hrun. rewrite bind_run in Hrun.
    destruct (level_at b d0) as [x |] eqn:Hd0.
    + destruct (book_pop_present d0 b) as (b' & Hpop & Hat); [by eexists |].
      rewrite Hpop in Hrun. rewrite (IH b' Hrun), Hat. cbn [existsb].
      destruct (same_level d0 u); simpl; [| reflexivity].
      by destruct (existsb _ rows).
    + rewrite (book_pop_absent d0 b Hd0) in Hrun. discriminate Hrun.
Qed.

(** If the delete loop completed on one book, it completes on every book
    that holds all its rows. *)
Lemma pop_each_ok_transfer rows b b1 c :
  for_each rows Ws.book_pop b = (Ok tt, b1) ->
  (forall d, d ∈ rows -> is_Some (level_at c d)) ->
  exists c1, for_each rows Ws.book_pop c = (Ok tt, c1).
Proof.
  revert b c. induction rows as [| d0 rows IH]; intros b c Hrun Hc.
  - by eexists.
  - cbn [for_each] in *. rewrite bind_run in Hrun. rewrite bind_run.
    destruct (level_at b d0) as [x |] eqn:Hd0.
    + destruct (book_pop_present d0 b) as (b' & Hpop & Hat); [by eexists |].
      rewrite Hpop in Hrun.
      destruct (book_pop_present d0 c) as (c' & Hpopc & Hatc).
      { apply Hc. by left. }
      rewrite Hpopc. apply (IH b' c' Hrun). intros d Hin.
      rewrite Hatc.
      pose proof (pop_each_ok_present rows b' b1 Hrun d Hin) as Hd.
      rewrite Hat in Hd. destruct (same_level d0 d); [by destruct Hd |].
      apply Hc. by right.
    + rewrite (book_pop_absent d0 b Hd0) in Hrun. discriminate Hrun.
Qed.

(** A delete loop that raised raises again, at once or at the same row,
    when run on the book it left; that book stays as it is. *)
Lemma pop_each_raise_again rows b e b1 :
  for_each rows Ws.book_pop b = (Raise e, b1) ->
  for_each rows Ws.book_pop b1 = (Raise KeyError, b1).
Proof.
  destruct rows as [| d0 rows]; intros Hrun; [discriminate Hrun |].
  cbn [for_each] in *. rewrite bind_run in Hrun. rewrite bind_run.
  destruct (level_at b d0) as [x |] eqn:Hd0.
  - destruct (book_pop_present d0 b) as (b' & Hpop & Hat); [by eexists |].
    rewrite Hpop in Hrun.
    assert (Hgone : level_at b1 d0 = None).
    { replace b1 with (snd (for_each rows Ws.book_pop b')) by (by rewrite Hrun).
      apply pop_each_shrinks. by rewrite Hat, same_level_refl. }
    by rewrite (book_pop_absent d0 b1 Hgone).
  - rewrite (book_pop_absent d0 b Hd0) in Hrun. injection Hrun as _ <-.
    by rewrite (book_pop_absent d0 b Hd0).
Qed.

Lemma last_put_some rows u :
  (exists r, r ∈ rows /\ same_level r u = true) -> is_Some (last_put rows u).
Proof.
  induction rows as [| r0 rows IH]; intros (r & Hin & Hsame).
  - by apply elem_of_nil in Hin.
  - cbn [last_put]. destruct (last_put rows u) eqn:Hlast; [by eexists |].
    apply elem_of_cons in Hin as [<- | Hin].
    + rewrite Hsame. by eexists.
    + destruct IH as [? ?]; [by exists r | discriminate].
Qed.

Lemma last_put_same rows d u :
  same_level d u = true -> last_put rows d = last_put rows u.
Proof.
  intros Hsame. induction rows as [| r rows IH]; [reflexivity |].
  cbn [last_put]. rewrite IH.
  assert (Heq : same_level r d = same_level r u).
  { unfold same_level in *. apply andb_true_iff in Hsame as [Hs Hp].
    apply Bool.eqb_prop in Hs. apply Z.eqb_eq in Hp. by rewrite Hs, Hp. }
  by rewrite Heq.
Qed.

(** Applying a delta a second time changes nothing in the book, when every
    deleted price is put again on its side by the same delta. *)
Lemma delta_block_twice delete update insert b :
  (forall d, d ∈ delete ->
     exists r, r ∈ update ++ insert /\ same_level r d = true) ->
  snd (delta_block delete update insert (snd (delta_block delete update insert b)))
  = snd (delta_block delete update insert b).
Proof.
  intros Hcover. unfold delta_block. rewrite (bind_run _ _ b).
  destruct (for_each delete Ws.book_pop b) as [[[] | e] b1] eqn:Hpop.
  - destruct (put_each_run (update ++ insert) b1) as [Hok Hat].
    destruct (for_each (update ++ insert) Ws.book_put b1) as [r b2]. simpl in *.
    subst r. rewrite bind_run.
    destruct (pop_each_ok_transfer delete b b1 b2 Hpop) as [b3 Hpop2].
    { intros d Hin. rewrite Hat.
      destruct (last_put_some (update ++ insert) d (Hcover d Hin)) as [r ->].
      by eexists. }
    rewrite Hpop2.
    destruct (put_each_run (update ++ insert) b3) as [_ Hat3].
    apply book_ext. intros u. rewrite Hat3, Hat.
    destruct (last_put (update ++ insert) u) eqn:Hlast; [reflexivity |].
    rewrite (pop_each_ok_at delete b2 b3 u Hpop2), Hat, Hlast.
    rewrite (pop_each_ok_at delete b b1 u Hpop).
    by destruct (existsb _ delete).
  - simpl. rewrite bind_run, (pop_each_raise_again delete b e b1 Hpop).
    reflexivity.
Qed.

Lemma put_again_none rows d :
  put_again rows d = false -> last_put rows d = None.
Proof.
  unfold put_again. induction rows as [| r rows IH]; [reflexivity |].
  cbn [existsb last_put]. intros [Hr Hrows]%orb_false_iff.
  by rewrite (IH Hrows), Hr.
Qed.

Lemma put_again_some rows d :
  put_again rows d = true -> is_Some (last_put rows d).
Proof.
  unfold put_again. intros (r & Hin & Hsame)%existsb_exists.
  apply last_put_some. exists r. split; [by apply list_elem_of_In | exact Hsame].
Qed.

(** After a delta that got through its deletes, a price it deleted is
    resting exactly when its rows put it again. *)
Lemma delta_block_deleted delete update insert b d :
  fst (for_each delete Ws.book_pop b) = Ok tt ->
  d ∈ delete ->
  level_at (snd (delta_block delete update insert b)) d
  = last_put (update ++ insert) d.
Proof.
  intros Hpops Hin. unfold delta_block. rewrite bind_run.
  destruct (for_each delete Ws.book_pop b) as [[[] | e] b1] eqn:Hpop;
    [| discriminate Hpops].
  destruct (put_each_run (update ++ insert) b1) as [_ Hat]. rewrite Hat.
  destruct (last_put (update ++ insert) d); [reflexivity |].
  rewrite (pop_each_ok_at delete b b1 d Hpop).
  assert (Hex : existsb (fun d0 => same_level d0 d) delete = true).
  { apply existsb_exists. exists d. split; [by apply list_elem_of_In |].
    apply same_level_refl. }
  by rewrite Hex.
Qed.

(** The delta block run on the book it left: it leaves that book alone
    when the first run raised in its deletes, and when the delta is
    repeatable. *)
Lemma delta_block_again delete update insert b :
  repeatable delete (update ++ insert) = true
  \/ (exists e, fst (for_each delete Ws.book_pop b) = Raise e) ->
  snd (delta_block delete update insert (snd (delta_block delete update insert b)))
  = snd (delta_block delete update insert b).
Proof.
  intros Hcase.
  destruct (for_each delete Ws.book_pop b) as [[[] | e] b1] eqn:Hpop.
  - destruct Hcase as [Hrep | [e He]]; [| discriminate He].
    destruct delete as [| d0 delete]; [by apply delta_block_twice; intros d Hd;
                                         apply elem_of_nil in Hd |].
    cbn [repeatable] in Hrep. apply orb_true_iff in Hrep as [Hhead | Hall].
    + (* the first deleted price is not put again: the second run raises at
         once *)
      apply negb_true_iff in Hhead.
      assert (Hgone : level_at (snd (delta_block (d0 :: delete) update insert b)) d0
                      = None).
      { rewrite delta_block_deleted; [by apply put_again_none | by rewrite Hpop |].
        by left. }
      set (b2 := snd (delta_block (d0 :: delete) update insert b)) in *.
      unfold delta_block at 1. rewrite bind_run. cbn [for_each].
      rewrite bind_run, (book_pop_absent d0 b2 Hgone). reflexivity.
    + apply delta_block_twice. intros d Hd.
      rewrite forallb_forall in Hall. apply list_elem_of_In in Hd.
      specialize (Hall d Hd). unfold put_again in Hall.
      apply existsb_exists in Hall as (r & Hin & Hsame).
      exists r. split; [by apply list_elem_of_In | exact Hsame].
  - unfold delta_block. rewrite (bind_run _ _ b), Hpop. cbn [snd].
    rewrite bind_run, (pop_each_raise_again delete b e b1 Hpop). reflexivity.
Qed.

(** A delta that got through its deletes and is not repeatable: run on the
    book it left, it pops the first deleted price, which was put again, and
    raises at a price that was not, before it puts anything. *)
Lemma delta_block_again_differs delete update insert b :
  fst (for_each delete Ws.book_pop b) = Ok tt ->
  repeatable delete (update ++ insert) = false ->
  snd (delta_block delete update insert (snd (delta_block delete update insert b)))
  <> snd (delta_block delete update insert b).
Proof.
  intros Hpops Hrep.
  destruct delete as [| d0 delete]; [discriminate Hrep |].
  cbn [repeatable] in Hrep. apply orb_false_iff in Hrep as [Hhead Hall].
  apply negb_false_iff in Hhead.
  set (b2 := snd (delta_block (d0 :: delete) update insert b)).
  assert (Hat2 : forall d, d ∈ d0 :: delete ->
            level_at b2 d = last_put (update ++ insert) d).
  { intros d Hd. by apply delta_block_deleted. }
  destruct (put_again_some _ _ Hhead) as [r0 Hr0].
  assert (Hd0 : level_at b2 d0 = Some r0).
  { rewrite Hat2 by (by left). exact Hr0. }
  (* some deleted price is not resting in [b2] *)
  assert (Hmissing : exists d, d ∈ d0 :: delete /\ level_at b2 d = None).
  { destruct (forallb (put_again (update ++ insert)) (d0 :: delete)) eqn:Hf;
      [discriminate Hall |].
    apply not_true_iff_false in Hf.
    assert (Hex : exists d, In d (d0 :: delete)
                            /\ put_again (update ++ insert) d = false).
    { clear -Hf. induction (d0 :: delete) as [| x l IH]; [by destruct Hf |].
      cbn [forallb] in Hf.
      destruct (put_again (update ++ insert) x) eqn:Hx.
      - destruct IH as (d & Hin & Hd); [by rewrite andb_true_l in Hf |].
        exists d. split; [by right | exact Hd].
      - exists x. split; [by left | exact Hx]. }
    destruct Hex as (d & Hin & Hd). exists d.
    apply list_elem_of_In in Hin. split; [exact Hin |].
    rewrite (Hat2 d Hin). by apply put_again_none. }
  intros Heq.
  unfold delta_block at 1 in Heq. fold b2 in Heq. rewrite bind_run in Heq.
  destruct (for_each (d0 :: delete) Ws.book_pop b2) as [[[] | e] b4] eqn:Hpop2.
  - (* the second delete loop cannot get through *)
    destruct Hmissing as (d & Hin & Hnone).
    destruct (pop_each_ok_present _ _ _ Hpop2 d Hin) as [x Hx]. congruence.
  - cbn [snd] in Heq.
    assert (Hgone : level_at b4 d0 = None).
    { replace b4 with (snd (for_each (d0 :: delete) Ws.book_pop b2))
        by (by rewrite Hpop2).
      cbn [for_each]. rewrite bind_run.
      destruct (book_pop_present d0 b2) as (b3 & -> & Hat3); [by eexists |].
      apply pop_each_shrinks. by rewrite Hat3, same_level_refl. }
    rewrite Heq in Hgone. congruence.
Qed.

End BookSides.

(** ** What [on_depth] does to the book tables *)

Section Frame.

Variable self : api.

Lemma same_books_refl (g : Gateway.t) : same_books self g g.
Proof. by repeat split. Qed.

Lemma same_books_trans (g1 g2 g3 : Gateway.t) :
  same_books self g1 g2 -> same_books self g2 g3 -> same_books self g1 g3.
Proof.
  intros (Hb & Ha & Ht) (Hb' & Ha' & Ht'). repeat split; congruence.
Qed.

Lemma keeps_bind {A B} (m : M Gateway.t A) (k : A -> M Gateway.t B) :
  keeps self m -> (forall a, keeps self (k a)) -> keeps self (bind m k).
Proof.
  intros Hm Hk g. rewrite bind_run. specialize (Hm g).
  destruct (m g) as [[a | e] g1]; simpl in *; [| exact Hm].
  eapply same_books_trans; [exact Hm | apply Hk].
Qed.

Lemma keeps_read {A} (m : M Gateway.t A) :
  (forall g, snd (m g) = g) -> keeps self m.
Proof. intros Hm g. rewrite Hm. apply same_books_refl. Qed.

Lemma keeps_for_each {A} (l : list A) (body : A -> M Gateway.t unit) :
  (forall x, keeps self (body x)) -> keeps self (for_each l body).
Proof.
  intros Hbody. induction l as [| x l IH]; cbn [for_each].
  - by apply keeps_read.
  - apply keeps_bind; [apply Hbody | intros _; exact IH].
Qed.

Lemma keeps_emit (e : event) : keeps self (emit e).
Proof. intros g. destruct self; by repeat split. Qed.

Lemma keeps_tick_set (symbol : string) (f : TickData.t -> TickData.t) :
  keeps self (Ws.tick_set self symbol f).
Proof.
  intros g. unfold same_books, Ws.tick_set, Ws.update, modify.
  destruct self; cbn; by rewrite dom_alter_L.
Qed.

Lemma keeps_tick_of (symbol : string) : keeps self (Ws.tick_of self symbol).
Proof.
  apply keeps_read. intros g. rewrite tick_of_run.
  by destruct (WsApi.ticks (Ws.this self g) !! symbol).
Qed.

Lemma keeps_getitem {K V} `{Countable K} (d : gmap K V) (k : K) :
  keeps self (getitem d k).
Proof. apply keeps_read. intros g. rewrite getitem_run. by destruct (d !! k). Qed.

Lemma keeps_index {A} (l : list A) (i : nat) : keeps self (index l i).
Proof. apply keeps_read. intros g. rewrite index_run. by destruct (l !! i). Qed.

Lemma keeps_depth_slot (symbol : string) (b : Book.t) (i : nat) :
  keeps self (Ws.depth_slot self symbol b i).
Proof.
  unfold Ws.depth_slot.
  repeat (apply keeps_bind; [| intros ?]);
    auto using keeps_index, keeps_getitem, keeps_tick_set.
Qed.

Lemma keeps_depth_publish (symbol : string) (packet : Packet.t) (ts : Z) :
  keeps self (depth_publish self symbol packet ts).
Proof.
  unfold depth_publish.
  apply keeps_bind; [by apply keeps_read | intros b].
  apply keeps_bind;
    [apply keeps_for_each; intros i; apply keeps_depth_slot | intros _].
  apply keeps_bind; [| intros dt].
  { apply keeps_read. intros g. destruct self; [| reflexivity].
    by destruct (Packet.timestamp_e6 packet). }
  apply keeps_bind; [apply keeps_tick_set | intros _].
  apply keeps_bind; [apply keeps_tick_of | intros tick].
  apply keeps_emit.
Qed.

Lemma this_set_this (w : WsApi.t) (g : Gateway.t) :
  Ws.this self (Ws.set_this self w g) = w.
Proof. by destruct self. Qed.

Lemma book_of_store (symbol : string) (b : Book.t) (g : Gateway.t) :
  Ws.book_of self symbol (Ws.book_store self symbol b g) = b.
Proof.
  unfold Ws.book_of, Ws.book_store. rewrite this_set_this. cbn.
  rewrite !lookup_insert_eq. by destruct b.
Qed.

Lemma book_of_setdefault (symbol : string) (g : Gateway.t) :
  Ws.book_of self symbol (Ws.set_this self (Ws.setdefault symbol (Ws.this self g)) g)
  = Ws.book_of self symbol g.
Proof.
  unfold Ws.book_of, Ws.setdefault. rewrite this_set_this.
  destruct (WsApi.symbol_bids (Ws.this self g) !! symbol) eqn:Hb; cbn;
    destruct (WsApi.symbol_asks (Ws.this self g) !! symbol) eqn:Ha; cbn;
    by rewrite ?Hb, ?Ha, ?lookup_insert_eq.
Qed.

(** After [setdefault] and the in-place update, the tables hold the updated
    sides under the symbol and are otherwise as before. *)
Lemma tables_store_setdefault (symbol : string) (b : Book.t) (g : Gateway.t) :
  let g' := Ws.book_store self symbol b
              (Ws.set_this self (Ws.setdefault symbol (Ws.this self g)) g) in
  WsApi.symbol_bids (Ws.this self g')
  = <[symbol := Book.bids b]> (WsApi.symbol_bids (Ws.this self g))
  /\ WsApi.symbol_asks (Ws.this self g')
     = <[symbol := Book.asks b]> (WsApi.symbol_asks (Ws.this self g))
  /\ dom (WsApi.ticks (Ws.this self g')) = dom (WsApi.ticks (Ws.this self g)).
Proof.
  unfold Ws.book_store, Ws.setdefault. rewrite !this_set_this.
  destruct (WsApi.symbol_bids (Ws.this self g) !! symbol) eqn:Hb; cbn;
    destruct (WsApi.symbol_asks (Ws.this self g) !! symbol) eqn:Ha; cbn;
    by rewrite ?insert_insert_eq.
Qed.

Lemma depth_prologue_state (packet : Packet.t) (g : Gateway.t) :
  snd (depth_prologue self packet g) = g.
Proof.
  unfold depth_prologue. rewrite bind_run, key_run.
  destruct (Packet.topic packet) as [topic |]; [| reflexivity].
  rewrite bind_run.
  assert (Hts : snd (match self with
                     | Public => Ws.timestamp_prefix packet
                     | Private => ret 0
                     end g) = g).
  { destruct self; [reflexivity | apply timestamp_prefix_run]. }
  destruct (match self with
            | Public => Ws.timestamp_prefix packet
            | Private => ret 0
            end g) as [[ts | e] g1]; simpl in Hts; subst g1; [| reflexivity].
  rewrite bind_run, tick_of_run.
  by destruct (WsApi.ticks (Ws.this self g) !! _).
Qed.

(** The prologue looks at the packet and at which symbols have a tick. *)
Lemma depth_prologue_same (packet : Packet.t) (g g' : Gateway.t) :
  dom (WsApi.ticks (Ws.this self g')) = dom (WsApi.ticks (Ws.this self g)) ->
  fst (depth_prologue self packet g') = fst (depth_prologue self packet g).
Proof.
  intros Hdom. unfold depth_prologue. rewrite !bind_run, !key_run.
  destruct (Packet.topic packet) as [topic |]; [| reflexivity].
  rewrite !bind_run.
  assert (Hts : exists r, match self with
                          | Public => Ws.timestamp_prefix packet
                          | Private => ret 0
                          end g = (r, g)
                          /\ match self with
                             | Public => Ws.timestamp_prefix packet
                             | Private => ret 0
                             end g' = (r, g')).
  { destruct self; [by eexists |].
    unfold Ws.timestamp_prefix, int.
    destruct (Packet.timestamp_e6 packet) as [z | s |]; try by eexists.
    destruct (int_of_str (str_take 10 s)); by eexists. }
  destruct Hts as (r & -> & ->). destruct r as [ts | e]; [| reflexivity].
  rewrite !bind_run, !tick_of_run.
  set (symbol := replace topic "orderBookL2_25." "").
  assert (Hsome : is_Some (WsApi.ticks (Ws.this self g') !! symbol)
                  <-> is_Some (WsApi.ticks (Ws.this self g) !! symbol)).
  { by rewrite <- !elem_of_dom, Hdom. }
  destruct (WsApi.ticks (Ws.this self g') !! symbol) eqn:H1,
           (WsApi.ticks (Ws.this self g) !! symbol) eqn:H2; try reflexivity.
  - destruct Hsome as [Hsome _]. destruct Hsome as [? ?]; [by eexists | discriminate].
  - destruct Hsome as [_ Hsome]. destruct Hsome as [? ?]; [by eexists | discriminate].
Qed.

Lemma on_depth_prologue_raise (packet : Packet.t) (g : Gateway.t) (e : exn) :
  fst (depth_prologue self packet g) = Raise e ->
  Ws.on_depth self packet g = (Raise e, g).
Proof.
  unfold depth_prologue, Ws.on_depth. rewrite !bind_run, !key_run.
  destruct (Packet.topic packet) as [topic |]; [| by intros [= <-]].
  rewrite !bind_run.
  pose proof (timestamp_prefix_run packet g) as Hts.
  destruct self.
  - cbn [ret]. rewrite !bind_run, !tick_of_run.
    destruct (WsApi.ticks (Ws.this Private g) !! _); [discriminate | by intros [= <-]].
  - destruct (Ws.timestamp_prefix packet g) as [[ts | e'] g1]; simpl in Hts; subst g1;
      [| by intros [= <-]].
    rewrite !bind_run, !tick_of_run.
    destruct (WsApi.ticks (Ws.this Public g) !! _); [discriminate | by intros [= <-]].
Qed.

(** How [on_depth] runs on a delta packet once the prologue is through. *)
Lemma on_depth_delta_run (packet : Packet.t) (g : Gateway.t)
    (symbol : string) (ts : Z) (delete update insert : list Level.t) :
  fst (depth_prologue self packet g) = Ok (symbol, ts) ->
  Packet.type_ packet <> "snapshot" ->
  Packet.data packet = BookDelta delete update insert ->
  let g1 := Ws.set_this self (Ws.setdefault symbol (Ws.this self g)) g in
  let rb := delta_block delete update insert (Ws.book_of self symbol g) in
  Ws.on_depth self packet g
  = match fst rb with
    | Ok _ => depth_publish self symbol packet ts (Ws.book_store self symbol (snd rb) g1)
    | Raise e => (Raise e, Ws.book_store self symbol (snd rb) g1)
    end.
Proof.
  intros Hpro Htype%String.eqb_neq Hdata g1 rb.
  assert (Hbook : Ws.book_of self symbol g1 = Ws.book_of self symbol g)
    by apply book_of_setdefault.
  revert Hpro. unfold depth_prologue, Ws.on_depth.
  rewrite !bind_run, !key_run.
  destruct (Packet.topic packet) as [topic |]; [| discriminate].
  rewrite !bind_run.
  pose proof (timestamp_prefix_run packet g) as Hts.
  assert (Hrest : forall ts',
    fst ((_ <- Ws.tick_of self (replace topic "orderBookL2_25." "") ;;
          ret (replace topic "orderBookL2_25." "", ts')) g) = Ok (symbol, ts) ->
    (_ <- Ws.tick_of self (replace topic "orderBookL2_25." "") ;;
     Ws.update self (Ws.setdefault (replace topic "orderBookL2_25." "")) ;;
     (if String.eqb (Packet.type_ packet) "snapshot"
      then
        match Packet.data packet with
        | BookSnapshot order_book =>
            Ws.on_book self (replace topic "orderBookL2_25." "")
              (for_each order_book Ws.book_put)
        | _ => Ws.shape_error self
        end
      else
        match Packet.data packet with
        | BookDelta delete update insert =>
            Ws.on_book self (replace topic "orderBookL2_25." "")
              (for_each delete Ws.book_pop ;;
               for_each (update ++ insert) Ws.book_put)
        | _ => Ws.shape_error self
        end) ;;
     b <- gets (Ws.book_of self (replace topic "orderBookL2_25." "")) ;;
     for_each (seq 0 5) (Ws.depth_slot self (replace topic "orderBookL2_25." "") b) ;;
     dt <- match self with
           | Public => ret (seconds ts')
           | Private =>
               match Packet.timestamp_e6 packet with
               | SInt us =>
                   h <- gets Gateway.host ;;
                   lift (Host.fromtimestamp_e6 h us)
               | _ => raise TypeError
               end
           end ;;
     Ws.tick_set self (replace topic "orderBookL2_25." "") (TickData.set_datetime dt) ;;
     tick <- Ws.tick_of self (replace topic "orderBookL2_25." "") ;;
     emit (EvTick tick)) g
    = match fst rb with
      | Ok _ => depth_publish self symbol packet ts (Ws.book_store self symbol (snd rb) g1)
      | Raise e => (Raise e, Ws.book_store self symbol (snd rb) g1)
      end).
  { intros ts'. rewrite !bind_run, !tick_of_run.
    destruct (WsApi.ticks (Ws.this self g) !! _) as [tick |]; [| discriminate].
    cbn [ret fst]. intros [= <- <-].
    rewrite Htype, Hdata. rewrite bind_run.
    change (Ws.update self (Ws.setdefault (replace topic "orderBookL2_25." "")) g)
      with (Ok tt, g1).
    cbv iota. rewrite bind_run.
    unfold Ws.on_book, zoom. rewrite Hbook.
    fold (delta_block delete update insert). fold rb.
    destruct rb as [[[] | e] b']; reflexivity. }
  destruct self.
  - cbn [ret]. apply Hrest.
  - destruct (Ws.timestamp_prefix packet g) as [[ts' | e'] g']; simpl in Hts; subst g';
      [apply Hrest | discriminate].
Qed.

End Frame.

(** ** Deltas *)

(** C4 (as the code has it): in [on_depth]'s handling of a delta packet the
    whole delete list is popped before any row of update + insert is stored.
    When the pops are through (every deleted price was resting), each side
    and price named by update + insert holds the last row put there -- also
    where the same delta deleted that price -- a price that was only deleted
    is gone, and every other level is as it was.  When a pop raises, the
    handler raises with it and no row has been stored: the book has only
    lost levels. *)
Theorem on_depth_deletes_before_upserts
    (self : api) (packet : Packet.t) (g : Gateway.t) (symbol : string) (ts : Z)
    (delete update insert : list Level.t) :
  fst (depth_prologue self packet g) = Ok (symbol, ts) ->
  Packet.type_ packet <> "snapshot" ->
  Packet.data packet = BookDelta delete update insert ->
  let b := Ws.book_of self symbol g in
  let b' := Ws.book_of self symbol (snd (Ws.on_depth self packet g)) in
  (fst (for_each delete Ws.book_pop b) = Ok tt ->
     (forall u, u ∈ update ++ insert ->
        is_Some (level_at b' u) /\ level_at b' u = last_put (update ++ insert) u)
     /\ (forall d, d ∈ delete ->
           last_put (update ++ insert) d = None -> level_at b' d = None)
     /\ (forall u,
           last_put (update ++ insert) u = None ->
           existsb (fun d => same_level d u) delete = false ->
           level_at b' u = level_at b u))
  /\ (forall e, fst (for_each delete Ws.book_pop b) = Raise e ->
        fst (Ws.on_depth self packet g) = Raise e
        /\ forall u, level_at b' u = None \/ level_at b' u = level_at b u).
Proof.
  intros Hpro Htype Hdata b b'.
  pose proof (on_depth_delta_run self packet g symbol ts delete update insert
                Hpro Htype Hdata) as Hrun.
  cbv zeta in Hrun. fold b in Hrun.
  set (g1 := Ws.set_this self (Ws.setdefault symbol (Ws.this self g)) g) in Hrun.
  unfold delta_block in Hrun. rewrite bind_run in Hrun.
  split.
  - intros Hpops.
    assert (Hat : forall u,
              level_at b' u
              = match last_put (update ++ insert) u with
                | Some r => Some r
                | None =>
                    if existsb (fun d => same_level d u) delete
                    then None else level_at b u
                end).
    { intros u. subst b'. rewrite Hrun.
      destruct (for_each delete Ws.book_pop b) as [[[] | e] b1] eqn:Hpop;
        [| discriminate Hpops].
      destruct (put_each_run (update ++ insert) b1) as [Hok Hput].
      destruct (for_each (update ++ insert) Ws.book_put b1) as [r b2].
      simpl in Hok, Hput. subst r. cbn [fst snd].
      pose proof (keeps_depth_publish self symbol packet ts
                    (Ws.book_store self symbol b2 g1)) as (Hb & Ha & _).
      assert (Hbook : Ws.book_of self symbol
                        (snd (depth_publish self symbol packet ts
                                (Ws.book_store self symbol b2 g1))) = b2).
      { rewrite <- (book_of_store self symbol b2 g1) at 2.
        unfold Ws.book_of. by rewrite Hb, Ha. }
      rewrite Hbook, Hput, (pop_each_ok_at delete b b1 u Hpop). reflexivity. }
    split; [| split].
    + intros u Hin. rewrite Hat.
      destruct (last_put_some (update ++ insert) u) as [r Hr].
      { exists u. split; [exact Hin | apply same_level_refl]. }
      rewrite Hr. split; [by eexists | reflexivity].
    + intros d Hin Hnone. rewrite Hat, Hnone.
      assert (Hex : existsb (fun d0 => same_level d0 d) delete = true).
      { apply existsb_exists. exists d. split; [| apply same_level_refl].
        by apply list_elem_of_In. }
      by rewrite Hex.
    + intros u Hnone Hkeep. by rewrite Hat, Hnone, Hkeep.
  - intros e Hraise. subst b'. rewrite Hrun.
    pose proof (pop_each_subset delete b) as Hsub.
    destruct (for_each delete Ws.book_pop b) as [[[] | e'] b1] eqn:Hpop;
      [discriminate Hraise |].
    cbn [fst] in Hraise. injection Hraise as ->. cbn [fst snd].
    rewrite book_of_store. split; [reflexivity | exact Hsub].
Qed.

Lemma on_depth_deletes_before_upserts_witness :
  level_at
    (Ws.book_of Private "BTCUSD"
       (snd (Ws.on_depth Private Sample.delta_requote Sample.with_book)))
    (Sample.bid 100 0)
  = Some (Sample.bid 100 9).
Proof.
  destruct (on_depth_deletes_before_upserts Private Sample.delta_requote
              Sample.with_book "BTCUSD" 0
              [Sample.bid 100 0] [Sample.bid 100 9] []) as (Hok & _).
  - reflexivity.
  - intros H. discriminate H.
  - reflexivity.
  - destruct (Hok eq_refl) as (Hput & _).
    destruct (Hput (Sample.bid 100 9)) as [_ Heq].
    + apply list_elem_of_In. left. reflexivity.
    + exact Heq.
Defined.

(** C4 fails as stated: a delta that deletes a bid at 94, which is not
    resting, and puts a bid at 94 makes the pop raise; the handler is left
    before the put, and the upsert at the deleted price is lost. *)
Lemma on_depth_stale_delete_loses_upsert :
  fst (Ws.on_depth Private Sample.delta_stale Sample.with_book) = Raise KeyError
  /\ level_at
       (Ws.book_of Private "BTCUSD"
          (snd (Ws.on_depth Private Sample.delta_stale Sample.with_book)))
       (Sample.bid 94 7)
     = None.
Proof. vm_compute. split; reflexivity. Qed.

(** [on_depth] run twice on a delta packet, once the prologue is through:
    the book of the symbol after each run is what the delta block leaves, and
    the tables of the session are the same after both runs when the second
    block leaves the book as it found it. *)
Lemma on_depth_twice_books
    (self : api) (packet : Packet.t) (g : Gateway.t) (symbol : string) (ts : Z)
    (delete update insert : list Level.t) :
  fst (depth_prologue self packet g) = Ok (symbol, ts) ->
  Packet.type_ packet <> "snapshot" ->
  Packet.data packet = BookDelta delete update insert ->
  let once := snd (Ws.on_depth self packet g) in
  let twice := snd (Ws.on_depth self packet once) in
  let b1 := snd (delta_block delete update insert (Ws.book_of self symbol g)) in
  let b2 := snd (delta_block delete update insert b1) in
  Ws.book_of self symbol once = b1
  /\ Ws.book_of self symbol twice = b2
  /\ (b2 = b1 ->
      WsApi.symbol_bids (Ws.this self twice) = WsApi.symbol_bids (Ws.this self once)
      /\ WsApi.symbol_asks (Ws.this self twice)
         = WsApi.symbol_asks (Ws.this self once)).
Proof.
  intros Hpro Htype Hdata once twice b1 b2.
  set (g1 := Ws.set_this self (Ws.setdefault symbol (Ws.this self g)) g).
  set (rb := delta_block delete update insert (Ws.book_of self symbol g)).
  set (g2 := Ws.book_store self symbol (snd rb) g1).
  assert (Honce : same_books self g2 once).
  { subst once.
    rewrite (on_depth_delta_run self packet g symbol ts delete update insert
               Hpro Htype Hdata).
    fold g1 rb g2. destruct (fst rb).
    - apply keeps_depth_publish.
    - apply same_books_refl. }
  destruct (tables_store_setdefault self symbol (snd rb) g) as (Hb2 & Ha2 & Ht2).
  fold g1 g2 in Hb2, Ha2, Ht2.
  destruct Honce as (Hb & Ha & Ht).
  rewrite Hb2 in Hb. rewrite Ha2 in Ha. rewrite Ht2 in Ht.
  assert (Hpro' : fst (depth_prologue self packet once) = Ok (symbol, ts)).
  { rewrite <- Hpro. by apply depth_prologue_same. }
  assert (Hbook : Ws.book_of self symbol once = snd rb).
  { unfold Ws.book_of. rewrite Hb, Ha, !lookup_insert_eq. cbn.
    by destruct (snd rb). }
  set (g1' := Ws.set_this self (Ws.setdefault symbol (Ws.this self once)) once).
  set (rb' := delta_block delete update insert (Ws.book_of self symbol once)).
  set (g2' := Ws.book_store self symbol (snd rb') g1').
  assert (Htwice : same_books self g2' twice).
  { subst twice.
    rewrite (on_depth_delta_run self packet once symbol ts delete update insert
               Hpro' Htype Hdata).
    fold g1' rb' g2'. destruct (fst rb').
    - apply keeps_depth_publish.
    - apply same_books_refl. }
  assert (Hrb' : snd rb' = b2).
  { subst rb' b2 b1. by rewrite Hbook. }
  destruct (tables_store_setdefault self symbol (snd rb') once) as (Hb2' & Ha2' & _).
  fold g1' g2' in Hb2', Ha2'.
  destruct Htwice as (Hb' & Ha' & _).
  split; [exact Hbook |].
  split.
  { unfold Ws.book_of. rewrite Hb', Ha', Hb2', Ha2', !lookup_insert_eq. cbn.
    rewrite Hrb'. by destruct b2. }
  intros Hsame.
  rewrite Hb', Ha', Hb2', Ha2', Hrb', Hsame, Hb, Ha, !insert_insert_eq.
  by split.
Qed.

(** C3 (as the code has it): [on_depth] run a second time on the same delta
    packet leaves the bid and ask tables of the session as the first run
    left them in every case but one.  The tables are the same when the delta
    is repeatable (every price it deletes is put again, on the same side, by
    its update + insert rows, or the first price it deletes is not), and
    also when the first run did not get through its deletes or never reached
    them.  They differ when the first run got through its deletes and the
    delta puts back the first price it deletes but not all of them: the
    second run pops what was put back, raises at the first price that was
    not, and stores nothing. *)
Theorem on_depth_delta_twice
    (self : api) (packet : Packet.t) (g : Gateway.t)
    (delete update insert : list Level.t) :
  Packet.type_ packet <> "snapshot" ->
  Packet.data packet = BookDelta delete update insert ->
  let once := snd (Ws.on_depth self packet g) in
  let twice := snd (Ws.on_depth self packet once) in
  let same :=
    WsApi.symbol_bids (Ws.this self twice) = WsApi.symbol_bids (Ws.this self once)
    /\ WsApi.symbol_asks (Ws.this self twice) = WsApi.symbol_asks (Ws.this self once) in
  (repeatable delete (update ++ insert) = true -> same)
  /\ (forall e, fst (depth_prologue self packet g) = Raise e -> same)
  /\ (forall symbol ts,
        fst (depth_prologue self packet g) = Ok (symbol, ts) ->
        match fst (for_each delete Ws.book_pop (Ws.book_of self symbol g)) with
        | Raise _ => same
        | Ok _ =>
            repeatable delete (update ++ insert) = false ->
            Ws.book_of self symbol twice <> Ws.book_of self symbol once
        end).
Proof.
  intros Htype Hdata once twice same.
  assert (Hraise : forall e, fst (depth_prologue self packet g) = Raise e -> same).
  { intros e Hpro.
    assert (Honce : once = g).
    { subst once. by rewrite (on_depth_prologue_raise self packet g e Hpro). }
    subst same twice. rewrite Honce. fold once. rewrite Honce. by split. }
  split; [| split; [exact Hraise |]].
  - intros Hrep.
    destruct (fst (depth_prologue self packet g)) as [[symbol ts] | e] eqn:Hpro;
      [| by apply (Hraise e)].
    destruct (on_depth_twice_books self packet g symbol ts delete update insert
                Hpro Htype Hdata) as (_ & _ & Hsame).
    apply Hsame. apply delta_block_again. by left.
  - intros symbol ts Hpro.
    destruct (on_depth_twice_books self packet g symbol ts delete update insert
                Hpro Htype Hdata) as (Hb1 & Hb2 & Hsame).
    destruct (fst (for_each delete Ws.book_pop (Ws.book_of self symbol g)))
      as [[] | e] eqn:Hpops.
    + intros Hrep. fold once twice in Hb1, Hb2. rewrite Hb1, Hb2.
      by apply delta_block_again_differs.
    + apply Hsame. apply delta_block_again. right. by exists e.
Qed.

(** An ordinary delta, which deletes the bid at 95 for good and updates the
    bid at 100: the second run raises at its first pop and the tables stay
    as the first run left them. *)
Lemma on_depth_delta_twice_witness :
  WsApi.symbol_bids
    (Gateway.ws_api
       (snd (Ws.on_depth Private Sample.delta_delete_and_update
               (snd (Ws.on_depth Private Sample.delta_delete_and_update
                       Sample.with_book)))))
  = WsApi.symbol_bids
      (Gateway.ws_api
         (snd (Ws.on_depth Private Sample.delta_delete_and_update Sample.with_book))).
Proof.
  destruct (on_depth_delta_twice Private Sample.delta_delete_and_update
              Sample.with_book [Sample.bid 95 0] [Sample.bid 100 9] [])
    as (Hrep & _).
  - intros H. discriminate H.
  - reflexivity.
  - exact (proj1 (Hrep eq_refl)).
Defined.

(** C3 fails as stated: a delta that deletes the bids at 100 and 95 and puts
    100 again leaves 100 in the book when applied once; applied twice, the
    second run pops 100, raises at 95, and 100 is gone. *)
Lemma on_depth_delta_twice_differs :
  Book.bids
    (Ws.book_of Private "BTCUSD"
       (snd (Ws.on_depth Private Sample.delta_requote_and_delete Sample.with_book)))
    !! 100
  = Some (Sample.bid 100 9)
  /\ Book.bids
       (Ws.book_of Private "BTCUSD"
          (snd (Ws.on_depth Private Sample.delta_requote_and_delete
                  (snd (Ws.on_depth Private Sample.delta_requote_and_delete
                          Sample.with_book)))))
       !! 100
     = None
  /\ fst (Ws.on_depth Private Sample.delta_requote_and_delete Sample.with_book) = Ok tt
  /\ fst (Ws.on_depth Private Sample.delta_requote_and_delete
            (snd (Ws.on_depth Private Sample.delta_requote_and_delete
                    Sample.with_book)))
     = Raise KeyError.
Proof. vm_compute. repeat split. Qed.

(** ** Depth extraction *)

Lemma keys_lookup (side : gmap Z Level.t) (p : Z) :
  p ∈ Ws.keys side -> is_Some (side !! p).
Proof.
  unfold Ws.keys. intros ([k v] & -> & Hin)%list_elem_of_fmap.
  apply elem_of_map_to_list in Hin. by eexists.
Qed.

Lemma sorted_keys_lookup (R : relation Z) `{!RelDecision R}
    (side : gmap Z Level.t) (i : nat) (p : Z) :
  merge_sort R (Ws.keys side) !! i = Some p -> is_Some (side !! p).
Proof.
  intros Hi. apply keys_lookup.
  rewrite <- (merge_sort_Permutation R (Ws.keys side)).
  by apply list_elem_of_lookup_2 with i.
Qed.

(** The loop over [range(5)] reads slot [i] of both sorted key lists: it
    raises IndexError as soon as [i] reaches the length of the shorter one. *)
Lemma depth_slots_thin (self : api) (symbol : string) (b : Book.t)
    (m k : nat) (g : Gateway.t) :
  (k <= min (length (Ws.bid_keys b)) (length (Ws.ask_keys b)))%nat ->
  (min (length (Ws.bid_keys b)) (length (Ws.ask_keys b)) < k + m)%nat ->
  fst (for_each (seq k m) (Ws.depth_slot self symbol b) g) = Raise IndexError.
Proof.
  revert k g. induction m as [| m IH]; intros k g Hle Hlt; [lia |].
  cbn [seq for_each]. rewrite bind_run. unfold Ws.depth_slot at 1.
  rewrite bind_run, index_run.
  destruct (Ws.bid_keys b !! k) as [bid_price |] eqn:Hbid; [| reflexivity].
  rewrite bind_run, getitem_run.
  destruct (sorted_keys_lookup _ _ _ _ Hbid) as [bid_data ->].
  rewrite bind_run, index_run.
  destruct (Ws.ask_keys b !! k) as [ask_price |] eqn:Hask; [| reflexivity].
  rewrite bind_run, getitem_run.
  destruct (sorted_keys_lookup _ _ _ _ Hask) as [ask_data ->].
  apply lookup_lt_Some in Hbid, Hask.
  change (Ws.tick_set self symbol
            (TickData.set_depth (k + 1) bid_price (Level.size bid_data)
               ask_price (Level.size ask_data)) g)
    with (Ok tt, snd (Ws.tick_set self symbol
                        (TickData.set_depth (k + 1) bid_price (Level.size bid_data)
                           ask_price (Level.size ask_data)) g)).
  apply IH; lia.
Qed.

(** C1 fails on the code: whenever a delta leaves fewer than five levels on
    a side, the fixed-index extraction of [on_depth] reads the sorted key
    list out of range and the handler raises IndexError; no slot is marked
    absent. *)
Theorem on_depth_thin_book_raises
    (self : api) (packet : Packet.t) (g : Gateway.t) (symbol : string) (ts : Z)
    (delete update insert : list Level.t) :
  fst (depth_prologue self packet g) = Ok (symbol, ts) ->
  Packet.type_ packet <> "snapshot" ->
  Packet.data packet = BookDelta delete update insert ->
  let rb := delta_block delete update insert (Ws.book_of self symbol g) in
  fst rb = Ok tt ->
  (length (Ws.bid_keys (snd rb)) < 5 \/ length (Ws.ask_keys (snd rb)) < 5)%nat ->
  fst (Ws.on_depth self packet g) = Raise IndexError.
Proof.
  intros Hpro Htype Hdata rb Hok Hthin.
  rewrite (on_depth_delta_run self packet g symbol ts delete update insert
             Hpro Htype Hdata).
  fold rb. rewrite Hok. unfold depth_publish.
  rewrite bind_run. cbn [gets]. rewrite book_of_store, bind_run.
  pose proof (depth_slots_thin self symbol (snd rb) 5 0
                (Ws.book_store self symbol (snd rb)
                   (Ws.set_this self (Ws.setdefault symbol (Ws.this self g)) g)))
    as Hloop.
  destruct (for_each (seq 0 5) (Ws.depth_slot self symbol (snd rb)) _) as [r g'].
  simpl in Hloop. rewrite Hloop; [reflexivity | lia | lia].
Qed.

Lemma on_depth_thin_book_raises_witness :
  fst (Ws.on_depth Private Sample.delta_thin Sample.with_book) = Raise IndexError.
Proof.
  apply (on_depth_thin_book_raises Private Sample.delta_thin Sample.with_book
           "BTCUSD" 0 [Sample.bid 100 0; Sample.bid 99 0] [] []).
  - reflexivity.
  - intros H. discriminate H.
  - reflexivity.
  - reflexivity.
  - left. vm_compute. lia.
Defined.

(** The book of the example before the thin delta: the handler had returned
    and pushed a quote with five levels a side. *)
Lemma on_depth_full_book_runs :
  fst (Ws.on_depth Private Sample.snapshot Sample.subscribed) = Ok tt
  /\ (TickData.bid_price <$>
        WsApi.ticks (Gateway.ws_api Sample.with_book) !! "BTCUSD")
     = Some (map_seq 1 [100; 99; 98; 97; 96])
  /\ (TickData.ask_price <$>
        WsApi.ticks (Gateway.ws_api Sample.with_book) !! "BTCUSD")
     = Some (map_seq 1 [101; 102; 103; 104; 105]).
Proof. vm_compute. repeat split. Qed.

(** ** Order identities *)

Section Identities.

Implicit Types (g : Gateway.t) (d : OrderMsg.t) (o : OrderData.t).





(** The order manager keeps every record under its own id. *)
Lemma on_order_keyed o g :
  orders_keyed (Gateway.order_manager g) ->
  orders_keyed (Gateway.order_manager (snd (OrderManager.on_order o g))).
Proof.
  intros Hkeyed k o'. cbn. intros Hlook.
  apply lookup_insert_Some in Hlook as [[<- <-] | [_ Hlook]]; [reflexivity |].
  by apply Hkeyed.
Qed.








End Identities.

(** ** Batches of order rows *)






Section Grows.

Context (V : string).















End Grows.







(** ** The acknowledgment and the push of one order *)




(** In the example the order submitted as L1 ends filled under L1, and no
    record is kept under V1, when the push carries the client id, in either
    order of arrival. *)
Lemma identity_converges_example :
  let ack_first :=
    snd ((Rest.on_send_order Sample.ack ;; Ws.on_order Sample.push_filled)
           Sample.submitted) in
  let push_first :=
    snd ((Ws.on_order Sample.push_filled ;; Rest.on_send_order Sample.ack)
           Sample.submitted) in
  (OrderData.status <$>
     LocalOrderManager.orders (Gateway.order_manager ack_first) !! "L1")
  = Some ALLTRADED
  /\ (OrderData.status <$>
        LocalOrderManager.orders (Gateway.order_manager push_first) !! "L1")
     = Some ALLTRADED
  /\ LocalOrderManager.orders (Gateway.order_manager ack_first) !! "V1" = None
  /\ LocalOrderManager.orders (Gateway.order_manager push_first) !! "V1" = None
  /\ size (LocalOrderManager.orders (Gateway.order_manager ack_first)) = 1%nat
  /\ size (LocalOrderManager.orders (Gateway.order_manager push_first)) = 1%nat.
Proof. vm_compute. repeat split. Qed.

(** ** History *)

Section History.

Variables (req : HistoryRequest.t) (venue : nat -> Z -> HttpResponse.t).







End History.



(** In the example the venue serves 200, 200 and 37 bars: three requests
    are made and 437 bars come back. *)
Lemma query_history_example :
  match fst (Rest.query_history 10 Sample.venue Sample.history Sample.inverse) with
  | Ok (Some bars) => length bars = 437%nat
  | _ => False
  end
  /\ length (Gateway.requests
               (snd (Rest.query_history 10 Sample.venue Sample.history Sample.inverse)))
     = 3%nat.
Proof. vm_compute. split; reflexivity. Qed.

(** * Further properties of the handlers *)

(** ** Parts of the state a block leaves alone *)

Section Untouched.

Context {X : Type} (f : Gateway.t -> X).

Lemma untouched_bind {A B} (m : M Gateway.t A) (k : A -> M Gateway.t B) :
  untouched f m -> (forall a, untouched f (k a)) -> untouched f (bind m k).
Proof.
  intros Hm Hk g. rewrite bind_run. specialize (Hm g).
  destruct (m g) as [[a | e] g1]; simpl in *; [| exact Hm].
  rewrite <- Hm. apply Hk.
Qed.

Lemma untouched_read {A} (m : M Gateway.t A) :
  (forall g, snd (m g) = g) -> untouched f m.
Proof. intros Hm g. by rewrite Hm. Qed.

Lemma untouched_modify (h : Gateway.t -> Gateway.t) :
  (forall g, f (h g) = f g) -> untouched f (modify h).
Proof. intros Hh g. apply Hh. Qed.

Lemma untouched_for_each {A} (l : list A) (body : A -> M Gateway.t unit) :
  (forall x, untouched f (body x)) -> untouched f (for_each l body).
Proof.
  intros Hbody. induction l as [| x l IH]; cbn [for_each].
  - by apply untouched_read.
  - apply untouched_bind; [apply Hbody | intros _; exact IH].
Qed.

Lemma untouched_key {A} (field : option A) : untouched f (key field).
Proof. apply untouched_read. intros g. by destruct field. Qed.

Lemma untouched_getitem {K V} `{Countable K} (d : gmap K V) (k : K) :
  untouched f (getitem d k).
Proof. apply untouched_read. intros g. rewrite getitem_run. by destruct (d !! k). Qed.

Lemma untouched_index {A} (l : list A) (i : nat) : untouched f (index l i).
Proof. apply untouched_read. intros g. rewrite index_run. by destruct (l !! i). Qed.

Lemma untouched_table {A} (t : string -> option A) (k : string) :
  untouched f (table t k).
Proof. apply untouched_read. intros g. unfold table. by destruct (t k). Qed.

Lemma untouched_int (v : scalar) : untouched f (int v).
Proof.
  apply untouched_read. intros g. unfold int.
  destruct v as [z | s |]; try reflexivity. by destruct (int_of_str s).
Qed.

Lemma untouched_generate_datetime (stamp : string) :
  untouched f (generate_datetime stamp).
Proof.
  apply untouched_read. intros g. unfold generate_datetime.
  rewrite bind_run. cbn [gets]. by destruct (Host.strptime _ stamp).
Qed.

Lemma untouched_tick_of (self : api) (symbol : string) :
  untouched f (Ws.tick_of self symbol).
Proof.
  apply untouched_read. intros g. rewrite tick_of_run.
  by destruct (WsApi.ticks (Ws.this self g) !! symbol).
Qed.

Lemma untouched_timestamp_prefix (packet : Packet.t) :
  untouched f (Ws.timestamp_prefix packet).
Proof. apply untouched_read. apply timestamp_prefix_run. Qed.

End Untouched.

(** ** The sorted key lists *)

Lemma strongly_sorted_lookup {A} (R : relation A) (l : list A) (i j : nat) (x y : A) :
  StronglySorted R l -> (i < j)%nat ->
  l !! i = Some x -> l !! j = Some y -> R x y.
Proof.
  intros Hsorted. revert i j.
  induction Hsorted as [| a l Hsorted IH Hall]; intros i j Hij Hi Hj.
  - by rewrite lookup_nil in Hi.
  - destruct j as [| j]; [lia |]. cbn in Hj. destruct i as [| i].
    + cbn in Hi. injection Hi as <-.
      rewrite Forall_forall in Hall. apply Hall.
      by apply list_elem_of_lookup_2 with j.
    + cbn in Hi. apply (IH i j); [lia | assumption | assumption].
Qed.

Lemma flip_le_total : Total (flip Z.le).
Proof. intros x y. unfold flip. lia. Qed.

Lemma flip_le_trans : Transitive (flip Z.le).
Proof. intros x y z. unfold flip. lia. Qed.

Lemma sorted_keys_elem (R : relation Z) `{!RelDecision R}
    (side : gmap Z Level.t) (p : Z) :
  p ∈ merge_sort R (Ws.keys side) <-> is_Some (side !! p).
Proof.
  rewrite (merge_sort_Permutation R (Ws.keys side)). unfold Ws.keys. split.
  - apply keys_lookup.
  - intros [d Hd]. apply list_elem_of_fmap. exists (p, d).
    split; [reflexivity | by apply elem_of_map_to_list].
Qed.

Lemma sorted_keys_NoDup (R : relation Z) `{!RelDecision R} (side : gmap Z Level.t) :
  NoDup (merge_sort R (Ws.keys side)).
Proof.
  rewrite (merge_sort_Permutation R (Ws.keys side)).
  apply NoDup_fst_map_to_list.
Qed.

Lemma sorted_keys_length (R : relation Z) `{!RelDecision R} (side : gmap Z Level.t) :
  length (merge_sort R (Ws.keys side)) = size side.
Proof.
  rewrite (merge_sort_Permutation R (Ws.keys side)). unfold Ws.keys.
  rewrite length_fmap. apply length_map_to_list.
Qed.

(** X1.  The key lists the extraction reads are the resting prices of the
    side, each once, bids from the highest down and asks from the lowest up. *)
Theorem depth_keys_ordered (b : Book.t) :
  (forall p, p ∈ Ws.bid_keys b <-> is_Some (Book.bids b !! p))
  /\ (forall p, p ∈ Ws.ask_keys b <-> is_Some (Book.asks b !! p))
  /\ length (Ws.bid_keys b) = size (Book.bids b)
  /\ length (Ws.ask_keys b) = size (Book.asks b)
  /\ (forall i j p q, (i < j)%nat ->
        Ws.bid_keys b !! i = Some p -> Ws.bid_keys b !! j = Some q -> q < p)
  /\ (forall i j p q, (i < j)%nat ->
        Ws.ask_keys b !! i = Some p -> Ws.ask_keys b !! j = Some q -> p < q).
Proof.
  unfold Ws.bid_keys, Ws.ask_keys.
  split; [apply sorted_keys_elem |]. split; [apply sorted_keys_elem |].
  split; [apply sorted_keys_length |]. split; [apply sorted_keys_length |].
  split.
  - intros i j p q Hij Hi Hj.
    assert (Hle : flip Z.le p q).
    { eapply (strongly_sorted_lookup (flip Z.le)); [| exact Hij | exact Hi | exact Hj].
      apply (@StronglySorted_merge_sort _ (flip Z.le) _ flip_le_trans flip_le_total). }
    assert (Hne : p <> q).
    { intros ->.
      pose proof (NoDup_lookup _ i j q
                    (sorted_keys_NoDup (flip Z.le) (Book.bids b)) Hi Hj).
      lia. }
    unfold flip in Hle. lia.
  - intros i j p q Hij Hi Hj.
    assert (Hle : p <= q).
    { eapply (strongly_sorted_lookup Z.le); [| exact Hij | exact Hi | exact Hj].
      apply StronglySorted_merge_sort; apply _. }
    assert (Hne : p <> q).
    { intros ->.
      pose proof (NoDup_lookup _ i j q
                    (sorted_keys_NoDup Z.le (Book.asks b)) Hi Hj).
      lia. }
    lia.
Qed.

(** ** How [on_depth] runs *)

(** [on_depth] past the prologue: the block is run on the two dicts of the
    symbol; if it raises the handler raises with the dicts as the block left
    them, otherwise the quote is extracted and pushed. *)
Lemma on_depth_block_run (self : api) (packet : Packet.t) (g : Gateway.t)
    (symbol : string) (ts : Z) (block : M Book.t unit) :
  fst (depth_prologue self packet g) = Ok (symbol, ts) ->
  depth_block packet = Some block ->
  let g1 := Ws.set_this self (Ws.setdefault symbol (Ws.this self g)) g in
  let rb := block (Ws.book_of self symbol g) in
  Ws.on_depth self packet g
  = match fst rb with
    | Ok _ => depth_publish self symbol packet ts (Ws.book_store self symbol (snd rb) g1)
    | Raise e => (Raise e, Ws.book_store self symbol (snd rb) g1)
    end.
Proof.
  intros Hpro Hblock g1 rb.
  assert (Hbook : Ws.book_of self symbol g1 = Ws.book_of self symbol g)
    by apply book_of_setdefault.
  revert Hpro. unfold depth_prologue, Ws.on_depth.
  rewrite !bind_run, !key_run.
  destruct (Packet.topic packet) as [topic |]; [| discriminate].
  rewrite !bind_run.
  pose proof (timestamp_prefix_run packet g) as Hts.
  assert (Hrest : forall ts',
    fst ((_ <- Ws.tick_of self (replace topic "orderBookL2_25." "") ;;
          ret (replace topic "orderBookL2_25." "", ts')) g) = Ok (symbol, ts) ->
    (_ <- Ws.tick_of self (replace topic "orderBookL2_25." "") ;;
     Ws.update self (Ws.setdefault (replace topic "orderBookL2_25." "")) ;;
     (if String.eqb (Packet.type_ packet) "snapshot"
      then
        match Packet.data packet with
        | BookSnapshot order_book =>
            Ws.on_book self (replace topic "orderBookL2_25." "")
              (for_each order_book Ws.book_put)
        | _ => Ws.shape_error self
        end
      else
        match Packet.data packet with
        | BookDelta delete update insert =>
            Ws.on_book self (replace topic "orderBookL2_25." "")
              (for_each delete Ws.book_pop ;;
               for_each (update ++ insert) Ws.book_put)
        | _ => Ws.shape_error self
        end) ;;
     b <- gets (Ws.book_of self (replace topic "orderBookL2_25." "")) ;;
     for_each (seq 0 5) (Ws.depth_slot self (replace topic "orderBookL2_25." "") b) ;;
     dt <- match self with
           | Public => ret (seconds ts')
           | Private =>
               match Packet.timestamp_e6 packet with
               | SInt us =>
                   h <- gets Gateway.host ;;
                   lift (Host.fromtimestamp_e6 h us)
               | _ => raise TypeError
               end
           end ;;
     Ws.tick_set self (replace topic "orderBookL2_25." "") (TickData.set_datetime dt) ;;
     tick <- Ws.tick_of self (replace topic "orderBookL2_25." "") ;;
     emit (EvTick tick)) g
    = match fst rb with
      | Ok _ => depth_publish self symbol packet ts (Ws.book_store self symbol (snd rb) g1)
      | Raise e => (Raise e, Ws.book_store self symbol (snd rb) g1)
      end).
  { intros ts'. rewrite !bind_run, !tick_of_run.
    destruct (WsApi.ticks (Ws.this self g) !! _) as [tick |]; [| discriminate].
    cbn [ret fst]. intros [= <- <-].
    rewrite bind_run.
    change (Ws.update self (Ws.setdefault (replace topic "orderBookL2_25." "")) g)
      with (Ok tt, g1).
    cbv iota. rewrite bind_run.
    unfold depth_block in Hblock.
    destruct (String.eqb (Packet.type_ packet) "snapshot");
      destruct (Packet.data packet); try discriminate Hblock;
      injection Hblock as <-;
      unfold Ws.on_book, zoom; rewrite Hbook;
      [| fold (delta_block delete update insert)]; fold rb;
      destruct rb as [[[] | e] b']; reflexivity. }
  destruct self.
  - cbn [ret]. apply Hrest.
  - destruct (Ws.timestamp_prefix packet g) as [[ts' | e'] g']; simpl in Hts; subst g';
      [apply Hrest | discriminate].
Qed.

(** ** The quote of a deep book *)

Lemma alter_twice {A} (f1 f2 : A -> A) (i : string) (m : gmap string A) :
  alter f2 i (alter f1 i m) = alter (f2 ∘ f1) i m.
Proof.
  apply map_eq. intros j. destruct (decide (i = j)) as [<- | Hne].
  - rewrite !lookup_alter_eq. by destruct (m !! i).
  - by rewrite !lookup_alter_ne.
Qed.

Lemma tick_set_twice (self : api) (symbol : string)
    (f1 f2 : TickData.t -> TickData.t) (g : Gateway.t) :
  snd (Ws.tick_set self symbol f2 (snd (Ws.tick_set self symbol f1 g)))
  = snd (Ws.tick_set self symbol (f2 ∘ f1) g).
Proof.
  unfold Ws.tick_set, Ws.update, modify.
  destruct self; cbn; by rewrite alter_twice.
Qed.

Lemma tick_set_id (self : api) (symbol : string) (g : Gateway.t) :
  snd (Ws.tick_set self symbol id g) = g.
Proof.
  unfold Ws.tick_set, Ws.update, modify.
  destruct self, g as [h u ev err om rq [] []]; cbn; by rewrite alter_id.
Qed.

(** With enough keys on both sides the loop runs through and writes the
    levels one after the other. *)
Lemma depth_slots_fill (self : api) (symbol : string) (b : Book.t)
    (m k : nat) (g : Gateway.t) :
  (k + m <= length (Ws.bid_keys b))%nat ->
  (k + m <= length (Ws.ask_keys b))%nat ->
  for_each (seq k m) (Ws.depth_slot self symbol b) g
  = (Ok tt, snd (Ws.tick_set self symbol (fill_depth b k m) g)).
Proof.
  revert k g. induction m as [| m IH]; intros k g Hbid Hask.
  - cbn [seq for_each]. change (fill_depth b k 0) with (@id TickData.t).
    by rewrite (tick_set_id self symbol g).
  - cbn [seq for_each fill_depth]. rewrite bind_run. unfold Ws.depth_slot at 1.
    rewrite bind_run, index_run.
    destruct (lookup_lt_is_Some_2 (Ws.bid_keys b) k ltac:(lia)) as [bid_price Hb].
    destruct (lookup_lt_is_Some_2 (Ws.ask_keys b) k ltac:(lia)) as [ask_price Ha].
    rewrite Hb, bind_run, getitem_run.
    destruct (sorted_keys_lookup _ _ _ _ Hb) as [bid_data Hbd]. rewrite Hbd.
    rewrite bind_run, index_run, Ha, bind_run, getitem_run.
    destruct (sorted_keys_lookup _ _ _ _ Ha) as [ask_data Had]. rewrite Had.
    change (Ws.tick_set self symbol ?f g) with (Ok tt, snd (Ws.tick_set self symbol f g)).
    cbv beta iota. rewrite IH by lia. f_equal.
    apply (tick_set_twice self symbol).
Qed.

(** What the loop has written, and what it has not. *)
Lemma fill_depth_levels (b : Book.t) (m k : nat) (t : TickData.t) :
  (k + m <= length (Ws.bid_keys b))%nat ->
  (k + m <= length (Ws.ask_keys b))%nat ->
  let t' := fill_depth b k m t in
  (forall i, (k <= i < k + m)%nat ->
     exists bid_price bid_data ask_price ask_data,
       Ws.bid_keys b !! i = Some bid_price
       /\ Book.bids b !! bid_price = Some bid_data
       /\ Ws.ask_keys b !! i = Some ask_price
       /\ Book.asks b !! ask_price = Some ask_data
       /\ TickData.bid_price t' !! (i + 1)%nat = Some bid_price
       /\ TickData.bid_volume t' !! (i + 1)%nat = Some (Level.size bid_data)
       /\ TickData.ask_price t' !! (i + 1)%nat = Some ask_price
       /\ TickData.ask_volume t' !! (i + 1)%nat = Some (Level.size ask_data))
  /\ (forall n, (n <= k \/ k + m < n)%nat ->
        TickData.bid_price t' !! n = TickData.bid_price t !! n
        /\ TickData.bid_volume t' !! n = TickData.bid_volume t !! n
        /\ TickData.ask_price t' !! n = TickData.ask_price t !! n
        /\ TickData.ask_volume t' !! n = TickData.ask_volume t !! n)
  /\ TickData.last_price t' = TickData.last_price t
  /\ TickData.volume t' = TickData.volume t
  /\ TickData.symbol t' = TickData.symbol t
  /\ TickData.datetime_ t' = TickData.datetime_ t.
Proof.
  revert k t. induction m as [| m IH]; intros k t Hbid Hask t'.
  - subst t'. cbn [fill_depth]. split; [intros i Hi; lia | by repeat split].
  - subst t'. cbn [fill_depth].
    destruct (lookup_lt_is_Some_2 (Ws.bid_keys b) k ltac:(lia)) as [bid_price Hb].
    destruct (lookup_lt_is_Some_2 (Ws.ask_keys b) k ltac:(lia)) as [ask_price Ha].
    destruct (sorted_keys_lookup _ _ _ _ Hb) as [bid_data Hbd].
    destruct (sorted_keys_lookup _ _ _ _ Ha) as [ask_data Had].
    rewrite Hb, Ha, Hbd, Had.
    set (t1 := TickData.set_depth (k + 1) bid_price (Level.size bid_data)
                 ask_price (Level.size ask_data) t).
    destruct (IH (S k) t1 ltac:(lia) ltac:(lia)) as (Hin & Hout & Hlp & Hvol & Hsym & Hdt).
    split; [| split].
    + intros i Hi. destruct (decide (i = k)) as [-> | Hne].
      * exists bid_price, bid_data, ask_price, ask_data.
        destruct (Hout (k + 1)%nat ltac:(lia)) as (H1 & H2 & H3 & H4).
        rewrite H1, H2, H3, H4. subst t1. cbn.
        rewrite !lookup_insert_eq. by repeat split.
      * apply Hin. lia.
    + intros n Hn. destruct (Hout n ltac:(lia)) as (H1 & H2 & H3 & H4).
      rewrite H1, H2, H3, H4. subst t1. cbn.
      rewrite !lookup_insert_ne by lia. by repeat split.
    + rewrite Hlp, Hvol, Hsym, Hdt. by repeat split.
Qed.

Lemma depth_prologue_tick (self : api) (packet : Packet.t) (g : Gateway.t)
    (symbol : string) (ts : Z) :
  fst (depth_prologue self packet g) = Ok (symbol, ts) ->
  is_Some (WsApi.ticks (Ws.this self g) !! symbol).
Proof.
  unfold depth_prologue. rewrite bind_run, key_run.
  destruct (Packet.topic packet) as [topic |]; [| discriminate].
  rewrite bind_run.
  pose proof (timestamp_prefix_run packet g) as Hts.
  destruct (match self with
            | Public => Ws.timestamp_prefix packet
            | Private => ret 0
            end g) as [[ts' | e] g1] eqn:Hstamp; [| discriminate].
  assert (g1 = g) as ->.
  { destruct self; [by injection Hstamp as _ <- |].
    rewrite Hstamp in Hts. exact Hts. }
  rewrite bind_run, tick_of_run.
  destruct (WsApi.ticks (Ws.this self g) !! _) as [t |] eqn:Ht; [| discriminate].
  cbn. intros [= <- _]. by eexists.
Qed.

Lemma ticks_store_setdefault (self : api) (symbol : string) (b : Book.t)
    (g : Gateway.t) :
  let g' := Ws.book_store self symbol b
              (Ws.set_this self (Ws.setdefault symbol (Ws.this self g)) g) in
  WsApi.ticks (Ws.this self g') = WsApi.ticks (Ws.this self g)
  /\ Gateway.events g' = Gateway.events g.
Proof.
  unfold Ws.book_store, Ws.setdefault. rewrite !this_set_this.
  destruct (WsApi.symbol_bids (Ws.this self g) !! symbol); cbn;
    destruct (WsApi.symbol_asks (Ws.this self g) !! symbol); cbn;
    by destruct self.
Qed.

(** X2.  With at least five resting levels on each side after the update,
    [on_depth] returns and pushes one quote, the cached tick; its levels 1 to
    5 are the five highest bids from the top down and the five lowest asks
    from the bottom up, each with the size of its level.  In the private
    class this needs the packet's time stamp to be an integer that the host
    converts to a time: the conversion comes after the levels are written,
    and the handler raises with it. *)
Theorem on_depth_quotes_best_five
    (self : api) (packet : Packet.t) (g : Gateway.t) (symbol : string) (ts : Z)
    (block : M Book.t unit) :
  fst (depth_prologue self packet g) = Ok (symbol, ts) ->
  depth_block packet = Some block ->
  let rb := block (Ws.book_of self symbol g) in
  fst rb = Ok tt ->
  (5 <= size (Book.bids (snd rb)))%nat ->
  (5 <= size (Book.asks (snd rb)))%nat ->
  (self = Private ->
   exists us dt,
     Packet.timestamp_e6 packet = SInt us
     /\ Host.fromtimestamp_e6 (Gateway.host g) us = Ok dt) ->
  let r := Ws.on_depth self packet g in
  exists tick,
    fst r = Ok tt
    /\ Gateway.events (snd r) = Gateway.events g ++ [EvTick tick]
    /\ WsApi.ticks (Ws.this self (snd r)) !! symbol = Some tick
    /\ Ws.book_of self symbol (snd r) = snd rb
    /\ forall i, (i < 5)%nat ->
         exists bid_price bid_data ask_price ask_data,
           Ws.bid_keys (snd rb) !! i = Some bid_price
           /\ Book.bids (snd rb) !! bid_price = Some bid_data
           /\ Ws.ask_keys (snd rb) !! i = Some ask_price
           /\ Book.asks (snd rb) !! ask_price = Some ask_data
           /\ TickData.bid_price tick !! (i + 1)%nat = Some bid_price
           /\ TickData.bid_volume tick !! (i + 1)%nat = Some (Level.size bid_data)
           /\ TickData.ask_price tick !! (i + 1)%nat = Some ask_price
           /\ TickData.ask_volume tick !! (i + 1)%nat = Some (Level.size ask_data).
Proof.
  intros Hpro Hblock rb Hok Hbids Hasks Hstamp r.
  assert (Hlb : length (Ws.bid_keys (snd rb)) = size (Book.bids (snd rb)))
    by apply sorted_keys_length.
  assert (Hla : length (Ws.ask_keys (snd rb)) = size (Book.asks (snd rb)))
    by apply sorted_keys_length.
  rewrite <- Hlb in Hbids. rewrite <- Hla in Hasks.
  destruct (depth_prologue_tick self packet g symbol ts Hpro) as [t0 Ht0].
  set (g1 := Ws.set_this self (Ws.setdefault symbol (Ws.this self g)) g).
  set (g2 := Ws.book_store self symbol (snd rb) g1).
  destruct (ticks_store_setdefault self symbol (snd rb) g) as [Hticks Hevents].
  fold g1 g2 in Hticks, Hevents.
  assert (Hdt : exists dt, forall s,
            Gateway.host s = Gateway.host g ->
            match self with
            | Public => ret (seconds ts)
            | Private =>
                match Packet.timestamp_e6 packet with
                | SInt us =>
                    h <- gets Gateway.host ;;
                    lift (Host.fromtimestamp_e6 h us)
                | _ => raise TypeError
                end
            end s = (Ok dt, s)).
  { destruct self; [| by eexists].
    destruct (Hstamp eq_refl) as (us & dt & -> & Hconv). exists dt.
    intros s Hs. rewrite bind_run. cbn [gets]. unfold lift.
    by rewrite Hs, Hconv. }
  destruct Hdt as [dt Hdt].
  set (tick := TickData.set_datetime dt (fill_depth (snd rb) 0 5 t0)).
  assert (Hrun : r = (Ok tt,
                      snd (emit (EvTick tick)
                             (snd (Ws.tick_set self symbol
                                     (TickData.set_datetime dt ∘ fill_depth (snd rb) 0 5)
                                     g2))))).
  { subst r. rewrite (on_depth_block_run self packet g symbol ts block Hpro Hblock).
    fold rb g1 g2. rewrite Hok. unfold depth_publish.
    rewrite bind_run. cbn [gets].
    assert (Hb2 : Ws.book_of self symbol g2 = snd rb) by apply book_of_store.
    rewrite Hb2.
    rewrite bind_run, (depth_slots_fill self symbol (snd rb) 5 0 g2) by lia.
    rewrite bind_run, Hdt by (by destruct self).
    rewrite bind_run.
    change (Ws.tick_set self symbol ?f ?s) with (Ok tt, snd (Ws.tick_set self symbol f s)).
    cbv beta iota. rewrite tick_set_twice.
    rewrite bind_run, tick_of_run.
    assert (Hlook : WsApi.ticks
                      (Ws.this self
                         (snd (Ws.tick_set self symbol
                                 (TickData.set_datetime dt ∘ fill_depth (snd rb) 0 5) g2)))
                    !! symbol = Some tick).
    { unfold Ws.tick_set, Ws.update, modify. cbn [snd]. rewrite this_set_this.
      cbn. rewrite lookup_alter_eq, Hticks, Ht0. reflexivity. }
    rewrite Hlook. reflexivity. }
  exists tick. rewrite Hrun. cbn [fst snd].
  split; [reflexivity |].
  assert (Hframe : forall f : TickData.t -> TickData.t,
            Gateway.events (snd (Ws.tick_set self symbol f g2)) = Gateway.events g2
            /\ WsApi.symbol_bids (Ws.this self (snd (Ws.tick_set self symbol f g2)))
               = WsApi.symbol_bids (Ws.this self g2)
            /\ WsApi.symbol_asks (Ws.this self (snd (Ws.tick_set self symbol f g2)))
               = WsApi.symbol_asks (Ws.this self g2)
            /\ WsApi.ticks (Ws.this self (snd (Ws.tick_set self symbol f g2)))
               = alter f symbol (WsApi.ticks (Ws.this self g2))).
  { intros f. unfold Ws.tick_set, Ws.update, modify. by destruct self. }
  destruct (Hframe (TickData.set_datetime dt ∘ fill_depth (snd rb) 0 5))
    as (Hev & Hb & Ha & Ht).
  split; [| split; [| split]].
  - change (Gateway.events (snd (emit (EvTick tick) ?s)))
      with (Gateway.events s ++ [EvTick tick]).
    rewrite Hev, Hevents. reflexivity.
  - replace (WsApi.ticks (Ws.this self (snd (emit (EvTick tick) _))))
      with (WsApi.ticks (Ws.this self
              (snd (Ws.tick_set self symbol
                      (TickData.set_datetime dt ∘ fill_depth (snd rb) 0 5) g2))))
      by (by destruct self).
    rewrite Ht, lookup_alter_eq, Hticks, Ht0. reflexivity.
  - replace (Ws.book_of self symbol (snd (emit (EvTick tick) _)))
      with (Ws.book_of self symbol
              (snd (Ws.tick_set self symbol
                      (TickData.set_datetime dt ∘ fill_depth (snd rb) 0 5) g2)))
      by (by destruct self).
    unfold Ws.book_of at 1. rewrite Hb, Ha.
    fold (Ws.book_of self symbol g2). subst g2. apply book_of_store.
  - intros i Hi.
    destruct (fill_depth_levels (snd rb) 5 0 t0 ltac:(lia) ltac:(lia)) as (Hin & _).
    destruct (Hin i ltac:(lia))
      as (bp & bd & ap & ad & H1 & H2 & H3 & H4 & H5 & H6 & H7 & H8).
    exists bp, bd, ap, ad. subst tick. cbn. by repeat split.
Qed.

Lemma on_depth_quotes_best_five_witness :
  exists tick,
    Gateway.events (snd (Ws.on_depth Private Sample.snapshot Sample.subscribed))
    = Gateway.events Sample.subscribed ++ [EvTick tick]
    /\ TickData.bid_price tick !! 1%nat = Some 100
    /\ TickData.ask_price tick !! 5%nat = Some 105.
Proof.
  destruct (on_depth_quotes_best_five Private Sample.snapshot Sample.subscribed
              "BTCUSD" 0
              (for_each
                 [Sample.bid 100 1; Sample.bid 99 2; Sample.bid 98 3;
                  Sample.bid 97 4; Sample.bid 96 5; Sample.bid 95 6;
                  Sample.ask 101 1; Sample.ask 102 2; Sample.ask 103 3;
                  Sample.ask 104 4; Sample.ask 105 5; Sample.ask 106 6]
                 Ws.book_put))
    as (tick & _ & Hev & _ & _ & Hlevels).
  - reflexivity.
  - reflexivity.
  - reflexivity.
  - vm_compute. lia.
  - vm_compute. lia.
  - intros _. exists 1600000000000000, 1600000000000000. by split.
  - exists tick. split; [exact Hev |].
    destruct (Hlevels 0%nat ltac:(lia)) as (bp & bd & ap & ad & Hb & _ & _ & _ & Hbp & _).
    destruct (Hlevels 4%nat ltac:(lia)) as (bp' & bd' & ap' & ad' & _ & _ & Ha & _ & _ & _ & Hap & _).
    change (0 + 1)%nat with 1%nat in Hbp. change (4 + 1)%nat with 5%nat in Hap.
    split.
    + rewrite Hbp, <- Hb. reflexivity.
    + rewrite Hap, <- Ha. reflexivity.
Defined.

(** ** Snapshots *)

(** X3.  A snapshot packet is merged into the book: each side and price it
    lists holds the last row listed there, and every level that was resting
    and is not listed is still resting; the book is not emptied first. *)
Theorem on_depth_snapshot_merges
    (self : api) (packet : Packet.t) (g : Gateway.t) (symbol : string) (ts : Z)
    (order_book : list Level.t) :
  fst (depth_prologue self packet g) = Ok (symbol, ts) ->
  Packet.type_ packet = "snapshot" ->
  Packet.data packet = BookSnapshot order_book ->
  forall u,
    level_at (Ws.book_of self symbol (snd (Ws.on_depth self packet g))) u
    = match last_put order_book u with
      | Some r => Some r
      | None => level_at (Ws.book_of self symbol g) u
      end.
Proof.
  intros Hpro Htype Hdata u.
  assert (Hblock : depth_block packet = Some (for_each order_book Ws.book_put)).
  { unfold depth_block. by rewrite Htype, Hdata. }
  rewrite (on_depth_block_run self packet g symbol ts _ Hpro Hblock).
  destruct (put_each_run order_book (Ws.book_of self symbol g)) as [Hok Hput].
  rewrite Hok.
  set (g1 := Ws.set_this self (Ws.setdefault symbol (Ws.this self g)) g).
  set (b2 := snd (for_each order_book Ws.book_put (Ws.book_of self symbol g))).
  pose proof (keeps_depth_publish self symbol packet ts
                (Ws.book_store self symbol b2 g1)) as (Hb & Ha & _).
  assert (Hbook : Ws.book_of self symbol
                    (snd (depth_publish self symbol packet ts
                            (Ws.book_store self symbol b2 g1))) = b2).
  { rewrite <- (book_of_store self symbol b2 g1) at 2.
    unfold Ws.book_of. by rewrite Hb, Ha. }
  rewrite Hbook. subst b2. apply Hput.
Qed.

Lemma on_depth_snapshot_merges_witness :
  level_at
    (Ws.book_of Private "BTCUSD"
       (snd (Ws.on_depth Private Example.snapshot_one Sample.with_book)))
    (Sample.bid 100 0)
  = Some (Sample.bid 100 1).
Proof.
  rewrite (on_depth_snapshot_merges Private Example.snapshot_one Sample.with_book
             "BTCUSD" 0 [Sample.bid 90 3]); reflexivity.
Defined.

(** ** What the market handlers leave alone *)

Lemma untouched_bind_key_some {X A B} (f : Gateway.t -> X) (v : A)
    (k : A -> M Gateway.t B) :
  untouched f (k v) -> untouched f (bind (key (Some v)) k).
Proof. intros Hk g. exact (Hk g). Qed.

Lemma untouched_pure {X A} (f : Gateway.t -> X) (r : outcome A) :
  untouched f (fun g => (r, g)).
Proof. by intros g. Qed.

Ltac untouched_step :=
  lazymatch goal with
  | |- untouched _ (bind (key (Some _)) _) => apply untouched_bind_key_some
  | |- untouched _ (bind _ _) => apply untouched_bind; [| intros ?]
  | |- untouched _ (for_each _ _) => apply untouched_for_each; intros ?
  | |- untouched _ (key _) => apply untouched_key
  | |- untouched _ (getitem _ _) => apply untouched_getitem
  | |- untouched _ (index _ _) => apply untouched_index
  | |- untouched _ (table _ _) => apply untouched_table
  | |- untouched _ (int _) => apply untouched_int
  | |- untouched _ (ret _) => apply untouched_pure
  | |- untouched _ (raise _) => apply untouched_pure
  | |- untouched _ (gets _) => apply untouched_read; reflexivity
  | |- untouched _ (Ws.tick_of _ _) => apply untouched_tick_of
  | |- untouched _ (Ws.timestamp_prefix _) => apply untouched_timestamp_prefix
  | |- untouched _ (generate_datetime _) => apply untouched_generate_datetime
  | |- untouched _ (Ws.shape_error _) => unfold Ws.shape_error
  | |- untouched _ (if ?c then _ else _) => destruct c
  | |- untouched _ (match ?x with _ => _ end) => destruct x
  end.

Section MarketHandlers.

Context {X : Type} (f : Gateway.t -> X) (self : api).

Hypothesis f_emit : forall e g, f (snd (emit e g)) = f g.

Lemma untouched_emit (e : event) : untouched f (emit e).
Proof. intros g. apply f_emit. Qed.

(** [on_depth] leaves [f] alone when the steps that write do: the two
    [setdefault] calls, the stores into the symbol's dicts, the [setattr]
    calls on the symbol's tick. *)
Lemma on_depth_untouched (packet : Packet.t) :
  (forall topic, Packet.topic packet = Some topic ->
     let symbol := replace topic "orderBookL2_25." "" in
     (forall g, f (Ws.set_this self (Ws.setdefault symbol (Ws.this self g)) g) = f g)
     /\ (forall b g, f (Ws.book_store self symbol b g) = f g)
     /\ (forall n bp bv ap av g,
           f (snd (Ws.tick_set self symbol (TickData.set_depth n bp bv ap av) g)) = f g)
     /\ (forall dt g,
           f (snd (Ws.tick_set self symbol (TickData.set_datetime dt) g)) = f g)) ->
  untouched f (Ws.on_depth self packet).
Proof.
  intros Hwrites. unfold Ws.on_depth.
  destruct (Packet.topic packet) as [topic |] eqn:Htopic;
    [| apply untouched_pure].
  destruct (Hwrites topic eq_refl) as (Hdefault & Hstore & Hdepth & Hstamp).
  apply untouched_bind_key_some.
  apply untouched_bind; [destruct self; [apply untouched_pure | apply untouched_timestamp_prefix] | intros ts].
  apply untouched_bind; [apply untouched_tick_of | intros _].
  apply untouched_bind; [intros g; apply Hdefault | intros _].
  apply untouched_bind; [| intros _].
  { destruct (String.eqb (Packet.type_ packet) "snapshot"), (Packet.data packet);
      try (destruct self; apply untouched_pure);
      intros g; unfold Ws.on_book, zoom;
      match goal with
      | |- context [let (_, _) := ?m ?b in _] => destruct (m b) as [r b']
      end; apply Hstore. }
  apply untouched_bind; [apply untouched_read; reflexivity | intros b].
  apply untouched_bind; [apply untouched_for_each; intros i | intros _].
  { unfold Ws.depth_slot. repeat untouched_step. intros g. apply Hdepth. }
  apply untouched_bind; [| intros dt].
  { destruct self; [| apply untouched_pure].
    destruct (Packet.timestamp_e6 packet); try apply untouched_pure.
    apply untouched_bind; [apply untouched_read; reflexivity | intros h].
    apply untouched_pure. }
  apply untouched_bind; [intros g; apply Hstamp | intros _].
  apply untouched_bind; [apply untouched_tick_of | intros tick].
  apply untouched_emit.
Qed.

(** The same for [on_tick], which writes the last price, the volume and the
    time stamp of the symbol's tick. *)
Lemma on_tick_untouched (packet : Packet.t) :
  (forall topic, Packet.topic packet = Some topic ->
     let symbol := replace topic "instrument_info.100ms." "" in
     (forall v g,
        f (snd (Ws.tick_set self symbol (TickData.set_last_price v) g)) = f g)
     /\ (forall v g,
           f (snd (Ws.tick_set self symbol (TickData.set_volume v) g)) = f g)
     /\ (forall dt g,
           f (snd (Ws.tick_set self symbol (TickData.set_datetime dt) g)) = f g)) ->
  untouched f (Ws.on_tick self packet).
Proof.
  intros Hwrites. unfold Ws.on_tick.
  destruct (Packet.topic packet) as [topic |] eqn:Htopic;
    [| apply untouched_pure].
  destruct (Hwrites topic eq_refl) as (Hprice & Hvolume & Hstamp).
  apply untouched_bind_key_some.
  apply untouched_bind; [destruct self; [apply untouched_pure | apply untouched_timestamp_prefix] | intros ts].
  apply untouched_bind; [apply untouched_tick_of | intros _].
  assert (Hscaled : forall v n, untouched f (Ws.scaled self v n)).
  { intros v n. unfold Ws.scaled, truediv. destruct self.
    - destruct v; apply untouched_pure.
    - repeat untouched_step. }
  assert (Hvol : forall v, untouched f (Ws.volume_of self v)).
  { intros v. unfold Ws.volume_of. destruct self; [apply untouched_pure |].
    apply untouched_bind; [| intros ?; apply untouched_pure].
    unfold Ws.scaled. repeat untouched_step. }
  destruct (Packet.data packet); try apply untouched_pure.
  apply untouched_bind; [| intros continue].
  - destruct (String.eqb (Packet.type_ packet) "snapshot").
    + apply untouched_bind; [apply untouched_key | intros v].
      destruct (negb (truthy v)); [apply untouched_pure |].
      apply untouched_bind; [apply Hscaled | intros p].
      apply untouched_bind; [intros g; apply Hprice | intros _].
      apply untouched_bind; [apply untouched_key | intros v'].
      apply untouched_bind; [apply Hvol | intros vol].
      apply untouched_bind; [intros g; apply Hvolume | intros _].
      apply untouched_pure.
    + apply untouched_bind; [apply untouched_key | intros rows].
      apply untouched_bind; [apply untouched_index | intros row].
      apply untouched_bind; [| intros proceed].
      * destruct (TickMsg.last_price_e4 row) as [v |]; [| apply untouched_pure].
        destruct (negb (truthy v)); [apply untouched_pure |].
        apply untouched_bind; [apply Hscaled | intros p].
        apply untouched_bind; [intros g; apply Hprice | intros _].
        apply untouched_pure.
      * destruct proceed; [| apply untouched_pure].
        apply untouched_bind; [| intros _; apply untouched_pure].
        destruct (Ws.volume_key self row) as [v |]; [| apply untouched_pure].
        apply untouched_bind; [apply Hvol | intros vol].
        intros g; apply Hvolume.
  - destruct continue; [| apply untouched_pure].
    apply untouched_bind; [| intros dt].
    { destruct self.
      - apply untouched_bind; [apply untouched_key | intros stamp].
        apply untouched_generate_datetime.
      - apply untouched_bind; [apply untouched_read; reflexivity | intros h].
        apply untouched_pure. }
    apply untouched_bind; [intros g; apply Hstamp | intros _].
    apply untouched_bind; [apply untouched_tick_of | intros tick].
    apply untouched_emit.
Qed.

End MarketHandlers.

Section Isolation.

Context (self : api).

Lemma beside_market_emit (e : event) (g : Gateway.t) :
  beside_market self (snd (emit e g)) = beside_market self g.
Proof. by destruct self. Qed.

Lemma symbol_state_emit (s : string) (e : event) (g : Gateway.t) :
  symbol_state self s (snd (emit e g)) = symbol_state self s g.
Proof. by destruct self. Qed.

Lemma tick_part_emit {X} (part : TickData.t -> X) (s : string) (e : event)
    (g : Gateway.t) :
  tick_part part self s (snd (emit e g)) = tick_part part self s g.
Proof. by destruct self. Qed.

Lemma beside_market_setdefault (symbol : string) (g : Gateway.t) :
  beside_market self (Ws.set_this self (Ws.setdefault symbol (Ws.this self g)) g)
  = beside_market self g.
Proof.
  unfold Ws.setdefault.
  destruct self; cbn; repeat case_match; reflexivity.
Qed.

Lemma beside_market_book_store (symbol : string) (b : Book.t) (g : Gateway.t) :
  beside_market self (Ws.book_store self symbol b g) = beside_market self g.
Proof. by destruct self. Qed.

Lemma beside_market_tick_set (symbol : string) (h : TickData.t -> TickData.t)
    (g : Gateway.t) :
  beside_market self (snd (Ws.tick_set self symbol h g)) = beside_market self g.
Proof. by destruct self. Qed.

Lemma symbol_state_setdefault (symbol s : string) (g : Gateway.t) :
  symbol <> s ->
  symbol_state self s (Ws.set_this self (Ws.setdefault symbol (Ws.this self g)) g)
  = symbol_state self s g.
Proof.
  intros Hne. unfold symbol_state. rewrite this_set_this.
  unfold Ws.setdefault.
  repeat case_match; cbn; rewrite ?lookup_insert_ne by done; reflexivity.
Qed.

Lemma symbol_state_book_store (symbol s : string) (b : Book.t) (g : Gateway.t) :
  symbol <> s ->
  symbol_state self s (Ws.book_store self symbol b g) = symbol_state self s g.
Proof.
  intros Hne. unfold symbol_state, Ws.book_store. rewrite this_set_this.
  cbn. rewrite !lookup_insert_ne by done. reflexivity.
Qed.

Lemma symbol_state_tick_set (symbol s : string) (h : TickData.t -> TickData.t)
    (g : Gateway.t) :
  symbol <> s ->
  symbol_state self s (snd (Ws.tick_set self symbol h g)) = symbol_state self s g.
Proof.
  intros Hne. unfold symbol_state, Ws.tick_set, Ws.update, modify.
  cbn [snd]. rewrite this_set_this. cbn.
  rewrite lookup_alter_ne by done. reflexivity.
Qed.

Lemma tick_part_setdefault {X} (part : TickData.t -> X) (symbol s : string)
    (g : Gateway.t) :
  tick_part part self s
    (Ws.set_this self (Ws.setdefault symbol (Ws.this self g)) g)
  = tick_part part self s g.
Proof.
  unfold tick_part. rewrite this_set_this. unfold Ws.setdefault.
  repeat case_match; reflexivity.
Qed.

Lemma tick_part_book_store {X} (part : TickData.t -> X) (symbol s : string)
    (b : Book.t) (g : Gateway.t) :
  tick_part part self s (Ws.book_store self symbol b g) = tick_part part self s g.
Proof.
  unfold tick_part, Ws.book_store. rewrite this_set_this. reflexivity.
Qed.

(** An assignment to an attribute outside a group keeps the group, on every
    tick object. *)
Lemma tick_part_tick_set {X} (part : TickData.t -> X) (symbol s : string)
    (h : TickData.t -> TickData.t) (g : Gateway.t) :
  (forall t, part (h t) = part t) ->
  tick_part part self s (snd (Ws.tick_set self symbol h g)) = tick_part part self s g.
Proof.
  intros Hpart. unfold tick_part, Ws.tick_set, Ws.update, modify.
  cbn [snd]. rewrite this_set_this. cbn.
  destruct (decide (symbol = s)) as [-> | Hne].
  - rewrite lookup_alter_eq.
    destruct (WsApi.ticks (Ws.this self g) !! s); cbn; [rewrite Hpart |]; reflexivity.
  - rewrite lookup_alter_ne by done. reflexivity.
Qed.

(** The books of a session, symbol by symbol. *)
Lemma books_tick_set (symbol s : string) (h : TickData.t -> TickData.t)
    (g : Gateway.t) :
  Ws.book_of self s (snd (Ws.tick_set self symbol h g)) = Ws.book_of self s g
  /\ WsApi.symbol_bids (Ws.this self (snd (Ws.tick_set self symbol h g)))
     = WsApi.symbol_bids (Ws.this self g)
  /\ WsApi.symbol_asks (Ws.this self (snd (Ws.tick_set self symbol h g)))
     = WsApi.symbol_asks (Ws.this self g).
Proof.
  unfold Ws.book_of, Ws.tick_set, Ws.update, modify. cbn [snd].
  rewrite this_set_this. by cbn.
Qed.

End Isolation.

(** X4.  [on_depth] for one symbol leaves the tick and the two dicts of every
    other symbol of its session as they were, and nothing of the gateway
    besides events and market state changes, however the handler ends. *)
Theorem on_depth_isolated (self : api) (packet : Packet.t) (s : string)
    (g : Gateway.t) :
  (forall topic, Packet.topic packet = Some topic ->
     replace topic "orderBookL2_25." "" <> s) ->
  symbol_state self s (snd (Ws.on_depth self packet g)) = symbol_state self s g
  /\ beside_market self (snd (Ws.on_depth self packet g)) = beside_market self g.
Proof.
  intros Hother. split.
  - apply (on_depth_untouched (symbol_state self s) self
             (symbol_state_emit self s) packet).
    intros topic Htopic symbol. specialize (Hother topic Htopic).
    repeat split; intros.
    + by apply symbol_state_setdefault.
    + by apply symbol_state_book_store.
    + by apply symbol_state_tick_set.
    + by apply symbol_state_tick_set.
  - apply (on_depth_untouched (beside_market self) self
             (beside_market_emit self) packet).
    intros topic Htopic symbol.
    repeat split; intros.
    + apply beside_market_setdefault.
    + apply beside_market_book_store.
    + apply beside_market_tick_set.
    + apply beside_market_tick_set.
Qed.

Lemma on_depth_isolated_witness :
  symbol_state Private "ETHUSD"
    (snd (Ws.on_depth Private Sample.snapshot Example.two_symbols))
  = symbol_state Private "ETHUSD" Example.two_symbols
  /\ beside_market Private
       (snd (Ws.on_depth Private Sample.snapshot Example.two_symbols))
     = beside_market Private Example.two_symbols.
Proof.
  apply (on_depth_isolated Private Sample.snapshot "ETHUSD" Example.two_symbols).
  intros topic Htopic. injection Htopic as <-. vm_compute. discriminate.
Defined.

(** X5.  [on_tick] for one symbol leaves the tick of every other symbol as it
    was, never touches the dicts of resting levels, and changes nothing of the
    gateway besides events and the symbol's tick, however the handler ends. *)
Theorem on_tick_isolated (self : api) (packet : Packet.t) (s : string)
    (g : Gateway.t) :
  (forall topic, Packet.topic packet = Some topic ->
     replace topic "instrument_info.100ms." "" <> s) ->
  symbol_state self s (snd (Ws.on_tick self packet g)) = symbol_state self s g
  /\ beside_market self (snd (Ws.on_tick self packet g)) = beside_market self g.
Proof.
  intros Hother. split.
  - apply (on_tick_untouched (symbol_state self s) self
             (symbol_state_emit self s) packet).
    intros topic Htopic symbol. specialize (Hother topic Htopic).
    repeat split; intros; by apply symbol_state_tick_set.
  - apply (on_tick_untouched (beside_market self) self
             (beside_market_emit self) packet).
    intros topic Htopic symbol.
    repeat split; intros; apply beside_market_tick_set.
Qed.

Lemma on_tick_isolated_witness :
  symbol_state Public "ETHUSDT"
    (snd (Ws.on_tick Public (Sample.tick_public "95000000")
            Example.two_symbols_public))
  = symbol_state Public "ETHUSDT" Example.two_symbols_public
  /\ beside_market Public
       (snd (Ws.on_tick Public (Sample.tick_public "95000000")
               Example.two_symbols_public))
     = beside_market Public Example.two_symbols_public.
Proof.
  apply (on_tick_isolated Public (Sample.tick_public "95000000") "ETHUSDT"
           Example.two_symbols_public).
  intros topic Htopic. injection Htopic as <-. vm_compute. discriminate.
Defined.

(** X6.  The two market handlers write disjoint attributes of a tick:
    [on_tick] keeps the five depth levels of every tick and never touches a
    book, [on_depth] keeps the last price and the volume of every tick; both
    keep symbol, exchange and name, and neither adds nor drops a tick
    object. *)
Theorem market_handlers_disjoint (self : api) (packet : Packet.t) (s : string)
    (g : Gateway.t) :
  let after_tick := snd (Ws.on_tick self packet g) in
  let after_depth := snd (Ws.on_depth self packet g) in
  tick_part depth_part self s after_tick = tick_part depth_part self s g
  /\ tick_part identity_part self s after_tick = tick_part identity_part self s g
  /\ WsApi.symbol_bids (Ws.this self after_tick) = WsApi.symbol_bids (Ws.this self g)
  /\ WsApi.symbol_asks (Ws.this self after_tick) = WsApi.symbol_asks (Ws.this self g)
  /\ tick_part quote_part self s after_depth = tick_part quote_part self s g
  /\ tick_part identity_part self s after_depth = tick_part identity_part self s g.
Proof.
  cbv zeta.
  assert (Htick : forall {X} (part : TickData.t -> X),
    (forall v t, part (TickData.set_last_price v t) = part t) ->
    (forall v t, part (TickData.set_volume v t) = part t) ->
    (forall v t, part (TickData.set_datetime v t) = part t) ->
    tick_part part self s (snd (Ws.on_tick self packet g)) = tick_part part self s g).
  { intros X part H1 H2 H3.
    apply (on_tick_untouched (tick_part part self s) self
             (tick_part_emit self part s) packet).
    intros topic Htopic symbol.
    repeat split; intros; apply tick_part_tick_set; intros; auto. }
  assert (Hdepth : forall {X} (part : TickData.t -> X),
    (forall n bp bv ap av t, part (TickData.set_depth n bp bv ap av t) = part t) ->
    (forall v t, part (TickData.set_datetime v t) = part t) ->
    tick_part part self s (snd (Ws.on_depth self packet g)) = tick_part part self s g).
  { intros X part H1 H2.
    apply (on_depth_untouched (tick_part part self s) self
             (tick_part_emit self part s) packet).
    intros topic Htopic symbol.
    repeat split; intros.
    - apply tick_part_setdefault.
    - apply tick_part_book_store.
    - apply tick_part_tick_set; intros; auto.
    - apply tick_part_tick_set; intros; auto. }
  split; [by apply Htick |]. split; [by apply Htick |].
  split.
  { apply (on_tick_untouched (fun g => WsApi.symbol_bids (Ws.this self g)) self).
    - by destruct self.
    - intros topic Htopic symbol.
      repeat split; intros; apply (books_tick_set self symbol s). }
  split.
  { apply (on_tick_untouched (fun g => WsApi.symbol_asks (Ws.this self g)) self).
    - by destruct self.
    - intros topic Htopic symbol.
      repeat split; intros; apply (books_tick_set self symbol s). }
  split; by apply Hdepth.
Qed.

(** ** From [subscribe] to the handlers *)

Lemma replace_from_skip (old new p s : string) :
  replace_from old new (String.length p) (p +:+ s) = replace_from old new 0 s.
Proof.
  induction p as [| c p IH]; [| exact IH].
  cbn. by destruct s.
Qed.

Lemma replace_from_absent (old new s : string) :
  occurs old s = false -> replace_from old new 0 s = s.
Proof.
  induction s as [| c s IH]; [reflexivity |].
  intros Hocc. cbn [occurs] in Hocc.
  apply orb_false_iff in Hocc as [Hprefix Hrest].
  cbn [replace_from]. rewrite Hprefix, (IH Hrest). reflexivity.
Qed.

(** The handlers recover the symbol from the topic. *)
Lemma replace_topic (prefix symbol : string) :
  prefix <> "" ->
  occurs prefix symbol = false ->
  replace (prefix +:+ symbol) prefix "" = symbol.
Proof.
  intros Hne Hocc. unfold replace.
  destruct prefix as [| c prefix]; [done |].
  change (String c prefix +:+ symbol) with (String c (prefix +:+ symbol)).
  cbn [replace_from].
  change (String c (prefix +:+ symbol)) with (String c prefix +:+ symbol).
  rewrite prefix_append.
  change (String.length (String c prefix) - 1)%nat
    with (S (String.length prefix) - 1)%nat.
  replace (S (String.length prefix) - 1)%nat with (String.length prefix) by lia.
  rewrite replace_from_skip, (replace_from_absent _ _ _ Hocc). reflexivity.
Qed.

(** The session after [subscribe]. *)
Lemma subscribe_state (self : api) (req : SubscribeRequest.t) (g : Gateway.t) :
  let symbol := SubscribeRequest.symbol req in
  let w := Ws.this self g in
  Ws.subscribe self req g
  = (Ok tt,
     Ws.set_this self
       (WsApi.mk
          (<["orderBookL2_25." +:+ symbol := h_on_depth]>
             (<["instrument_info.100ms." +:+ symbol := h_on_tick]> (WsApi.callbacks w)))
          (<[symbol := TickData.new symbol (SubscribeRequest.exchange req)
                         (Host.now (Gateway.host g))]> (WsApi.ticks w))
          (Ws.subscribed_set req (WsApi.subscribed w))
          (WsApi.symbol_bids w) (WsApi.symbol_asks w)
          (WsApi.sent w ++ (subscribe_frame <$> market_topics req)))
       g).
Proof.
  destruct self;
    unfold Ws.subscribe, Ws.subscribe_topic, Ws.send_packet, Ws.update, modify,
      bind, gets; cbn; rewrite <- app_assoc; reflexivity.
Qed.

(** X7.  After [subscribe] of a symbol that holds neither topic prefix, a
    packet on either of the symbol's two topics is handed to the handler of
    that topic, the handler recovers the symbol from the topic, and the tick
    it looks up is the one [subscribe] created. *)
Theorem subscribe_then_packet (self : api) (req : SubscribeRequest.t)
    (packet : Packet.t) (g : Gateway.t) :
  let symbol := SubscribeRequest.symbol req in
  let g1 := snd (Ws.subscribe self req g) in
  occurs "instrument_info.100ms." symbol = false ->
  occurs "orderBookL2_25." symbol = false ->
  Ws.tick_of self symbol g1
  = (Ok (TickData.new symbol (SubscribeRequest.exchange req)
           (Host.now (Gateway.host g))), g1)
  /\ (Packet.topic packet = Some ("instrument_info.100ms." +:+ symbol) ->
      Ws.on_packet self packet g1 = Ws.on_tick self packet g1
      /\ replace ("instrument_info.100ms." +:+ symbol) "instrument_info.100ms." ""
         = symbol)
  /\ (Packet.topic packet = Some ("orderBookL2_25." +:+ symbol) ->
      Ws.on_packet self packet g1 = Ws.on_depth self packet g1
      /\ replace ("orderBookL2_25." +:+ symbol) "orderBookL2_25." "" = symbol).
Proof.
  intros symbol g1 Htick Hdepth.
  assert (Hcb : WsApi.callbacks (Ws.this self g1)
                = <["orderBookL2_25." +:+ symbol := h_on_depth]>
                    (<["instrument_info.100ms." +:+ symbol := h_on_tick]>
                       (WsApi.callbacks (Ws.this self g)))).
  { subst g1. rewrite subscribe_state. cbn [snd]. by rewrite this_set_this. }
  assert (Hticks : WsApi.ticks (Ws.this self g1) !! symbol
                   = Some (TickData.new symbol (SubscribeRequest.exchange req)
                             (Host.now (Gateway.host g)))).
  { subst g1. rewrite subscribe_state. cbn [snd]. rewrite this_set_this.
    cbn [WsApi.ticks]. fold symbol. by rewrite lookup_insert_eq. }
  split; [| split].
  - unfold Ws.tick_of. rewrite bind_run. cbn [gets fst snd].
    unfold getitem. by rewrite Hticks.
  - intros Htopic. split; [| by apply replace_topic].
    unfold Ws.on_packet. rewrite Htopic, bind_run. unfold gets at 1.
    rewrite bind_run. unfold getitem. rewrite Hcb.
    rewrite lookup_insert_ne by done. rewrite lookup_insert_eq.
    by destruct self.
  - intros Htopic. split; [| by apply replace_topic].
    unfold Ws.on_packet. rewrite Htopic, bind_run. unfold gets at 1.
    rewrite bind_run. unfold getitem. rewrite Hcb, lookup_insert_eq.
    by destruct self.
Qed.

Lemma subscribe_then_packet_witness :
  Ws.tick_of Private "BTCUSD" Sample.subscribed
  = (Ok (TickData.new "BTCUSD" BYBIT (Host.now Sample.host)), Sample.subscribed)
  /\ Ws.on_packet Private Sample.snapshot Sample.subscribed
     = Ws.on_depth Private Sample.snapshot Sample.subscribed.
Proof.
  destruct (subscribe_then_packet Private Sample.BTCUSD Sample.snapshot
              Sample.inverse eq_refl eq_refl) as (Htick & _ & Hdepth).
  split; [exact Htick |].
  exact (proj1 (Hdepth eq_refl)).
Defined.

(** ** What a login does to the market state *)

Lemma subscribed_set_member (req : SubscribeRequest.t)
    (l : list SubscribeRequest.t) :
  subscribed_unique l -> req ∈ l -> Ws.subscribed_set req l = l.
Proof.
  unfold subscribed_unique.
  induction l as [| r l IH]; intros Hnodup Hin; [by apply elem_of_nil in Hin |].
  cbn [fmap list_fmap] in Hnodup. apply NoDup_cons in Hnodup as [Hfresh Hnodup].
  cbn [Ws.subscribed_set].
  apply elem_of_cons in Hin as [-> | Hin].
  - by rewrite String.eqb_refl.
  - destruct (String.eqb_spec (SubscribeRequest.symbol r) (SubscribeRequest.symbol req))
      as [Heq | Hne].
    + exfalso. apply Hfresh. rewrite Heq.
      apply list_elem_of_fmap. by exists req.
    + by rewrite (IH Hnodup Hin).
Qed.

(** The loop of [on_login] over the remembered requests. *)
Lemma subscribe_each_state (self : api) (l reqs : list SubscribeRequest.t)
    (g : Gateway.t) :
  subscribed_unique l ->
  reqs ⊆ l ->
  subscribed_unique reqs ->
  WsApi.subscribed (Ws.this self g) = l ->
  let g1 := snd (for_each reqs (Ws.subscribe self) g) in
  WsApi.subscribed (Ws.this self g1) = l
  /\ (forall req, req ∈ reqs ->
        WsApi.ticks (Ws.this self g1) !! SubscribeRequest.symbol req
        = Some (TickData.new (SubscribeRequest.symbol req)
                  (SubscribeRequest.exchange req) (Host.now (Gateway.host g))))
  /\ (forall s, s ∉ SubscribeRequest.symbol <$> reqs ->
        WsApi.ticks (Ws.this self g1) !! s = WsApi.ticks (Ws.this self g) !! s)
  /\ WsApi.symbol_bids (Ws.this self g1) = WsApi.symbol_bids (Ws.this self g)
  /\ WsApi.symbol_asks (Ws.this self g1) = WsApi.symbol_asks (Ws.this self g)
  /\ Ws.this (other self) g1 = Ws.this (other self) g
  /\ Gateway.host g1 = Gateway.host g
  /\ Gateway.order_manager g1 = Gateway.order_manager g
  /\ Gateway.requests g1 = Gateway.requests g
  /\ Gateway.events g1 = Gateway.events g.
Proof.
  intros Hl. revert g.
  induction reqs as [| r reqs IH]; intros g Hsub Hreqs Hg; cbv zeta.
  - cbn. repeat split; try done. intros req Hin. by apply elem_of_nil in Hin.
  - cbn [for_each]. rewrite bind_run, subscribe_state. cbv zeta. cbn [fst snd].
    set (g0 := Ws.set_this self _ g).
    unfold subscribed_unique in Hreqs. cbn [fmap list_fmap] in Hreqs.
    apply NoDup_cons in Hreqs as [Hfresh Hreqs].
    assert (Hr : r ∈ l) by (apply Hsub; left).
    assert (Hsub' : reqs ⊆ l) by (intros x Hx; apply Hsub; by right).
    assert (Hg0 : WsApi.subscribed (Ws.this self g0) = l).
    { subst g0. rewrite this_set_this. cbn. rewrite Hg.
      by apply subscribed_set_member. }
    destruct (IH g0 Hsub' Hreqs Hg0)
      as (Hs & Hin & Hout & Hb & Ha & Ho & Hh & Hom & Hrq & Hev).
    assert (Hhost : Gateway.host g0 = Gateway.host g) by (by destruct self).
    split; [exact Hs |].
    split.
    { intros req [-> | Hreq]%elem_of_cons.
      - rewrite (Hout _ Hfresh). subst g0. rewrite this_set_this. cbn.
        by rewrite lookup_insert_eq.
      - rewrite (Hin req Hreq), Hhost. reflexivity. }
    split.
    { intros s Hs'. cbn [fmap list_fmap] in Hs'.
      apply not_elem_of_cons in Hs' as [Hne Hs'].
      rewrite (Hout s Hs'). subst g0. rewrite this_set_this. cbn.
      by rewrite lookup_insert_ne. }
    split; [rewrite Hb; subst g0; by rewrite this_set_this |].
    split; [rewrite Ha; subst g0; by rewrite this_set_this |].
    split; [rewrite Ho; by destruct self |].
    split; [by rewrite Hh |].
    split; [rewrite Hom; by destruct self |].
    split; [rewrite Hrq; by destruct self |].
    rewrite Hev; by destruct self.
Qed.

(** X8.  A successful login keeps the remembered requests and the books of
    resting levels, but puts a fresh tick in place of the tick of every
    remembered symbol: last price, volume and the five depth levels are back to
    their defaults until the next push.  Ticks of other symbols, the public
    session, the order manager and the REST requests are as before. *)
Theorem on_login_resets_ticks (packet : Packet.t) (g : Gateway.t) :
  Packet.success packet = Some true ->
  subscribed_unique (WsApi.subscribed (Gateway.ws_api g)) ->
  let r := Ws.on_login Private packet g in
  let w := Gateway.ws_api g in
  let w1 := Gateway.ws_api (snd r) in
  fst r = Ok tt
  /\ WsApi.subscribed w1 = WsApi.subscribed w
  /\ (forall req, req ∈ WsApi.subscribed w ->
        WsApi.ticks w1 !! SubscribeRequest.symbol req
        = Some (TickData.new (SubscribeRequest.symbol req)
                  (SubscribeRequest.exchange req) (Host.now (Gateway.host g))))
  /\ (forall s, s ∉ SubscribeRequest.symbol <$> WsApi.subscribed w ->
        WsApi.ticks w1 !! s = WsApi.ticks w !! s)
  /\ WsApi.symbol_bids w1 = WsApi.symbol_bids w
  /\ WsApi.symbol_asks w1 = WsApi.symbol_asks w
  /\ Gateway.public_ws_api (snd r) = Gateway.public_ws_api g
  /\ Gateway.order_manager (snd r) = Gateway.order_manager g
  /\ Gateway.requests (snd r) = Gateway.requests g
  /\ Gateway.events (snd r) = Gateway.events g ++ [EvLog LogLoginDone].
Proof.
  intros Hsuccess Hunique r w w1. subst r w1.
  unfold Ws.on_login. rewrite Hsuccess.
  change (default false (Some true)) with true. cbv iota.
  set (g4 := snd ((write_log LogLoginDone ;;
                   Ws.subscribe_topic Private "order" h_on_order ;;
                   Ws.subscribe_topic Private "execution" h_on_trade ;;
                   Ws.subscribe_topic Private "position" h_on_position ;;
                   usdt_base <- gets Gateway.usdt_base ;;
                   if usdt_base : bool
                   then Ws.subscribe_topic Private "wallet" h_on_account
                   else ret tt) g)).
  assert (Hg4 : WsApi.subscribed (Gateway.ws_api g4) = WsApi.subscribed w
                /\ WsApi.ticks (Gateway.ws_api g4) = WsApi.ticks w
                /\ WsApi.symbol_bids (Gateway.ws_api g4) = WsApi.symbol_bids w
                /\ WsApi.symbol_asks (Gateway.ws_api g4) = WsApi.symbol_asks w
                /\ Gateway.public_ws_api g4 = Gateway.public_ws_api g
                /\ Gateway.host g4 = Gateway.host g
                /\ Gateway.order_manager g4 = Gateway.order_manager g
                /\ Gateway.requests g4 = Gateway.requests g
                /\ Gateway.events g4 = Gateway.events g ++ [EvLog LogLoginDone]).
  { subst g4 w.
    destruct (Gateway.usdt_base g) eqn:Husdt;
      unfold bind, gets; simpl; rewrite Husdt; simpl; repeat split. }
  destruct Hg4 as (Hs4 & Ht4 & Hb4 & Ha4 & Hp4 & Hh4 & Hom4 & Hrq4 & Hev4).
  assert (Heq : (write_log LogLoginDone ;;
                 Ws.subscribe_topic Private "order" h_on_order ;;
                 Ws.subscribe_topic Private "execution" h_on_trade ;;
                 Ws.subscribe_topic Private "position" h_on_position ;;
                 usdt_base <- gets Gateway.usdt_base ;;
                 (if usdt_base : bool
                  then Ws.subscribe_topic Private "wallet" h_on_account
                  else ret tt) ;;
                 w <- gets (Ws.this Private) ;;
                 for_each (WsApi.subscribed w) (Ws.subscribe Private)) g
                = for_each (WsApi.subscribed w) (Ws.subscribe Private) g4).
  { subst g4 w. unfold bind, gets. simpl.
    destruct (Gateway.usdt_base g); simpl; reflexivity. }
  rewrite Heq.
  destruct (subscribe_each_run Private (WsApi.subscribed w) g4) as [Hok _].
  destruct (subscribe_each_state Private (WsApi.subscribed w) (WsApi.subscribed w)
              g4 Hunique (fun x H => H) Hunique Hs4)
    as (Hs & Hin & Hout & Hb & Ha & Ho & Hh & Hom & Hrq & Hev).
  cbn [Ws.this other] in Hs, Hin, Hout, Hb, Ha, Ho.
  split; [exact Hok |].
  split; [exact Hs |].
  split; [intros req Hreq; rewrite (Hin req Hreq), Hh4; reflexivity |].
  split; [intros s Hs'; rewrite (Hout s Hs'), Ht4; reflexivity |].
  split; [by rewrite Hb |].
  split; [by rewrite Ha |].
  split; [by rewrite Ho |].
  split; [by rewrite Hom |].
  split; [by rewrite Hrq |].
  by rewrite Hev.
Qed.

Lemma on_login_resets_ticks_witness :
  let g1 := snd (Ws.on_login Private Sample.auth_reply Sample.with_book) in
  WsApi.ticks (Gateway.ws_api g1) !! "BTCUSD"
  = Some (TickData.new "BTCUSD" BYBIT (Host.now Sample.host))
  /\ WsApi.symbol_bids (Gateway.ws_api g1)
     = WsApi.symbol_bids (Gateway.ws_api Sample.with_book).
Proof.
  assert (Hunique : subscribed_unique
                      (WsApi.subscribed (Gateway.ws_api Sample.with_book))).
  { vm_compute. repeat constructor; set_solver. }
  destruct (on_login_resets_ticks Sample.auth_reply Sample.with_book eq_refl Hunique)
    as (_ & _ & Hin & _ & Hb & _).
  split; [| exact Hb].
  apply (Hin Sample.BTCUSD). vm_compute. left.
Defined.

(** ** The remembered requests *)

Lemma subscribed_set_symbols (req : SubscribeRequest.t)
    (l : list SubscribeRequest.t) :
  SubscribeRequest.symbol <$> Ws.subscribed_set req l
  = if decide (SubscribeRequest.symbol req ∈ SubscribeRequest.symbol <$> l)
    then SubscribeRequest.symbol <$> l
    else (SubscribeRequest.symbol <$> l) ++ [SubscribeRequest.symbol req].
Proof.
  induction l as [| r l IH]; cbn [Ws.subscribed_set fmap list_fmap].
  - rewrite decide_False; [reflexivity | apply not_elem_of_nil].
  - destruct (String.eqb_spec (SubscribeRequest.symbol r) (SubscribeRequest.symbol req))
      as [Heq | Hne]; cbn [fmap list_fmap].
    + rewrite decide_True by (rewrite Heq; left). by rewrite Heq.
    + rewrite IH.
      destruct (decide (SubscribeRequest.symbol req ∈ SubscribeRequest.symbol <$> l))
        as [Hin | Hout].
      * rewrite decide_True by (by right). reflexivity.
      * rewrite decide_False; [reflexivity |].
        intros [Heq | Hin]%elem_of_cons; [by apply Hne | by apply Hout].
Qed.

Lemma subscribed_set_elem (req r : SubscribeRequest.t)
    (l : list SubscribeRequest.t) :
  subscribed_unique l ->
  r ∈ Ws.subscribed_set req l
  <-> r = req
      \/ (r ∈ l /\ SubscribeRequest.symbol r <> SubscribeRequest.symbol req).
Proof.
  unfold subscribed_unique.
  induction l as [| x l IH]; intros Hnodup; cbn [Ws.subscribed_set].
  - rewrite list_elem_of_singleton. split; [by left |].
    intros [-> | [Hin _]]; [done | by apply elem_of_nil in Hin].
  - cbn [fmap list_fmap] in Hnodup.
    apply NoDup_cons in Hnodup as [Hfresh Hnodup].
    destruct (String.eqb_spec (SubscribeRequest.symbol x) (SubscribeRequest.symbol req))
      as [Heq | Hne]; rewrite !elem_of_cons.
    + split.
      * intros [-> | Hin]; [by left | right].
        split; [by right |]. intros Hr. apply Hfresh. rewrite Heq, <- Hr.
        apply list_elem_of_fmap. by exists r.
      * intros [-> | [[-> | Hin] Hr]]; [by left | done | by right].
    + rewrite (IH Hnodup). split.
      * intros [-> | [-> | [Hin Hr]]]; [right | by left | right]; split; auto.
      * intros [-> | [[-> | Hin] Hr]]; [right | |]; auto.
Qed.

(** X9.  [subscribe] keeps the remembered requests keyed by symbol: the new
    request takes the place of the one remembered for its symbol, if any, the
    requests of the other symbols stay, and no symbol is remembered twice. *)
Theorem subscribe_remembers (self : api) (req : SubscribeRequest.t)
    (g : Gateway.t) :
  let l := WsApi.subscribed (Ws.this self g) in
  let l1 := WsApi.subscribed (Ws.this self (snd (Ws.subscribe self req g))) in
  subscribed_unique l ->
  subscribed_unique l1
  /\ (forall r, r ∈ l1 <->
        r = req
        \/ (r ∈ l /\ SubscribeRequest.symbol r <> SubscribeRequest.symbol req)).
Proof.
  intros l l1 Hunique.
  assert (Hl1 : l1 = Ws.subscribed_set req l).
  { subst l1. rewrite subscribe_state. cbn [snd]. by rewrite this_set_this. }
  rewrite Hl1. split; [| intros r; by apply subscribed_set_elem].
  unfold subscribed_unique in *. rewrite subscribed_set_symbols.
  destruct (decide (SubscribeRequest.symbol req ∈ SubscribeRequest.symbol <$> l))
    as [Hin | Hout]; [exact Hunique |].
  apply NoDup_app. split; [exact Hunique |].
  split; [| apply NoDup_singleton].
  intros s Hs Hs'. apply list_elem_of_singleton in Hs'. by subst s.
Qed.

Lemma subscribe_remembers_witness :
  let l1 := WsApi.subscribed (Gateway.ws_api Example.two_symbols) in
  subscribed_unique l1 /\ Sample.BTCUSD ∈ l1 /\ Sample.ETHUSD ∈ l1.
Proof.
  assert (Hunique : subscribed_unique
                      (WsApi.subscribed (Ws.this Private Sample.subscribed))).
  { vm_compute. repeat constructor; set_solver. }
  destruct (subscribe_remembers Private Sample.ETHUSD Sample.subscribed Hunique)
    as [Hnodup Hiff].
  split; [exact Hnodup |].
  split; apply Hiff.
  - right. split; [vm_compute; left | discriminate].
  - by left.
Defined.

(** X10.  The gateway's [subscribe] works on one session only, the public
    one in USDT mode and the private one otherwise: that session gets the two
    handlers and sends the two subscribe frames of the symbol; the other
    session, the order manager, the REST requests and the events are as
    before. *)
Theorem gateway_subscribe_one_session (req : SubscribeRequest.t) (g : Gateway.t) :
  let used := if Gateway.usdt_base g then Public else Private in
  let r := BybitGateway.subscribe req g in
  let symbol := SubscribeRequest.symbol req in
  fst r = Ok tt
  /\ WsApi.callbacks (Ws.this used (snd r)) !! ("instrument_info.100ms." +:+ symbol)
     = Some h_on_tick
  /\ WsApi.callbacks (Ws.this used (snd r)) !! ("orderBookL2_25." +:+ symbol)
     = Some h_on_depth
  /\ WsApi.sent (Ws.this used (snd r))
     = WsApi.sent (Ws.this used g) ++ (subscribe_frame <$> market_topics req)
  /\ Ws.this (other used) (snd r) = Ws.this (other used) g
  /\ Gateway.order_manager (snd r) = Gateway.order_manager g
  /\ Gateway.requests (snd r) = Gateway.requests g
  /\ Gateway.events (snd r) = Gateway.events g.
Proof.
  intros used r symbol.
  assert (Hr : r = Ws.subscribe used req g).
  { subst r used. unfold BybitGateway.subscribe. rewrite bind_run.
    cbn [gets fst snd]. by destruct (Gateway.usdt_base g). }
  rewrite Hr, subscribe_state. cbv zeta. cbn [fst snd].
  rewrite this_set_this. cbn [WsApi.callbacks WsApi.sent].
  fold symbol.
  split; [reflexivity |].
  split; [rewrite lookup_insert_ne by done; by rewrite lookup_insert_eq |].
  split; [by rewrite lookup_insert_eq |].
  split; [reflexivity |].
  by destruct used.
Qed.

(** ** History without a last page *)

Section FullPages.

Context (req : HistoryRequest.t) (venue : nat -> Z -> HttpResponse.t).


End FullPages.



(** ** Batches of private rows *)

Lemma set_events_twice (a b : list event) (g : Gateway.t) :
  Gateway.set_events a (Gateway.set_events b g) = Gateway.set_events a g.
Proof. reflexivity. Qed.

Lemma set_events_same (g : Gateway.t) : Gateway.set_events (Gateway.events g) g = g.
Proof. by destruct g. Qed.

(** X12.  [on_trade] publishes the rows of a batch one by one and stops at
    the first row it cannot convert: the trades of the rows before it are
    out, in row order and each under the client id of its row or, when that is
    empty, the venue id; the bad row and every row after it are lost, with
    KeyError for an unknown side and ValueError for a time that does not parse.
    Nothing but the event stream changes. *)
Theorem on_trade_stops_at_bad_row (packet : Packet.t) (rows : list TradeMsg.t)
    (g : Gateway.t) :
  Packet.data packet = Trades rows ->
  let h := Gateway.host g in
  let r := Ws.on_trade packet g in
  exists trades,
    Gateway.events (snd r) = Gateway.events g ++ (EvTrade <$> trades)
    /\ Gateway.set_events (Gateway.events g) (snd r) = g
    /\ Forall2 (trade_of_row h) (take (length trades) rows) trades
    /\ match fst r with
       | Ok _ => length trades = length rows
       | Raise e =>
           exists d,
             rows !! length trades = Some d
             /\ trade_row_ok h d = false
             /\ e = match DIRECTION_BYBIT2VT (TradeMsg.side d) with
                    | None => KeyError
                    | Some _ => ValueError
                    end
       end.
Proof.
  intros Hdata h r. subst r. unfold Ws.on_trade. rewrite Hdata.
  assert (Hh : Gateway.host g = h) by reflexivity.
  clearbody h. clear Hdata.
  match goal with
  | |- context [for_each rows ?b g] => set (body := b)
  end.
  assert (Hbody : forall d g, Gateway.host g = h ->
            body d g
            = match DIRECTION_BYBIT2VT (TradeMsg.side d),
                    Host.strptime h (TradeMsg.trade_time d) with
              | Some direction, Some dt =>
                  (Ok tt,
                   Gateway.set_events
                     (Gateway.events g
                      ++ [EvTrade
                            (TradeData.mk (TradeMsg.symbol d) BYBIT
                               (if String.eqb (TradeMsg.order_link_id d) ""
                                then TradeMsg.order_id d
                                else TradeMsg.order_link_id d)
                               (TradeMsg.exec_id d) direction (TradeMsg.price d)
                               (TradeMsg.exec_qty d) dt)])
                     g)
              | Some _, None => (Raise ValueError, g)
              | None, _ => (Raise KeyError, g)
              end).
  { intros d g0 Hg0. subst body. cbv beta. rewrite bind_run. unfold table.
    destruct (DIRECTION_BYBIT2VT (TradeMsg.side d)) as [direction |];
      [| reflexivity].
    cbn [ret]. rewrite bind_run. unfold generate_datetime.
    rewrite bind_run. cbn [gets]. rewrite Hg0.
    by destruct (Host.strptime h (TradeMsg.trade_time d)). }
  clearbody body. revert g Hh.
  induction rows as [| d rows IH]; intros g Hh.
  - exists []. cbn. rewrite app_nil_r, set_events_same. repeat split. constructor.
  - cbn [for_each]. rewrite bind_run, (Hbody d g Hh).
    destruct (DIRECTION_BYBIT2VT (TradeMsg.side d)) as [direction |] eqn:Hdir.
    + destruct (Host.strptime h (TradeMsg.trade_time d)) as [dt |] eqn:Hdt.
      * match goal with
        | |- context [EvTrade ?t] => set (trade := t)
        end.
        set (g1 := Gateway.set_events (Gateway.events g ++ [EvTrade trade]) g).
        destruct (IH g1 Hh) as (trades & Hev & Hrest & Hrows & Hend).
        exists (trade :: trades).
        split; [rewrite Hev; cbn; by rewrite <- app_assoc |].
        split.
        { etransitivity;
            [symmetry; apply (set_events_twice _ (Gateway.events g1)) |].
          rewrite Hrest. subst g1. rewrite set_events_twice.
          apply set_events_same. }
        split.
        { cbn [length take]. constructor; [| exact Hrows].
          subst trade. unfold trade_of_row. cbn. by rewrite Hdir, Hdt. }
        destruct (fst (for_each rows body g1)) as [[] | e]; cbn [length].
        -- by rewrite Hend.
        -- exact Hend.
      * exists []. cbn. rewrite app_nil_r, set_events_same.
        repeat split; [constructor |].
        exists d. unfold trade_row_ok. by rewrite Hdir, Hdt.
    + exists []. cbn. rewrite app_nil_r, set_events_same.
      repeat split; [constructor |].
      exists d. unfold trade_row_ok. by rewrite Hdir.
Qed.

Lemma on_trade_stops_at_bad_row_witness :
  exists trades,
    Gateway.events (snd (Ws.on_trade Example.executions Sample.inverse))
    = EvTrade <$> trades
    /\ Forall2 (trade_of_row Sample.host)
         (take (length trades)
            [Example.execution "E1" "Buy"; Example.execution "E2" "Hold";
             Example.execution "E3" "Sell"])
         trades.
Proof.
  destruct (on_trade_stops_at_bad_row Example.executions
              [Example.execution "E1" "Buy"; Example.execution "E2" "Hold";
               Example.execution "E3" "Sell"] Sample.inverse eq_refl)
    as (trades & Hev & _ & Hrows & _).
  exists trades. split; [exact Hev | exact Hrows].
Defined.

(** In the example the first execution is published, the second has the
    side [Hold] and raises, the third is never looked at. *)
Lemma on_trade_example :
  fst (Ws.on_trade Example.executions Sample.inverse) = Raise KeyError
  /\ Gateway.events (snd (Ws.on_trade Example.executions Sample.inverse))
     = [EvTrade (TradeData.mk "BTCUSD" BYBIT "L1" "E1" LONG 90000000 1
                   1600000000000000)].
Proof. vm_compute. by split. Qed.

(** ** Paging through the order list *)

Section OnlyEvents.

Context (P : event -> Prop).






End OnlyEvents.




(** ** Replies that carry an error, and requests that raise *)

(** X13.  An acknowledgment with a non-zero [ret_code] makes [on_send_order]
    write one log line and nothing else: no venue id is bound, the order keeps
    the status it had and no order event is emitted.  A refused cancellation
    is reported by [on_cancel_order] with the very same line. *)
Theorem on_send_order_refused (data : Reply.t OrderAck.t) (g : Gateway.t) :
  Reply.ret_code data <> 0 ->
  let line := EvLog (LogCheckError SendOrder (Reply.ret_code data) (Reply.ret_msg data)) in
  Rest.on_send_order data g
  = (Ok tt, Gateway.set_events (Gateway.events g ++ [line]) g)
  /\ Gateway.order_manager (snd (Rest.on_send_order data g)) = Gateway.order_manager g
  /\ forall R (cancel : Reply.t R),
       Reply.ret_code cancel = Reply.ret_code data ->
       Reply.ret_msg cancel = Reply.ret_msg data ->
       Cancel.on_cancel_order cancel g = Rest.on_send_order data g.
Proof.
  intros Hcode line.
  apply Z.eqb_neq in Hcode.
  assert (Hrun : Rest.on_send_order data g
                 = (Ok tt, Gateway.set_events (Gateway.events g ++ [line]) g)).
  { unfold Rest.on_send_order, Rest.check_error. by rewrite Hcode. }
  rewrite Hrun. repeat split.
  intros R cancel Hc Hm.
  unfold Cancel.on_cancel_order, Rest.check_error. by rewrite Hc, Hm, Hcode.
Qed.

Lemma on_send_order_refused_witness :
  Gateway.order_manager (snd (Rest.on_send_order Example.ack_refused Sample.submitted))
  = Gateway.order_manager Sample.submitted
  /\ Cancel.on_cancel_order Example.cancel_refused Sample.submitted
     = Rest.on_send_order Example.ack_refused Sample.submitted.
Proof.
  destruct (on_send_order_refused Example.ack_refused Sample.submitted)
    as (_ & Hom & Hcancel); [discriminate |].
  split; [exact Hom |].
  by apply Hcancel.
Defined.


(** X16.  When sending an order raises anything outside the ConnectionError
    family, [on_send_order_error] first rejects the order -- stored and
    emitted as an order event -- and then records the exception: one log line
    after the order event, and one entry on stderr. *)
Theorem on_send_order_error_recorded
    (t : exception_type) (value : string) (request : Request.t)
    (order : OrderData.t) (g : Gateway.t) :
  issubclass_ConnectionError t = false ->
  Request.extra request = Some order ->
  let rejected := OrderData.set_status REJECTED order in
  let r := Rest.on_send_order_error t value request g in
  fst r = Ok tt
  /\ Gateway.events (snd r)
     = Gateway.events g ++ [EvOrder rejected; EvLog (LogException t value)]
  /\ Gateway.stderr (snd r) = Gateway.stderr g ++ [(t, value)]
  /\ LocalOrderManager.orders (Gateway.order_manager (snd r)) !! OrderData.orderid order
     = Some rejected
  /\ Gateway.requests (snd r) = Gateway.requests g.
Proof.
  intros Hother Hextra rejected r. subst r.
  unfold Rest.on_send_order_error. rewrite Hextra, Hother. simpl.
  rewrite <- app_assoc. repeat split. apply lookup_insert_eq.
Qed.

Lemma on_send_order_error_recorded_witness :
  Gateway.events
    (snd (Rest.on_send_order_error (OtherException "JSONDecodeError") "bad reply"
            Sample.send_order_request Sample.inverse))
  = [EvOrder (OrderData.set_status REJECTED Sample.order);
     EvLog (LogException (OtherException "JSONDecodeError") "bad reply")].
Proof.
  apply (on_send_order_error_recorded (OtherException "JSONDecodeError") "bad reply"
           Sample.send_order_request Sample.order Sample.inverse); reflexivity.
Defined.


(** ** Positions and accounts *)

Lemma emit_each_run {A} (f : A -> event) (rows : list A) (g : Gateway.t) :
  for_each rows (fun d => emit (f d)) g
  = (Ok tt, Gateway.set_events (Gateway.events g ++ (f <$> rows)) g).
Proof.
  revert g. induction rows as [| d rows IH]; intros g.
  - cbn. by rewrite app_nil_r, set_events_same.
  - cbn [for_each]. rewrite bind_run.
    change (emit (f d) g)
      with (Ok tt, Gateway.set_events (Gateway.events g ++ [f d]) g).
    cbv beta iota. rewrite IH. cbn. by rewrite <- app_assoc.
Qed.

(** X17.  [on_position] and [on_account] never fail on a batch of rows and
    publish one event per row, in row order, changing nothing else.  A
    position is always net, with the size of a [Buy] row as its volume and
    the negated size of any other row; an account is always named USDT, with
    the wallet balance as its balance and the float difference of wallet and
    available balance as what is frozen. *)
Theorem positions_and_accounts_published (packet : Packet.t) (g : Gateway.t) :
  (forall rows, Packet.data packet = Positions rows ->
     exists positions,
       Ws.on_position packet g
       = (Ok tt,
          Gateway.set_events (Gateway.events g ++ (EvPosition <$> positions)) g)
       /\ Forall2 position_of_row rows positions)
  /\ (forall rows, Packet.data packet = Accounts rows ->
        exists accounts,
          Ws.on_account packet g
          = (Ok tt,
             Gateway.set_events (Gateway.events g ++ (EvAccount <$> accounts)) g)
          /\ Forall2 account_of_row rows accounts).
Proof.
  split; intros rows Hdata.
  - unfold Ws.on_position. rewrite Hdata.
    match goal with
    | |- context [for_each rows (fun d => emit (EvPosition (@?f d)))] =>
        exists (f <$> rows);
        rewrite (emit_each_run (fun d => EvPosition (f d)) rows g)
    end.
    split; [by rewrite <- list_fmap_compose |].
    apply Forall2_fmap_r, Forall_Forall2_diag, Forall_forall.
    intros d _. unfold position_of_row. cbn.
    repeat split.
    + by intros ->.
    + intros Hside. apply String.eqb_neq in Hside. by rewrite Hside.
  - unfold Ws.on_account. rewrite Hdata.
    match goal with
    | |- context [for_each rows (fun d => emit (EvAccount (@?f d)))] =>
        exists (f <$> rows);
        rewrite (emit_each_run (fun d => EvAccount (f d)) rows g)
    end.
    split; [by rewrite <- list_fmap_compose |].
    apply Forall2_fmap_r, Forall_Forall2_diag, Forall_forall.
    intros d _. unfold account_of_row. cbn.
    by repeat split.
Qed.

Lemma positions_and_accounts_published_witness :
  exists positions,
    Ws.on_position Example.positions Sample.inverse
    = (Ok tt, Gateway.set_events (EvPosition <$> positions) Sample.inverse)
    /\ Forall2 position_of_row
         [PositionMsg.mk "BTCUSD" "Buy" 3 90000000;
          PositionMsg.mk "ETHUSD" "Sell" 5 3000000]
         positions.
Proof.
  destruct (positions_and_accounts_published Example.positions Sample.inverse)
    as [Hpositions _].
  exact (Hpositions _ eq_refl).
Defined.

(** ** A handler that raises after it has written *)

Lemma tick_of_lookup (self : api) (symbol : string) (t : TickData.t)
    (g : Gateway.t) :
  WsApi.ticks (Ws.this self g) !! symbol = Some t ->
  Ws.tick_of self symbol g = (Ok t, g).
Proof.
  intros Ht. unfold Ws.tick_of. rewrite bind_run. cbn [gets].
  unfold getitem. by rewrite Ht.
Qed.

Lemma tick_set_lookup (self : api) (symbol : string)
    (h : TickData.t -> TickData.t) (t : TickData.t) (g : Gateway.t) :
  WsApi.ticks (Ws.this self g) !! symbol = Some t ->
  WsApi.ticks (Ws.this self (snd (Ws.tick_set self symbol h g))) !! symbol
  = Some (h t).
Proof.
  intros Ht. unfold Ws.tick_set, Ws.update, modify. cbn [snd].
  rewrite this_set_this. cbn. by rewrite lookup_alter_eq, Ht.
Qed.

(** X18.  In the private class [on_tick] reads the time stamp last, from the
    packet's [data]: a delta that brings a new non-zero last price but has no
    [updated_at] beside its rows raises KeyError after the price (and the
    volume, if the row has one) is written.  The cached tick has changed,
    with its old time stamp, and no tick event is emitted. *)
Theorem on_tick_writes_then_raises (packet : Packet.t) (topic : string)
    (fields : TickMsg.t) (rows : list TickMsg.t) (row : TickMsg.t) (v : Z)
    (t0 : TickData.t) (g : Gateway.t) :
  Packet.topic packet = Some topic ->
  String.eqb (Packet.type_ packet) "snapshot" = false ->
  Packet.data packet = TickFields fields (Some rows) ->
  rows !! 0%nat = Some row ->
  TickMsg.last_price_e4 row = Some (SInt v) ->
  v <> 0 ->
  TickMsg.updated_at fields = None ->
  let symbol := replace topic "instrument_info.100ms." "" in
  WsApi.ticks (Gateway.ws_api g) !! symbol = Some t0 ->
  let r := Ws.on_tick Private packet g in
  fst r = Raise KeyError
  /\ Gateway.events (snd r) = Gateway.events g
  /\ exists t1,
       WsApi.ticks (Gateway.ws_api (snd r)) !! symbol = Some t1
       /\ TickData.last_price t1 = (v # 10000)%Q
       /\ TickData.datetime_ t1 = TickData.datetime_ t0
       /\ depth_part t1 = depth_part t0.
Proof.
  intros Htopic Htype Hdata Hrows Hprice Hv Hstamp symbol Ht0 r. subst r.
  apply Z.eqb_neq in Hv.
  unfold Ws.on_tick. rewrite Htopic, Hdata, Htype. cbn [key].
  rewrite bind_run. cbn [ret]. rewrite bind_run. cbn [ret].
  rewrite bind_run. fold symbol.
  rewrite (tick_of_lookup Private symbol t0 g Ht0).
  rewrite bind_run, bind_run. cbn [key ret]. rewrite bind_run.
  unfold index. rewrite Hrows. cbn [ret]. rewrite bind_run, Hprice.
  cbn [truthy]. rewrite Hv. cbn [negb]. rewrite bind_run.
  cbn [Ws.scaled truediv ret]. rewrite bind_run.
  pose proof (tick_set_lookup Private symbol
                (TickData.set_last_price (v # 10000)%Q) t0 g Ht0) as Ht1.
  assert (Hev1 : Gateway.events
                   (snd (Ws.tick_set Private symbol
                           (TickData.set_last_price (v # 10000)%Q) g))
                 = Gateway.events g) by reflexivity.
  destruct (Ws.tick_set Private symbol (TickData.set_last_price (v # 10000)%Q) g)
    as [[] g1] eqn:Hg1; [| discriminate Hg1].
  cbn [snd] in Ht1, Hev1. cbn [ret]. rewrite bind_run.
  destruct (Ws.volume_key Private row) as [vol |].
  - rewrite bind_run. cbn [Ws.volume_of ret].
    pose proof (tick_set_lookup Private symbol
                  (TickData.set_volume (VRaw vol)) _ g1 Ht1) as Ht2.
    assert (Hev2 : Gateway.events
                     (snd (Ws.tick_set Private symbol
                             (TickData.set_volume (VRaw vol)) g1))
                   = Gateway.events g1) by reflexivity.
    destruct (Ws.tick_set Private symbol (TickData.set_volume (VRaw vol)) g1)
      as [[] g2] eqn:Hg2; [| discriminate Hg2].
    cbn [snd] in Ht2, Hev2. cbn [ret]. rewrite bind_run, Hstamp. cbn.
    split; [reflexivity |]. split; [congruence |].
    eexists. split; [exact Ht2 |]. by repeat split.
  - cbn [ret]. rewrite bind_run, Hstamp. cbn.
    split; [reflexivity |]. split; [congruence |].
    eexists. split; [exact Ht1 |]. by repeat split.
Qed.

Lemma on_tick_writes_then_raises_witness :
  fst (Ws.on_tick Private Example.tick_delta Sample.subscribed) = Raise KeyError
  /\ exists t1,
       WsApi.ticks (Gateway.ws_api (snd (Ws.on_tick Private Example.tick_delta
                                           Sample.subscribed))) !! "BTCUSD"
       = Some t1
       /\ TickData.last_price t1 = (95000000 # 10000)%Q.
Proof.
  destruct (on_tick_writes_then_raises Example.tick_delta
              "instrument_info.100ms.BTCUSD"
              (TickMsg.mk None None None None)
              [TickMsg.mk (Some (SInt 95000000)) None None None]
              (TickMsg.mk (Some (SInt 95000000)) None None None)
              95000000
              (TickData.new "BTCUSD" BYBIT (Host.now Sample.host))
              Sample.subscribed)
    as (Hraise & _ & t1 & Ht1 & Hprice & _); try reflexivity; [discriminate |].
  split; [exact Hraise |].
  exists t1. split; [exact Ht1 | exact Hprice].
Defined.

(** ** Replies without a topic *)

(** X19.  A packet without a topic is a reply to a request.  [on_packet]
    needs the operation it replies to and raises KeyError without it; a reply
    to anything but [auth] is dropped and changes nothing; and the public
    class, which never logs in, has no [on_login] to hand an [auth] reply to
    and raises AttributeError. *)
Theorem on_packet_reply (self : api) (packet : Packet.t) (g : Gateway.t) :
  Packet.topic packet = None ->
  (Packet.request_op packet = None ->
   Ws.on_packet self packet g = (Raise KeyError, g))
  /\ (forall op, Packet.request_op packet = Some op -> op <> "auth" ->
      Ws.on_packet self packet g = (Ok tt, g))
  /\ (Packet.request_op packet = Some "auth" -> self = Public ->
      Ws.on_packet self packet g = (Raise AttributeError, g))
  /\ (Packet.request_op packet = Some "auth" -> self = Private ->
      Ws.on_packet self packet g = Ws.on_login Private packet g).
Proof.
  intros Htopic. unfold Ws.on_packet. rewrite Htopic.
  repeat split.
  - by intros ->.
  - intros op -> Hop. apply String.eqb_neq in Hop.
    rewrite bind_run. cbn [key ret]. by rewrite Hop.
  - by intros -> ->.
  - by intros -> ->.
Qed.

Lemma on_packet_reply_witness :
  Ws.on_packet Public Example.subscribe_reply Sample.subscribed_public
  = (Ok tt, Sample.subscribed_public).
Proof.
  destruct (on_packet_reply Public Example.subscribe_reply Sample.subscribed_public
              eq_refl) as (_ & Hother & _).
  apply (Hother "subscribe"); [reflexivity | discriminate].
Defined.

(** ** Pushes for an order the gateway knows *)


